(** * marimo: cell compilation ([marimo/_ast/compiler.py]) and notebook
    renaming ([marimo/_server/file_manager.py])

    A shallow embedding of the two Python modules.  Python [str] values are
    sequences of Unicode code points, Python [int]s are unbounded, sets and
    dictionaries are finite sets and finite maps.  Everything the modules
    obtain from the interpreter or from other marimo modules (the parser,
    the tokenizer, [hash], the scope visitor, the file system, ...) is a
    field of a record of capabilities; the functions of the two modules are
    written out over those records. *)

From Stdlib Require Import ZArith NArith Ascii String List Lia Bool.
From stdpp Require Import base option list gmap fin_sets.

Local Open Scope Z_scope.
Set Warnings "-register-all".

(** ** Python strings *)

(** A [str] is a list of code points. *)
Abbreviation pystr := (list N).

(** A literal, written as a Rocq string of ASCII characters. *)
Definition py (s : string) : pystr := N_of_ascii <$> list_ascii_of_string s.

Module Str.

(** [s.startswith(p)] *)
Fixpoint startswith (p s : pystr) : bool :=
  match p, s with
  | [], _ => true
  | _ :: _, [] => false
  | a :: p', b :: s' => if decide (a = b) then startswith p' s' else false
  end.

(** What is left of [s] after the leading [p], if [s] starts with [p]. *)
Fixpoint strip_prefix (p s : pystr) : option pystr :=
  match p, s with
  | [], _ => Some s
  | _ :: _, [] => None
  | a :: p', b :: s' => if decide (a = b) then strip_prefix p' s' else None
  end.

(** [p in s] *)
Fixpoint contains (p s : pystr) : bool :=
  startswith p s
  || match s with [] => false | _ :: s' => contains p s' end.

(** [s.replace(old, new)] for a one-character [old]. *)
Definition replace_char (old : N) (new : pystr) (s : pystr) : pystr :=
  s ≫= (λ c, if decide (c = old) then new else [c]).

(** [str.isspace] on one character: the code points whose bidirectional
    class is WS, B or S, or whose category is Zs. *)
Definition isspace (c : N) : bool :=
  ((9 <=? c) && (c <=? 13) || (28 <=? c) && (c <=? 32) || (c =? 133)
   || (c =? 160) || (c =? 5760) || (8192 <=? c) && (c <=? 8202)
   || (c =? 8232) || (c =? 8233) || (c =? 8239) || (c =? 8287)
   || (c =? 12288))%N.

Fixpoint lstrip (s : pystr) : pystr :=
  match s with
  | c :: s' => if isspace c then lstrip s' else s
  | [] => []
  end.

(** [s.strip()] *)
Definition strip (s : pystr) : pystr := reverse (lstrip (reverse (lstrip s))).

(** The line boundaries of [str.splitlines], CR apart: LF, VT, FF, FS, GS,
    RS, NEL, LS and PS. *)
Definition is_linebreak (c : N) : bool :=
  ((10 <=? c) && (c <=? 12) || (28 <=? c) && (c <=? 30) || (c =? 133)
   || (c =? 8232) || (c =? 8233))%N.

(** [splitlines_from cur s]: the lines of [s], [cur] being the current
    line read so far, in reverse.  CR LF is one boundary; a text that ends
    in a boundary has no empty last line. *)
Fixpoint splitlines_from (cur : pystr) (s : pystr) : list pystr :=
  match s with
  | [] => match cur with [] => [] | _ => [reverse cur] end
  | c :: s' =>
      if decide (c = 13%N) then
        match s' with
        | d :: s'' =>
            if decide (d = 10%N) then reverse cur :: splitlines_from [] s''
            else reverse cur :: splitlines_from [] s'
        | [] => [reverse cur]
        end
      else if is_linebreak c then reverse cur :: splitlines_from [] s'
      else splitlines_from (c :: cur) s'
  end.

(** [s.splitlines()] *)
Definition splitlines (s : pystr) : list pystr := splitlines_from [] s.

End Str.

(** ** Exceptions *)

(** The exceptions the modelled code can meet.  All of them derive from
    Python's [Exception]. *)
Inductive exn :=
  | SyntaxError | TokenError | AttributeError | TypeError | IndexError
  | ImportError | HTTPException (status : N) | OtherError (tag : N).

(** The outcome of a call: a value, or a raised exception. *)
Inductive result (A : Type) :=
  | Ok (a : A)
  | Raise (e : exn).
Arguments Ok {A} a.
Arguments Raise {A} e.

#[global] Instance result_ret : MRet result := λ A a, Ok a.
#[global] Instance result_bind : MBind result := λ A B f r,
  match r with Ok a => f a | Raise e => Raise e end.

(** ** Syntax trees *)

(** The value of an attribute slot of a node: never assigned (reading it
    raises [AttributeError], [getattr] with a default yields the default),
    [None], or an integer. *)
Inductive attr := Unset | PyNone | PyInt (z : Z).

Record location := Loc {
  lineno : attr;
  col_offset : attr;
  end_lineno : attr;
  end_col_offset : attr;
}.

Inductive attr_name := A_lineno | A_col_offset | A_end_lineno | A_end_col_offset.

#[global] Instance attr_name_eq_dec : EqDecision attr_name.
Proof. solve_decision. Defined.

Inductive constant := CNone | CValue (tag : N).

(** The node classes the compiler tells apart; every other class of [ast]
    is [Located] when it carries the four position attributes (statements,
    expressions, arguments, ...) and [Bare] when it carries none
    (operators, contexts, comprehensions, ...). *)
Inductive node_class :=
  | FunctionDef (name : pystr)
  | AsyncFunctionDef (name : pystr)
  | ClassDef (name : pystr)
  | Return
  | Import
  | ImportFrom
  | Expr
  | Constant (value : constant)
  | TypeIgnore
  | Located (tag : N)
  | Bare (tag : N).

(** A node: its class, its position slots and its child nodes, in field
    order.  For [TypeIgnore] the [lineno] slot is the [lineno] field. *)
Inductive node := Node (cls : node_class) (loc : location) (fields : list node).

Definition node_cls (n : node) : node_class := let 'Node c _ _ := n in c.
Definition node_loc (n : node) : location := let 'Node _ l _ := n in l.
Definition node_fields (n : node) : list node := let 'Node _ _ f := n in f.

(** [cls._attributes] *)
Definition _attributes (c : node_class) : list attr_name :=
  match c with
  | TypeIgnore | Bare _ => []
  | _ => [A_lineno; A_col_offset; A_end_lineno; A_end_col_offset]
  end.

(** [ast.Module] *)
Record Module := {
  body : list node;
  type_ignores : list node;
}.

(** [ast.Expression], with the three attributes [compile_cell] assigns to
    it.  The class has no [_attributes]. *)
Record Expression := {
  expr_body : node;
  expr_lineno : attr;
  expr_col_offset : attr;
  expr_end_col_offset : attr;
}.

(** [SourcePosition] *)
Record SourcePosition := {
  sp_filename : pystr;
  sp_lineno : Z;
  sp_col_offset : Z;
}.

(** ** Position remapping *)

(** [getattr(child, name, default)] on a slot *)
Definition getattr (a : attr) (default : attr) : attr :=
  match a with Unset => default | _ => a end.

(** [value + offset]: [None + int] is a [TypeError]. *)
Definition add_offset (a : attr) (d : Z) : result attr :=
  match a with
  | PyInt z => Ok (PyInt (z + d))
  | _ => Raise TypeError
  end.

Definition has_attribute (a : attr_name) (c : node_class) : bool :=
  bool_decide (a ∈ _attributes c).

(** The body of the loop of [fix_source_position] for one [child]. *)
Definition fix_child (c : node_class) (l : location) (sp : SourcePosition)
  : result location :=
  let line_offset := sp_lineno sp in
  let col_offset_ := sp_col_offset sp in
  match c with
  | TypeIgnore =>
      v ← add_offset (getattr (lineno l) (PyInt 0)) line_offset;
      mret (Loc v (col_offset l) (end_lineno l) (end_col_offset l))
  | _ =>
      l1 ← (if has_attribute A_lineno c then
              v ← add_offset (getattr (lineno l) (PyInt 0)) line_offset;
              mret (Loc v (col_offset l) (end_lineno l) (end_col_offset l))
            else mret l);
      l2 ← (if has_attribute A_col_offset c then
              v ← add_offset (getattr (col_offset l1) (PyInt 0)) col_offset_;
              mret (Loc (lineno l1) v (end_lineno l1) (end_col_offset l1))
            else mret l1);
      l3 ← (if has_attribute A_end_lineno c then
              match getattr (end_lineno l2) (PyInt 0) with
              | PyNone => mret l2
              | e =>
                  v ← add_offset e line_offset;
                  mret (Loc (lineno l2) (col_offset l2) v (end_col_offset l2))
              end
            else mret l2);
      (if has_attribute A_end_col_offset c then
         match getattr (end_col_offset l3) (PyInt 0) with
         | PyNone => mret l3
         | e =>
             v ← add_offset e col_offset_;
             mret (Loc (lineno l3) (col_offset l3) (end_lineno l3) v)
         end
       else mret l3)
  end.

(** [fix_source_position(node, source_position)].  [ast.walk] yields every
    node of the tree once, and the loop body touches the slots of the
    yielded node only, so the mutation in place is the node-wise rewriting
    of the tree; an exception in the loop body leaves the function. *)
Fixpoint fix_source_position (n : node) (sp : SourcePosition) : result node :=
  match n with
  | Node c l fields =>
      l' ← fix_child c l sp;
      fields' ← mapM (λ k, fix_source_position k sp) fields;
      mret (Node c l' fields')
  end.

Definition fix_nodes (ns : list node) (sp : SourcePosition) : result (list node) :=
  mapM (λ k, fix_source_position k sp) ns.

(** The same, called on a [Module]: the module itself has no position. *)
Definition fix_source_position_module (m : Module) (sp : SourcePosition)
  : result Module :=
  b ← fix_nodes (body m) sp;
  t ← fix_nodes (type_ignores m) sp;
  mret {| body := b; type_ignores := t |}.

(** The same, called on an [Expression]: [Expression] has no
    [_attributes], so the attributes assigned to it stay as they are. *)
Definition fix_source_position_expression (e : Expression) (sp : SourcePosition)
  : result Expression :=
  b ← fix_source_position (expr_body e) sp;
  mret {| expr_body := b; expr_lineno := expr_lineno e;
          expr_col_offset := expr_col_offset e;
          expr_end_col_offset := expr_end_col_offset e |}.

(** ** Tokens *)

Inductive token_type :=
  | ENDMARKER | NAME | NUMBER | STRING | NEWLINE | INDENT | DEDENT | OP
  | COMMENT | NL | ENCODING | ERRORTOKEN.

Record token := {
  tok_type : token_type;
  tok_string : pystr;
}.

(** The token types [ends_with_semicolon] steps over. *)
Definition skipped (t : token_type) : bool :=
  match t with
  | ENDMARKER | NEWLINE | NL | COMMENT | INDENT | DEDENT | ENCODING => true
  | _ => false
  end.

(** ** Results of the analysis *)

(** Modelled from the spec: [ImportData] of [marimo._ast.visitor], the
    import descriptor: module, imported symbol and the name the import
    defines (the alias).  Equality of descriptors is equality of all
    fields. *)
Record ImportData := {
  imp_module : pystr;
  imported_symbol : option pystr;
  definition : pystr;
}.

#[global] Instance ImportData_eq_dec : EqDecision ImportData.
Proof. solve_decision. Defined.

(** Modelled from the spec: [VariableData] of [marimo._ast.visitor], the
    metadata on how a name was defined; [import_data] is [None] for a
    definition that is not an import. *)
Record VariableData := {
  kind : pystr;
  import_data : option ImportData;
}.

(** What [compile_cell] reads off the [ScopedVisitor] after [v.visit(module)],
    and the tree as the visit leaves it. *)
Record Visited := {
  v_module : Module;
  v_defs : gset pystr;
  v_refs : gset pystr;
  v_deleted_refs : gset pystr;
  v_variable_data : gmap pystr (list VariableData);
  v_language : pystr;
}.

(** ** Compiled artifacts *)

(** What [compile] was given: a module in mode [exec] or an expression in
    mode [eval]. *)
Inductive code_root :=
  | ExecTree (m : Module)
  | EvalTree (e : Expression).

(** A code object, identified by the tree and the file name it was compiled
    from. *)
Record code_object := {
  co_tree : code_root;
  co_filename : pystr;
}.

Record ImportWorkspace := {
  is_import_block : bool;
  imported_defs : gset pystr;
}.

(** [CellImpl].  [import_workspace] and [_test] are [None] where the
    constructor call does not pass them and the default of the dataclass
    applies. *)
Module Cell.
Record CellImpl := {
  key : Z;
  code : pystr;
  mod_ : Module;
  defs : gset pystr;
  refs : gset pystr;
  temporaries : gset pystr;
  variable_data : gmap pystr (list VariableData);
  import_workspace : option ImportWorkspace;
  deleted_refs : gset pystr;
  language : pystr;
  body : option code_object;
  last_expr : option code_object;
  cell_id : pystr;
  _test : option bool;
}.
End Cell.
Abbreviation CellImpl := Cell.CellImpl.

(** ** The interpreter and the rest of marimo *)

(** What the pytest hook did to the module it was given: the tree as it
    left it, and the exception it raised, if any. *)
Record Rewritten := {
  rw_module : Module;
  rw_raised : option exn;
}.

Record Host := {
  (** [hash(s)] *)
  hash : pystr → Z;
  (** [s.lower()] *)
  lower : pystr → pystr;
  (** [compile(code, "<unknown>", mode="exec", dont_inherit=True,
      flags=PyCF_ONLY_AST | PyCF_ALLOW_TOP_LEVEL_AWAIT)] *)
  parse : pystr → result Module;
  (** [list(tokenize(io.BytesIO(s.encode("utf-8")).readline))] *)
  tokenize : pystr → result (list token);
  (** [get_tmpdir()] *)
  get_tmpdir : pystr;
  (** [is_local(name)] *)
  is_local : pystr → bool;
  (** [v = ScopedVisitor(prefix); v.visit(module)] *)
  scoped_visit : pystr → Module → result Visited;
  (** [compile(tree, filename, mode, dont_inherit=True, flags=...)]: the
      exception it raises, if any. *)
  compile_error : code_root → pystr → option exn;
  (** [from _pytest.assertion.rewrite import rewrite_asserts], [None] when
      the import fails; called as
      [rewrite_asserts(module, code.encode("utf-8"), module_path=filename)]. *)
  rewrite_asserts : option (Module → pystr → pystr → Rewritten);
}.

(** [compile(tree, filename, ...)] on a tree *)
Definition compile_ast (h : Host) (t : code_root) (filename : pystr)
  : result code_object :=
  match compile_error h t filename with
  | None => Ok {| co_tree := t; co_filename := filename |}
  | Some e => Raise e
  end.

(** ** [marimo/_ast/compiler.py] *)

Definition code_key (h : Host) (code : pystr) : Z := hash h code.

Definition underscore : N := 95.
Definition newline : N := 10.
Definition nbsp : N := 160.

(** The rest of the pattern after its literal part, [(.*?)_], matched at
    the start of [s]: the group is the shortest run of characters other
    than a line feed that an underscore follows. *)
Fixpoint lazy_group (s : pystr) : option pystr :=
  match s with
  | [] => None
  | c :: s' =>
      if decide (c = underscore) then Some []
      else if decide (c = newline) then None
      else (c ::.) <$> lazy_group s'
  end.

(** The group of the leftmost match of [__marimo__cell_(.*?)_] in [s]: the
    first element of [re.findall(...)], [None] when the list is empty. *)
Fixpoint findall_first (s : pystr) : option pystr :=
  match s with
  | [] => None
  | _ :: s' =>
      match Str.strip_prefix (py "__marimo__cell_") s ≫= lazy_group with
      | Some g => Some g
      | None => findall_first s'
      end
  end.

Definition cell_id_from_filename (filename : pystr) : option pystr :=
  findall_first filename.

(** [os.path.join(a, b)] of [posixpath] *)
Definition path_join (a b : pystr) : pystr :=
  if Str.startswith (py "/") b then b
  else if bool_decide (a = []) || Str.startswith (py "/") (reverse a) then a ++ b
  else a ++ py "/" ++ b.

Definition get_filename (h : Host) (cell_id : pystr) (suffix : pystr) : pystr :=
  let basename := py "__marimo__cell_" ++ cell_id ++ py "_" in
  path_join (get_tmpdir h) (basename ++ suffix ++ py ".py").

(** The loop of [ends_with_semicolon], over the reversed token list. *)
Fixpoint last_token_is_semicolon (reversed_tokens : list token) : bool :=
  match reversed_tokens with
  | [] => false
  | t :: ts =>
      if skipped (tok_type t) then last_token_is_semicolon ts
      else bool_decide (tok_string t = py ";")
  end.

Definition ends_with_semicolon (h : Host) (code : pystr) : result bool :=
  tokens ← tokenize h (Str.strip code);
  mret (last_token_is_semicolon (reverse tokens)).

(** The loop of [contains_only_tests]; [scope] is the whole body. *)
Fixpoint contains_only_tests_loop (h : Host) (scope rest : list node) : bool :=
  match rest with
  | [] => bool_decide (scope ≠ [])
  | n :: rest' =>
      match node_cls n with
      | Return => true
      | FunctionDef name | AsyncFunctionDef name | ClassDef name =>
          if Str.startswith (py "test") (lower h name)
          then contains_only_tests_loop h scope rest'
          else false
      | _ => false
      end
  end.

Definition contains_only_tests (h : Host) (tree : Module) : bool :=
  let scope := body tree in
  contains_only_tests_loop h scope scope.

(** *** The process-wide state the compiler writes to *)

(** An entry of [linecache.cache]: [(size, mtime, lines, fullname)], the
    [mtime] being [None]. *)
Record linecache_entry := {
  lc_size : nat;
  lc_lines : list pystr;
  lc_fullname : pystr;
}.

Record World := {
  linecache : gmap pystr linecache_entry;
  (** the warnings sent to [LOGGER], latest first *)
  warnings : list pystr;
}.

(** A computation that reads and writes the world and may raise. *)
Definition M (A : Type) : Type := World → result A * World.

#[global] Instance M_ret : MRet M := λ A a w, (Ok a, w).
#[global] Instance M_bind : MBind M := λ A B f m w,
  match m w with
  | (Ok a, w') => f a w'
  | (Raise e, w') => (Raise e, w')
  end.

Definition lift {A} (r : result A) : M A := λ w, (r, w).

Definition LOGGER_warning (msg : pystr) : M () := λ w,
  (Ok (), {| linecache := linecache w; warnings := msg :: warnings w |}).

Definition cache (filename : pystr) (code : pystr) : M () := λ w,
  let entry := {| lc_size := length code;
                  lc_lines := (λ line, line ++ [newline]) <$> Str.splitlines code;
                  lc_fullname := filename |} in
  (Ok (), {| linecache := <[filename := entry]> (linecache w);
             warnings := warnings w |}).

(** *** [compile_cell] *)

(** Reading an attribute of a node: [AttributeError] when it was never
    assigned. *)
Definition read (a : attr) : result attr :=
  match a with Unset => Raise AttributeError | _ => Ok a end.

(** [a or 0] *)
Definition or_zero (a : attr) : attr :=
  match a with
  | PyInt z => if decide (z = 0) then PyInt 0 else a
  | _ => PyInt 0
  end.

Definition is_import (stmt : node) : bool :=
  match node_cls stmt with Import | ImportFrom => true | _ => false end.

Definition is_Expr (stmt : node) : bool :=
  match node_cls stmt with Expr => true | _ => false end.

(** [stmt.value] of an [ast.Expr]: its one field. *)
Definition value (stmt : node) : result node :=
  match node_fields stmt with
  | v :: _ => Ok v
  | [] => Raise AttributeError
  end.

(** [module.body[-1]] *)
Definition final_statement (module : Module) : result node :=
  match last (body module) with
  | Some n => Ok n
  | None => Raise IndexError
  end.

(** [const = ast.Constant(value=None)] with the three assignments to it. *)
Definition none_constant (lineno_ : Z) (final_end_col : attr) : node :=
  Node (Constant CNone)
       (Loc (PyInt lineno_) (or_zero final_end_col) PyNone final_end_col) [].

(** The split of the trailing value: the module whose body is compiled and
    the expression whose value the cell shows. *)
Definition split_last_expr (h : Host) (code : pystr) (module : Module)
  : result (Module * Expression) :=
  final_expr ← final_statement module;
  semicolon ← (if is_Expr final_expr then ends_with_semicolon h code
               else mret false);
  if is_Expr final_expr && negb semicolon then
    v ← value final_expr;
    ln ← read (lineno (node_loc final_expr));
    ec ← read (end_col_offset (node_loc final_expr));
    mret ({| body := removelast (body module);
             type_ignores := type_ignores module |},
          {| expr_body := v; expr_lineno := ln;
             expr_col_offset := ec; expr_end_col_offset := ec |})
  else
    ec ← read (end_col_offset (node_loc final_expr));
    let ln := Z.of_nat (length (Str.splitlines code)) + 1 in
    mret (module,
          {| expr_body := none_constant ln ec; expr_lineno := PyInt ln;
             expr_col_offset := ec; expr_end_col_offset := ec |}).

(** The pytest assertion rewriting under its [try]: the module as the
    hook leaves it; a failure of the import or of the hook is logged. *)
Definition try_rewrite_asserts (h : Host) (module : Module) (code filename : pystr)
  : M Module :=
  match rewrite_asserts h with
  | None =>
      _ ← LOGGER_warning (py "pytest is not installed, skipping assertion rewriting");
      mret module
  | Some rewrite =>
      let r := rewrite module code filename in
      match rw_raised r with
      | None => mret (rw_module r)
      | Some _ =>
          _ ← LOGGER_warning (py "pytest is not installed, skipping assertion rewriting");
          mret (rw_module r)
      end
  end.

(** The choice of the file name: with a source position the two trees are
    moved to it and the file is the real one; without, the file name is the
    synthetic one and the code goes to the line cache. *)
Definition anchor_position (h : Host) (cell_id code : pystr)
    (source_position : option SourcePosition)
    (module : Module) (expr : Expression) : M (Module * Expression * pystr) :=
  match source_position with
  | Some sp =>
      module ← lift (fix_source_position_module module sp);
      expr ← lift (fix_source_position_expression expr sp);
      mret (module, expr, sp_filename sp)
  | None =>
      let filename := get_filename h cell_id [] in
      _ ← cache filename code;
      mret (module, expr, filename)
  end.

(** The names of the carried imports that [variable_data] imports again. *)
Definition carried_defs (variable_data : gmap pystr (list VariableData))
    (carried_imports : list ImportData) : gset pystr :=
  foldr (λ data acc,
    foldr (λ datum acc,
      match import_data datum with
      | None => acc
      | Some import_data =>
          foldr (λ previous_import_data acc,
            if decide (previous_import_data = import_data)
            then {[ definition import_data ]} ∪ acc else acc)
            acc carried_imports
      end) acc data)
    ∅ (map_to_list variable_data).*2.

Definition compile_cell (h : Host) (code : pystr) (cell_id : pystr)
    (source_position : option SourcePosition)
    (carried_imports : option (list ImportData)) (test_rewrite : bool)
  : M CellImpl :=
  let code := Str.replace_char nbsp (py " ") code in
  module ← lift (parse h code);
  if bool_decide (body module = []) then
    mret {| Cell.key := hash h (py ""); Cell.code := code; Cell.mod_ := module;
            Cell.defs := ∅; Cell.refs := ∅; Cell.temporaries := ∅;
            Cell.variable_data := ∅; Cell.import_workspace := None;
            Cell.deleted_refs := ∅; Cell.language := py "python";
            Cell.body := None; Cell.last_expr := None;
            Cell.cell_id := cell_id; Cell._test := None |}
  else
    let is_test := contains_only_tests h module in
    let is_import_block := forallb is_import (body module) in
    v ← lift (scoped_visit h (py "cell_" ++ cell_id) module);
    let module := v_module v in
    let original_module := module in
    '(module, expr) ← lift (split_last_expr h code module);
    '(module, expr, filename) ←
      anchor_position h cell_id code source_position module expr;
    module ← (if is_test || test_rewrite
              then try_rewrite_asserts h module code filename
              else mret module);
    body ← lift (compile_ast h (ExecTree module) filename);
    last_expr ← lift (compile_ast h (EvalTree expr) filename);
    let nonlocals := filter (λ name, is_local h name = false) (v_defs v) in
    let temporaries := v_defs v ∖ nonlocals in
    let variable_data : gmap pystr (list VariableData) :=
      list_to_map (omap (λ name, (name,.) <$> v_variable_data v !! name)
                        (elements nonlocals)) in
    let imported_defs :=
      match carried_imports with
      | Some carried =>
          if is_import_block then carried_defs variable_data carried else ∅
      | None => ∅
      end in
    mret {| Cell.key := code_key h code; Cell.code := code;
            Cell.mod_ := original_module;
            Cell.defs := nonlocals; Cell.refs := v_refs v;
            Cell.temporaries := temporaries;
            Cell.variable_data := variable_data;
            Cell.import_workspace :=
              Some {| is_import_block := is_import_block;
                      imported_defs := imported_defs |};
            Cell.deleted_refs := v_deleted_refs v;
            Cell.language := v_language v;
            Cell.body := Some body; Cell.last_expr := Some last_expr;
            Cell.cell_id := cell_id; Cell._test := Some is_test |}.

(** ** [marimo/_server/file_manager.py] *)

Module FileManager.

(** What [AppFileManager] takes from the operating system and from the
    rest of marimo.  [FS] is the state of the file system and of the
    process (working directory, log), [App] is [InternalApp] and [IR] is
    [NotebookSerializationV1]. *)
Record OS (FS App IR : Type) := {
  (** [canonicalize_filename(filename)] *)
  canonicalize_filename : pystr → pystr;
  (** [os.path.abspath(path)] *)
  abspath : FS → pystr → pystr;
  (** [os.path.exists(path)] *)
  path_exists : FS → pystr → bool;
  (** [pathlib.Path(filename).parent.mkdir(parents=True, exist_ok=True)]
      under [try ... except Exception: pass] *)
  mkdir_parents : pystr → FS → FS;
  (** [Path(filename).write_text(contents, encoding="utf-8")] *)
  write_text : pystr → pystr → FS → result () * FS;
  (** [src_path.rename(dst_path)] *)
  rename_path : pystr → pystr → FS → result () * FS;
  (** [open(filename, encoding="utf-8").read()] *)
  read_text : pystr → FS → result pystr;
  (** [LOGGER.debug("Saving app to %s", filename)] *)
  log_debug : pystr → FS → FS;
  (** [app.to_ir()] *)
  to_ir : App → IR;
  (** [Exporter().export_as_md(ir, filename, previous)[0]] *)
  export_as_md : IR → option pystr → option pystr → FS → result pystr;
  (** [headers = get_headers_from_markdown(markdown)], then
      [headers.get("header", None) or headers.get("pyproject", None)] *)
  markdown_header : pystr → option pystr;
  (** [codegen.get_header_comments(filename)] *)
  get_header_comments : pystr → FS → option pystr;
  (** [MarimoConvert.from_ir(NotebookSerializationV1(app=notebook.app,
      cells=notebook.cells, header=Header(value=header))).to_py()] *)
  to_py : IR → pystr → result pystr;
}.
Arguments canonicalize_filename {FS App IR}.
Arguments abspath {FS App IR}.
Arguments path_exists {FS App IR}.
Arguments mkdir_parents {FS App IR}.
Arguments write_text {FS App IR}.
Arguments rename_path {FS App IR}.
Arguments read_text {FS App IR}.
Arguments log_debug {FS App IR}.
Arguments to_ir {FS App IR}.
Arguments export_as_md {FS App IR}.
Arguments markdown_header {FS App IR}.
Arguments get_header_comments {FS App IR}.
Arguments to_py {FS App IR}.

(** The fields of an [AppFileManager] that change. *)
Record AppFileManager (App : Type) := {
  filename : option pystr;
  app : App;
}.
Arguments filename {App}.
Arguments app {App}.

Definition BAD_REQUEST : N := 400.
Definition SERVER_ERROR : N := 500.
Definition RecursionError : exn := OtherError 0.
Definition AssertionError : exn := OtherError 1.

(** [s[-n:]] *)
Definition last_chars (n : nat) (s : pystr) : pystr :=
  drop (length s - n) s.

(** [s.endswith(e)] *)
Definition endswith (e s : pystr) : bool :=
  Str.startswith (reverse e) (reverse s).

Section Manager.
Context {FS App IR : Type} (os : OS FS App IR).

(** A method: it reads and writes the manager and the file system, and
    may raise. *)
Definition FM (A : Type) : Type :=
  AppFileManager App * FS → result A * (AppFileManager App * FS).

#[local] Instance FM_ret : MRet FM := λ A a st, (Ok a, st).
#[local] Instance FM_bind : MBind FM := λ A B f m st,
  match m st with
  | (Ok a, st') => f a st'
  | (Raise e, st') => (Raise e, st')
  end.

Definition raise {A} (e : exn) : FM A := λ st, (Raise e, st).
Definition get_filename_ : FM (option pystr) := λ st, (Ok (filename st.1), st).
Definition get_app : FM App := λ st, (Ok (app st.1), st).
Definition set_filename (f : option pystr) : FM () := λ st,
  (Ok (), ({| filename := f; app := app st.1 |}, st.2)).
Definition get_fs : FM FS := λ st, (Ok st.2, st).
Definition on_fs (f : FS → FS) : FM () := λ st, (Ok (), (st.1, f st.2)).
Definition of_result {A} (r : result A) : FM A := λ st, (r, st).

(** [try: op except Exception as err: raise HTTPException(
    status_code=HTTPStatus.SERVER_ERROR, ...) from err] *)
Definition or_server_error (op : FS → result () * FS) : FM () := λ st,
  match op st.2 with
  | (Ok _, fs') => (Ok (), (st.1, fs'))
  | (Raise _, fs') => (Raise (HTTPException SERVER_ERROR), (st.1, fs'))
  end.

Definition _is_same_path (filename_ : pystr) : FM bool :=
  self_filename ← get_filename_;
  match self_filename with
  | None => mret false
  | Some f =>
      fs ← get_fs;
      mret (bool_decide (abspath os fs f = abspath os fs filename_))
  end.

Definition _assert_path_does_not_exist (filename_ : pystr) : FM () :=
  fs ← get_fs;
  if path_exists os fs filename_ then raise (HTTPException BAD_REQUEST)
  else mret ().

Definition _create_parent_directories (filename_ : pystr) : FM () :=
  on_fs (mkdir_parents os filename_).

Definition _create_file (filename_ : pystr) (contents : pystr) : FM () :=
  _ ← _create_parent_directories filename_;
  or_server_error (write_text os filename_ contents).

Definition _rename_file (new_filename : pystr) : FM () :=
  self_filename ← get_filename_;
  match self_filename with
  | None => raise AssertionError
  | Some f =>
      _ ← _create_parent_directories new_filename;
      or_server_error (rename_path os f new_filename)
  end.

(** [if b: m] *)
Definition when_ (b : bool) (m : FM ()) : FM () :=
  if b then m else mret ().

Definition _is_unnamed : FM bool :=
  self_filename ← get_filename_;
  mret (bool_decide (self_filename = None)).

(** [_save_file], the method it calls when the notebook is unnamed
    being [rename]. *)
Definition _save_file_with (rename : pystr → FM ())
    (filename_ : pystr) (notebook : IR) (persist : bool)
    (previous_filename : option pystr) : FM pystr :=
  _ ← on_fs (log_debug os filename_);
  let type_changed :=
    match previous_filename with
    | Some p => negb (bool_decide (p = []))
                && negb (bool_decide (last_chars 2 filename_ = last_chars 2 p))
    | None => false
    end in
  contents ←
    (if endswith (py ".md") filename_ || endswith (py ".qmd") filename_ then
       let previous :=
         match previous_filename with
         | Some p => if bool_decide (p = []) then None else Some p
         | None => None
         end in
       a ← get_app;
       self_filename ← get_filename_;
       fs ← get_fs;
       of_result (export_as_md os (to_ir os a) self_filename previous fs)
     else
       header_comments ←
         (if type_changed then
            fs ← get_fs;
            markdown ← of_result (read_text os filename_ fs);
            mret (markdown_header os markdown)
          else
            fs ← get_fs;
            mret (get_header_comments os filename_ fs));
       of_result (to_py os notebook (default [] header_comments)));
  _ ← when_ persist (_create_file filename_ contents);
  unnamed ← _is_unnamed;
  _ ← when_ unnamed (rename filename_);
  mret contents.

(** [rename], the method it calls to save being [_save_file]. *)
Definition rename_with
    (_save_file : pystr → IR → bool → option pystr → FM pystr)
    (new_filename : pystr) : FM () :=
  let new_filename := canonicalize_filename os new_filename in
  same ← _is_same_path new_filename;
  if (same : bool) then (mret () : FM ())
  else
    _ ← _assert_path_does_not_exist new_filename;
    self_filename ← get_filename_;
    needs_save ←
      match self_filename return FM bool with
      | Some f =>
          let needs_save :=
            negb (bool_decide (last_chars 3 f = last_chars 3 new_filename)) in
          _ ← _rename_file new_filename;
          mret needs_save
      | None =>
          _ ← _create_file new_filename [];
          mret false
      end;
    let previous_filename := self_filename in
    _ ← set_filename (Some new_filename);
    when_ needs_save
      (a ← get_app;
       _ ← _save_file new_filename (to_ir os a) true previous_filename;
       mret ()).

(** The two methods call each other; [depth] bounds the nesting of the
    calls, a call beyond it being a [RecursionError]. *)
Fixpoint rename_at (depth : nat) : pystr → FM () :=
  rename_with
    (_save_file_with
       match depth with
       | O => λ _, raise RecursionError
       | S d => rename_at d
       end).

Definition _save_file_at (depth : nat)
  : pystr → IR → bool → option pystr → FM pystr :=
  _save_file_with (rename_at depth).

(** No call nests deeper than [rename] in [_save_file] in [rename]. *)
Definition rename : pystr → FM () := rename_at 2.
Definition _save_file : pystr → IR → bool → option pystr → FM pystr :=
  _save_file_at 2.

End Manager.

End FileManager.

(** * Vocabulary of the properties *)

(** ** Position remapping *)

(** A slot holds an integer. *)
Definition is_int (a : attr) : bool :=
  match a with PyInt _ => true | _ => false end.

(** A slot holds an integer or [None]. *)
Definition is_optional_int (a : attr) : bool :=
  match a with Unset => false | _ => true end.

(** The positions of a node as the parser sets them: [lineno] and
    [col_offset] are integers, [end_lineno] and [end_col_offset] are
    integers or [None]; a [TypeIgnore] has an integer [lineno]. *)
Definition valid_location (c : node_class) (l : location) : bool :=
  match c with
  | TypeIgnore => is_int (lineno l)
  | Bare _ => true
  | _ => is_int (lineno l) && is_int (col_offset l)
         && is_optional_int (end_lineno l) && is_optional_int (end_col_offset l)
  end.

Fixpoint valid_tree (n : node) : bool :=
  match n with
  | Node c l fields => valid_location c l && forallb valid_tree fields
  end.

(** The remapping as the specification words it: an integer is shifted, a
    slot that holds none is left as it is. *)
Definition shifted (a : attr) (d : Z) : attr :=
  match a with PyInt z => PyInt (z + d) | _ => a end.

Definition remapped_location (c : node_class) (l : location)
    (line_offset col_offset_ : Z) : location :=
  match c with
  | TypeIgnore =>
      Loc (shifted (lineno l) line_offset) (col_offset l)
          (end_lineno l) (end_col_offset l)
  | Bare _ => l
  | _ =>
      Loc (shifted (lineno l) line_offset) (shifted (col_offset l) col_offset_)
          (shifted (end_lineno l) line_offset)
          (shifted (end_col_offset l) col_offset_)
  end.

Fixpoint remapped (line_offset col_offset_ : Z) (n : node) : node :=
  match n with
  | Node c l fields =>
      Node c (remapped_location c l line_offset col_offset_)
           (remapped line_offset col_offset_ <$> fields)
  end.

(** The trees [compile_cell] remaps are a module and an expression.  A
    module has positions as the parser sets them when its statements and
    its type-ignore comments have. *)
Definition valid_module (m : Module) : bool :=
  forallb valid_tree (body m) && forallb valid_tree (type_ignores m).

(** The remapping of a module: of every statement and of every
    type-ignore comment; the module itself has no position. *)
Definition remapped_module (line_offset col_offset_ : Z) (m : Module) : Module :=
  {| body := remapped line_offset col_offset_ <$> body m;
     type_ignores := remapped line_offset col_offset_ <$> type_ignores m |}.

(** The remapping of an expression: of the tree under it; what was
    assigned to the [Expression] itself is no position of its class and
    stays. *)
Definition remapped_expression (line_offset col_offset_ : Z) (e : Expression)
  : Expression :=
  {| expr_body := remapped line_offset col_offset_ (expr_body e);
     expr_lineno := expr_lineno e;
     expr_col_offset := expr_col_offset e;
     expr_end_col_offset := expr_end_col_offset e |}.

(** ** Synthetic file names *)

(** The literal part of the pattern occurs in [s]. *)
Definition marker_in (s : pystr) : Prop :=
  ∃ a b, s = a ++ py "__marimo__cell_" ++ b.


(** ** The text [compile_cell] works on *)

(** The user text with every non-breaking space replaced by a space. *)
Definition normalized (code : pystr) : pystr :=
  Str.replace_char nbsp (py " ") code.

(** The cell [compile_cell] returns for a non-empty body, from the parsed
    module, what the visitor found and the two artifacts. *)
Definition assembled_cell (h : Host) (code cell_id : pystr)
    (carried_imports : option (list ImportData))
    (m : Module) (v : Visited) (body_ last_expr_ : code_object) : CellImpl :=
  let nonlocals := filter (λ name, is_local h name = false) (v_defs v) in
  let variable_data : gmap pystr (list VariableData) :=
    list_to_map (omap (λ name, (name,.) <$> v_variable_data v !! name)
                      (elements nonlocals)) in
  {| Cell.key := hash h code; Cell.code := code; Cell.mod_ := v_module v;
     Cell.defs := nonlocals; Cell.refs := v_refs v;
     Cell.temporaries := v_defs v ∖ nonlocals;
     Cell.variable_data := variable_data;
     Cell.import_workspace :=
       Some {| is_import_block := forallb is_import (body m);
               imported_defs :=
                 match carried_imports with
                 | Some carried =>
                     if forallb is_import (body m)
                     then carried_defs variable_data carried else ∅
                 | None => ∅
                 end |};
     Cell.deleted_refs := v_deleted_refs v; Cell.language := v_language v;
     Cell.body := Some body_; Cell.last_expr := Some last_expr_;
     Cell.cell_id := cell_id;
     Cell._test := Some (contains_only_tests h m) |}.

(** ** The trailing expression *)

(** What a token is to the question whether the text ends in a
    semicolon: white space (the two kinds of line end), a comment, a
    token of the structure of the text (indentation, the encoding, the end
    marker), or a token that means something. *)
Inductive token_role := Whitespace | Comment | Structural | Meaningful.

#[global] Instance token_role_eq_dec : EqDecision token_role.
Proof. solve_decision. Defined.

Definition role (t : token_type) : token_role :=
  match t with
  | NEWLINE | NL => Whitespace
  | COMMENT => Comment
  | INDENT | DEDENT | ENCODING | ENDMARKER => Structural
  | NAME | NUMBER | STRING | OP | ERRORTOKEN => Meaningful
  end.

(** The last token that means something. *)
Definition last_meaningful_token (tokens : list token) : option token :=
  last (filter (λ t, role (tok_type t) = Meaningful) tokens).

Definition last_token_is_a_semicolon (tokens : list token) : Prop :=
  tok_string <$> last_meaningful_token tokens = Some (py ";").

(** The text, once tokenized, does not end in a semicolon. *)
Definition no_final_semicolon (h : Host) (code : pystr) : Prop :=
  ∃ tokens, tokenize h (Str.strip code) = Ok tokens
            ∧ ¬ last_token_is_a_semicolon tokens.

Definition final_semicolon (h : Host) (code : pystr) : Prop :=
  ∃ tokens, tokenize h (Str.strip code) = Ok tokens
            ∧ last_token_is_a_semicolon tokens.

(** [n'] is [n] as [compile_cell] positions it: moved to the source
    position, if there is one. *)
Definition positioned (source_position : option SourcePosition) (n n' : node)
  : Prop :=
  match source_position with
  | Some sp => fix_source_position n sp = Ok n'
  | None => n' = n
  end.

(** The same for a module. *)
Definition positioned_module (source_position : option SourcePosition)
    (m m' : Module) : Prop :=
  match source_position with
  | Some sp => fix_source_position_module m sp = Ok m'
  | None => m' = m
  end.

(** The line offset of the source position, if there is one. *)
Definition line_offset_of (source_position : option SourcePosition) : Z :=
  match source_position with
  | Some sp => sp_lineno sp
  | None => 0
  end.

(** ** Carried imports *)

(** Every import descriptor in [variable_data] is filed under the name it
    defines, as the visitor files them. *)
Definition filed_by_definition (variable_data : gmap pystr (list VariableData))
  : Prop :=
  ∀ name data datum i,
    variable_data !! name = Some data → datum ∈ data →
    import_data datum = Some i → definition i = name.

(** ** Classification *)

(** A function or class definition whose lowered name starts with [test]. *)
Definition is_test_definition (h : Host) (stmt : node) : bool :=
  match node_cls stmt with
  | FunctionDef name | AsyncFunctionDef name | ClassDef name =>
      Str.startswith (py "test") (lower h name)
  | _ => false
  end.

Definition is_return (stmt : node) : bool :=
  match node_cls stmt with Return => true | _ => false end.

(** The statements, read in order, are test definitions up to the end or
    up to a return statement. *)
Definition test_only_in_order (h : Host) (stmts : list node) : Prop :=
  ∃ tests others,
    stmts = tests ++ others
    ∧ Forall (λ stmt, is_test_definition h stmt = true) tests
    ∧ (others = [] ∨ ∃ r others', others = r :: others' ∧ is_return r = true).

(** The run of [compile_cell] on the parsed module [m] gets to the step
    that rewrites assertions: the visitor, the split of the trailing
    value and the choice of the file name do not raise. *)
Definition reaches_rewriting (h : Host) (code cell_id : pystr)
    (source_position : option SourcePosition) (w : World) (m : Module) : Prop :=
  ∃ v m1 e1 r w1,
    scoped_visit h (py "cell_" ++ cell_id) m = Ok v
    ∧ split_last_expr h (normalized code) (v_module v) = Ok (m1, e1)
    ∧ anchor_position h cell_id (normalized code) source_position m1 e1 w
      = (Ok r, w1).

(** ** The process before any cell is compiled *)

Definition empty_world : World := {| linecache := ∅; warnings := [] |}.

Definition add_warning (msg : pystr) (w : World) : World :=
  {| linecache := linecache w; warnings := msg :: warnings w |}.

Definition rewrite_warning : pystr :=
  py "pytest is not installed, skipping assertion rewriting".

(** [h] with the pytest hook replaced by one that leaves the module as
    [h]'s hook leaves it (as it is when the hook cannot be imported) and
    does not raise. *)
Definition with_silent_hook (h : Host) : Host :=
  {| hash := hash h; lower := lower h; parse := parse h; tokenize := tokenize h;
     get_tmpdir := get_tmpdir h; is_local := is_local h;
     scoped_visit := scoped_visit h; compile_error := compile_error h;
     rewrite_asserts :=
       Some (λ module code filename,
         {| rw_module := match rewrite_asserts h with
                         | Some rewrite => rw_module (rewrite module code filename)
                         | None => module
                         end;
            rw_raised := None |}) |}.

(** The pytest hook of [h] fails on this call: it cannot be imported, or it
    raises. *)
Definition rewrite_fails (h : Host) (module : Module) (code filename : pystr)
  : Prop :=
  match rewrite_asserts h with
  | None => True
  | Some rewrite => rw_raised (rewrite module code filename) ≠ None
  end.

(** The tree the failed hook leaves. *)
Definition rewrite_leaves (h : Host) (module : Module) (code filename : pystr)
  : Module :=
  match rewrite_asserts h with
  | None => module
  | Some rewrite => rw_module (rewrite module code filename)
  end.

(** ** The trailing expression, in the artifacts *)

(** [tree] is what the body artifact is compiled from when the statements
    to run are those of [stmts]: [stmts] positioned and then, for a
    test-only cell or on request, as the pytest hook leaves it. *)
Definition body_tree (h : Host) (source_position : option SourcePosition)
    (rewriting : bool) (code filename : pystr) (stmts tree : Module) : Prop :=
  ∃ placed, positioned_module source_position stmts placed
    ∧ tree = if rewriting then rewrite_leaves h placed code filename else placed.

(** The value of the last statement [final] of [module] is detached: the
    expression [e] that the trailing-expression artifact is compiled from
    is that value, positioned, and has the line of the statement; and the
    body artifact is compiled from the statements before [final]. *)
Definition detached (h : Host) (source_position : option SourcePosition)
    (rewriting : bool) (code filename : pystr)
    (module : Module) (final : node) (tree : Module) (e : Expression) : Prop :=
  (∃ val, head (node_fields final) = Some val
          ∧ positioned source_position val (expr_body e))
  ∧ expr_lineno e = lineno (node_loc final)
  ∧ ∃ stmts, body module = stmts ++ [final]
      ∧ body_tree h source_position rewriting code filename
          {| body := stmts; type_ignores := type_ignores module |} tree.

(** A [None] is made up: the expression [e] is a constant [None] with no
    child, it has the line after the last line of [code], the constant
    has that line moved as the source position says, and the body
    artifact is compiled from all the statements of [module]. *)
Definition synthesized (h : Host) (source_position : option SourcePosition)
    (rewriting : bool) (code filename : pystr)
    (module : Module) (tree : Module) (e : Expression) : Prop :=
  let line := Z.of_nat (length (Str.splitlines code)) + 1 in
  node_cls (expr_body e) = Constant CNone
  ∧ node_fields (expr_body e) = []
  ∧ lineno (node_loc (expr_body e)) = PyInt (line + line_offset_of source_position)
  ∧ expr_lineno e = PyInt line
  ∧ body_tree h source_position rewriting code filename module tree.

(** * A sample interpreter

    A host that knows a handful of cells, with the trees and tokens CPython
    gives for them; the lemmas below are run on it. *)
Module Demo.

Definition Assign := Located 1.
Definition Name := Located 2.
Definition BinOp := Located 3.
Definition alias := Located 4.
Definition Pass := Located 5.
Definition Load := Bare 1.
Definition Store := Bare 2.
Definition Add := Bare 3.
Definition arguments := Bare 4.

Definition at_ (line col end_line end_col : Z) : location :=
  Loc (PyInt line) (PyInt col) (PyInt end_line) (PyInt end_col).
Definition nowhere : location := Loc Unset Unset Unset Unset.

(** [# c] *)
Definition comment_code : pystr := py "# c".
Definition comment_module : Module := {| body := []; type_ignores := [] |}.

(** [import os] *)
Definition import_code : pystr := py "import os".
Definition import_module : Module :=
  {| body := [Node Import (at_ 1 0 1 9) [Node alias (at_ 1 7 1 9) []]];
     type_ignores := [] |}.

(** [x = 1], [_y = 2], [x + _y] on three lines *)
Definition sum_code : pystr :=
  py "x = 1" ++ [newline] ++ py "_y = 2" ++ [newline] ++ py "x + _y".
Definition sum_expr : node :=
  Node BinOp (at_ 3 0 3 6)
    [Node Name (at_ 3 0 3 1) [Node Load nowhere []];
     Node Add nowhere [];
     Node Name (at_ 3 4 3 6) [Node Load nowhere []]].
Definition sum_module : Module :=
  {| body :=
       [Node Assign (at_ 1 0 1 5)
          [Node Name (at_ 1 0 1 1) [Node Store nowhere []];
           Node (Constant (CValue 1)) (at_ 1 4 1 5) []];
        Node Assign (at_ 2 0 2 6)
          [Node Name (at_ 2 0 2 2) [Node Store nowhere []];
           Node (Constant (CValue 2)) (at_ 2 5 2 6) []];
        Node Expr (at_ 3 0 3 6) [sum_expr]];
     type_ignores := [] |}.
Definition sum_tokens : list token :=
  [ {| tok_type := ENCODING; tok_string := py "utf-8" |};
    {| tok_type := NAME; tok_string := py "x" |};
    {| tok_type := OP; tok_string := py "=" |};
    {| tok_type := NUMBER; tok_string := py "1" |};
    {| tok_type := NEWLINE; tok_string := [newline] |};
    {| tok_type := NAME; tok_string := py "_y" |};
    {| tok_type := OP; tok_string := py "=" |};
    {| tok_type := NUMBER; tok_string := py "2" |};
    {| tok_type := NEWLINE; tok_string := [newline] |};
    {| tok_type := NAME; tok_string := py "x" |};
    {| tok_type := OP; tok_string := py "+" |};
    {| tok_type := NAME; tok_string := py "_y" |};
    {| tok_type := NEWLINE; tok_string := [] |};
    {| tok_type := ENDMARKER; tok_string := [] |} ].

(** [x = 1] and [return] on two lines *)
Definition return_code : pystr := py "x = 1" ++ [newline] ++ py "return".
Definition return_module : Module :=
  {| body :=
       [Node Assign (at_ 1 0 1 5)
          [Node Name (at_ 1 0 1 1) [Node Store nowhere []];
           Node (Constant (CValue 1)) (at_ 1 4 1 5) []];
        Node Return (at_ 2 0 2 6) []];
     type_ignores := [] |}.

(** [def test_a(): pass] and [return] on two lines *)
Definition test_return_code : pystr :=
  py "def test_a(): pass" ++ [newline] ++ py "return".
Definition test_return_module : Module :=
  {| body :=
       [Node (FunctionDef (py "test_a")) (at_ 1 0 1 18)
          [Node arguments nowhere []; Node Pass (at_ 1 14 1 18) []];
        Node Return (at_ 2 0 2 6) []];
     type_ignores := [] |}.

(** [import os], typed with a non-breaking space *)
Definition nbsp_code : pystr := py "import" ++ [nbsp] ++ py "os".

(** [x;] *)
Definition semicolon_code : pystr := py "x;".
Definition semicolon_module : Module :=
  {| body := [Node Expr (at_ 1 0 1 1) [Node Name (at_ 1 0 1 1) [Node Load nowhere []]]];
     type_ignores := [] |}.
Definition semicolon_tokens : list token :=
  [ {| tok_type := ENCODING; tok_string := py "utf-8" |};
    {| tok_type := NAME; tok_string := py "x" |};
    {| tok_type := OP; tok_string := py ";" |};
    {| tok_type := NEWLINE; tok_string := [] |};
    {| tok_type := ENDMARKER; tok_string := [] |} ].

(** [def test_a(): pass] *)
Definition test_code : pystr := py "def test_a(): pass".
Definition test_module : Module :=
  {| body :=
       [Node (FunctionDef (py "test_a")) (at_ 1 0 1 18)
          [Node arguments nowhere []; Node Pass (at_ 1 14 1 18) []]];
     type_ignores := [] |}.

Definition sum_hash (s : pystr) : Z := foldl (λ acc c, acc * 31 + Z.of_N c + 1) 0 s.

(** Lower case of the ASCII letters. *)
Definition ascii_lower (s : pystr) : pystr :=
  (λ c, if (65 <=? c) && (c <=? 90) then c + 32 else c)%N <$> s.

Definition table_parse (code : pystr) : result Module :=
  if decide (code = comment_code) then Ok comment_module
  else if decide (code = import_code) then Ok import_module
  else if decide (code = sum_code) then Ok sum_module
  else if decide (code = return_code) then Ok return_module
  else if decide (code = test_code) then Ok test_module
  else if decide (code = semicolon_code) then Ok semicolon_module
  else if decide (code = test_return_code) then Ok test_return_module
  else Raise SyntaxError.

Definition table_tokenize (code : pystr) : result (list token) :=
  if decide (code = sum_code) then Ok sum_tokens
  else if decide (code = semicolon_code) then Ok semicolon_tokens
  else Raise TokenError.

(** A name is local when it starts with one underscore, not two. *)
Definition one_underscore (name : pystr) : bool :=
  Str.startswith (py "_") name && negb (Str.startswith (py "__") name).

Definition variable : VariableData :=
  {| kind := py "variable"; import_data := None |}.
Definition os_import : ImportData :=
  {| imp_module := py "os"; imported_symbol := None; definition := py "os" |}.

Definition table_visit (prefix : pystr) (module : Module) : result Visited :=
  Ok match body module with
     | Node Import _ _ :: _ =>
         {| v_module := module; v_defs := {[ py "os" ]}; v_refs := ∅;
            v_deleted_refs := ∅;
            v_variable_data :=
              {[ py "os" := [ {| kind := py "import";
                                 import_data := Some os_import |} ] ]};
            v_language := py "python" |}
     | Node (FunctionDef name) _ _ :: _ =>
         {| v_module := module; v_defs := {[ name ]}; v_refs := ∅;
            v_deleted_refs := ∅;
            v_variable_data :=
              {[ name := [ {| kind := py "function"; import_data := None |} ] ]};
            v_language := py "python" |}
     | _ =>
         {| v_module := module; v_defs := {[ py "x"; py "_y" ]}; v_refs := ∅;
            v_deleted_refs := ∅;
            v_variable_data :=
              {[ py "x" := [variable]; py "_y" := [variable] ]};
            v_language := py "python" |}
     end.

(** A [return] outside a function does not compile. *)
Definition refuse_return (t : code_root) (filename : pystr) : option exn :=
  match t with
  | ExecTree m => if existsb is_return (body m) then Some SyntaxError else None
  | EvalTree _ => None
  end.

(** The host without pytest. *)
Definition host : Host :=
  {| hash := sum_hash; lower := ascii_lower;
     parse := table_parse; tokenize := table_tokenize;
     get_tmpdir := py "/tmp/marimo_1"; is_local := one_underscore;
     scoped_visit := table_visit;
     compile_error := refuse_return;
     rewrite_asserts := None |}.

(** The host with a pytest whose hook puts its import in front of the
    body, as pytest's does, and then raises. *)
Definition failing_hook (module : Module) (code filename : pystr) : Rewritten :=
  {| rw_module :=
       {| body := Node Import (at_ 1 0 1 0) [Node alias (at_ 1 0 1 0) []]
                  :: body module;
          type_ignores := type_ignores module |};
     rw_raised := Some (OtherError 2) |}.

Definition host_with_failing_hook : Host :=
  {| hash := sum_hash; lower := ascii_lower;
     parse := table_parse; tokenize := table_tokenize;
     get_tmpdir := py "/tmp/marimo_1"; is_local := one_underscore;
     scoped_visit := table_visit;
     compile_error := refuse_return;
     rewrite_asserts := Some failing_hook |}.

Definition cell_id : pystr := py "Hbol".

Definition anchor : SourcePosition :=
  {| sp_filename := py "/home/u/nb.py"; sp_lineno := 10; sp_col_offset := 4 |}.

(** A tree with a statement whose end is unknown, a type-ignore comment
    and a node without positions. *)
Definition sample_tree : node :=
  Node Assign (Loc (PyInt 1) (PyInt 0) PyNone PyNone)
    [Node Name (at_ 1 0 1 1) [Node Store nowhere []];
     Node TypeIgnore (Loc (PyInt 1) Unset Unset Unset) []].

(** A module with that tree as its one statement and a type-ignore
    comment, and an expression. *)
Definition sample_module : Module :=
  {| body := [sample_tree];
     type_ignores := [Node TypeIgnore (Loc (PyInt 1) Unset Unset Unset) []] |}.
Definition sample_expression : Expression :=
  {| expr_body := sum_expr; expr_lineno := PyInt 3;
     expr_col_offset := PyInt 6; expr_end_col_offset := PyInt 6 |}.

(** The result of a run, if it is a cell. *)
Definition cell_of (r : result CellImpl * World) : option CellImpl :=
  match r.1 with Ok c => Some c | Raise _ => None end.

End Demo.

(** ** Methods that leave the manager alone *)

(** The state a method runs in: the manager and the file system. *)
Abbreviation AppFileManager_state FS App :=
  (FileManager.AppFileManager App * FS)%type.

(** The method [m] changes at most the file system. *)
Definition keeps_manager {FS App A : Type}
    (m : AppFileManager_state FS App → result A * AppFileManager_state FS App)
  : Prop :=
  ∀ st, (m st).2.1 = st.1.

(** * A sample file system

    Files are a map from absolute or relative paths to contents, the
    working directory is [/work], and notebooks are not looked into. *)
Module DemoOS.

Definition cwd : pystr := py "/work/".

Definition os : FileManager.OS (gmap pystr pystr) () () :=
  {| FileManager.canonicalize_filename := λ f, f;
     FileManager.abspath := λ _ p,
       if Str.startswith (py "/") p then p else cwd ++ p;
     FileManager.path_exists := λ fs p, bool_decide (is_Some (fs !! p));
     FileManager.mkdir_parents := λ _ fs, fs;
     FileManager.write_text := λ p contents fs, (Ok (), <[p := contents]> fs);
     FileManager.rename_path := λ src dst fs,
       match fs !! src with
       | Some contents => (Ok (), <[dst := contents]> (delete src fs))
       | None => (Raise (OtherError 3), fs)
       end;
     FileManager.read_text := λ p fs,
       match fs !! p with
       | Some contents => Ok contents
       | None => Raise (OtherError 3)
       end;
     FileManager.log_debug := λ _ fs, fs;
     FileManager.to_ir := λ a, a;
     FileManager.export_as_md := λ _ _ _ _, Ok (py "# notebook");
     FileManager.markdown_header := λ _, None;
     FileManager.get_header_comments := λ _ _, None;
     FileManager.to_py := λ _ header, Ok (header ++ py "import marimo") |}.

Definition files : gmap pystr pystr := {[ py "nb.py" := py "import marimo" ]}.

Definition manager : FileManager.AppFileManager () :=
  {| FileManager.filename := Some (py "nb.py"); FileManager.app := () |}.

End DemoOS.

(** * More of [marimo/_ast/compiler.py] *)

(** ** [get_source_position] *)

Definition KeyError : exn := OtherError 4.

(** What [inspect] tells about an object. *)
Record Reflection := {
  (** [inspect.getmodule(f)]: [None] when no module is found; otherwise
      [module.__spec__], [None] or the [name] of the spec *)
  module_spec : option (option pystr);
  (** [inspect.getfile(f)] *)
  source_file : result pystr;
}.

(** An object as [get_source_position] tells objects apart: a class with
    its [__module__]; an object with [__globals__] and the [__name__] in
    them, if any; an object without [__globals__] and with [__wrapped__];
    any other object. *)
Inductive pyobject :=
  | AClass (module_name : pystr) (r : Reflection)
  | AFunction (globals_name : option pystr) (r : Reflection)
  | AWrapper (wrapped : pyobject)
  | AnObject.

(** The part of [get_source_position] after the first [if]. *)
Definition script_position (is_script : bool) (r : Reflection)
    (lineno_ col_offset_ : Z) : result (option SourcePosition) :=
  let is_script :=
    match module_spec r with
    | Some spec =>
        match spec with
        | None => true
        | Some name => negb (bool_decide (name = py "marimo_app"))
        end
    | None => is_script
    end in
  if negb is_script then mret None
  else
    filename ← source_file r;
    mret (Some {| sp_filename := filename; sp_lineno := lineno_;
                  sp_col_offset := col_offset_ |}).

Fixpoint get_source_position (f : pyobject) (lineno_ col_offset_ : Z)
  : result (option SourcePosition) :=
  match f with
  | AClass module_name r =>
      script_position (bool_decide (module_name = py "__main__")) r
        lineno_ col_offset_
  | AFunction globals_name r =>
      match globals_name with
      | Some name =>
          script_position (bool_decide (name = py "__main__")) r
            lineno_ col_offset_
      | None => Raise KeyError
      end
  | AWrapper wrapped => get_source_position wrapped lineno_ col_offset_
  | AnObject => mret None
  end.

(** The object at the end of the chain of [__wrapped__]. *)
Fixpoint unwrapped (f : pyobject) : pyobject :=
  match f with
  | AWrapper wrapped => unwrapped wrapped
  | _ => f
  end.

(** [f] is a class or has globals with a [__name__], and [inspect] tells
    [r] about it. *)
Definition reflects (f : pyobject) (r : Reflection) : Prop :=
  (∃ module_name, f = AClass module_name r)
  ∨ (∃ name, f = AFunction (Some name) r).

(** ** [ir_cell_factory] *)

(** The classes of [CellDef] the factory tells apart. *)
Inductive CellDef_class := PlainCell | FunctionCell | ClassCell.

Record CellDef := {
  cd_class : CellDef_class;
  cd_name : pystr;
  cd_code : pystr;
}.

(** [Cell], the handle; the two last fields are [None] where the
    constructor call does not pass them. *)
Module Handle.
Record Cell := {
  _name : pystr;
  _cell : CellImpl;
  _test_allowed : option bool;
  _expected_signature : option (list pystr);
}.
End Handle.

(** [TOPLEVEL_CELL_PREFIX], of [marimo._ast.names], is an argument. *)
Definition ir_cell_factory (h : Host) (TOPLEVEL_CELL_PREFIX : pystr)
    (cell_def : CellDef) (cell_id : pystr) : M Handle.Cell :=
  let prefix :=
    match cd_class cell_def with
    | FunctionCell | ClassCell => TOPLEVEL_CELL_PREFIX
    | PlainCell => []
    end in
  cell ← compile_cell h (cd_code cell_def) cell_id None None false;
  mret {| Handle._name := prefix ++ cd_name cell_def; Handle._cell := cell;
          Handle._test_allowed := None; Handle._expected_signature := None |}.

(** * More vocabulary *)

(** ** Trees *)

(** The classes of the nodes of a tree, in their places. *)
Inductive shape := Shape (c : node_class) (kids : list shape).

Fixpoint skeleton (n : node) : shape :=
  match n with
  | Node c _ fields => Shape c (skeleton <$> fields)
  end.

(** The two moves one after the other, as one move. *)
Definition sp_add (sp1 sp2 : SourcePosition) : SourcePosition :=
  {| sp_filename := sp_filename sp2;
     sp_lineno := sp_lineno sp1 + sp_lineno sp2;
     sp_col_offset := sp_col_offset sp1 + sp_col_offset sp2 |}.

(** The move back. *)
Definition sp_opp (sp : SourcePosition) : SourcePosition :=
  {| sp_filename := sp_filename sp;
     sp_lineno := - sp_lineno sp;
     sp_col_offset := - sp_col_offset sp |}.

(** ** Synthetic file names *)

(** The temporary directory with the separator [os.path.join] puts after
    it. *)
Definition directory_part (h : Host) : pystr :=
  if bool_decide (get_tmpdir h = []) || Str.startswith (py "/") (reverse (get_tmpdir h))
  then get_tmpdir h else get_tmpdir h ++ py "/".

(** ** The line cache *)

(** The entry [cache] writes for [code] under [filename]. *)
Definition cache_entry (filename code : pystr) : linecache_entry :=
  {| lc_size := length code;
     lc_lines := (λ line, line ++ [newline]) <$> Str.splitlines code;
     lc_fullname := filename |}.

(** The world after [cache] has run for the cell [cell_id]. *)
Definition registered (h : Host) (cell_id code : pystr) (w : World) : World :=
  {| linecache :=
       <[get_filename h cell_id [] :=
           cache_entry (get_filename h cell_id []) code]> (linecache w);
     warnings := warnings w |}.

(** The text parses to a module that [contains_only_tests] accepts. *)
Definition parses_to_tests (h : Host) (code : pystr) : bool :=
  match parse h (normalized code) with
  | Ok m => contains_only_tests h m
  | Raise _ => false
  end.

(** The text has no line boundary of [str.splitlines] but the line feed. *)
Definition only_line_feeds (code : pystr) : Prop :=
  Forall (λ c, c = newline ∨ (Str.is_linebreak c = false ∧ c ≠ 13%N)) code.

(** [code], with a line feed at its end if it is not empty and has none. *)
Definition with_final_newline (code : pystr) : pystr :=
  match last code with
  | None => []
  | Some c => if decide (c = newline) then code else code ++ [newline]
  end.

(** Sample objects. *)
Module DemoObjects.

Definition in_script : Reflection :=
  {| module_spec := Some None; source_file := Ok (py "/home/u/nb.py") |}.
(** What [inspect] tells about a built-in class: its module is found,
    and asking for its file raises [TypeError]. *)
Definition builtin : Reflection :=
  {| module_spec := Some (Some (py "builtins")); source_file := Raise TypeError |}.
Definition cached_function : pyobject :=
  AWrapper (AWrapper (AFunction (Some (py "__main__")) in_script)).
Definition function_cell : CellDef :=
  {| cd_class := FunctionCell; cd_name := py "total"; cd_code := Demo.sum_code |}.

End DemoObjects.

(** * More of [marimo/_server/file_manager.py] *)

Module FileManagerMore.

Definition OSError : exn := OtherError 3.
Definition UnicodeDecodeError : exn := OtherError 5.

#[global] Instance exn_eq_dec : EqDecision exn.
Proof. solve_decision. Defined.

(** [isinstance(e, OSError)] *)
Definition is_OSError (e : exn) : bool := bool_decide (e = OSError).

(** What [save] and [save_app_config] take from the app, the layout
    module and [os.path].  [Cells] is what a save request carries for the
    cells (ids, codes, names and configs), [Layout] the layout it carries,
    [Config] a dictionary of app configuration. *)
Record AppOps (FS App Cells Layout Config : Type) := {
  (** [self.app.with_data(cell_ids=..., codes=..., names=..., configs=...)]:
      whether it returns or raises, and the app it leaves *)
  with_data : App → Cells → result () * App;
  (** [self.app.update_config(config)], likewise *)
  update_config : App → Config → result () * App;
  (** the dictionary [{"layout_file": value}] *)
  layout_file_config : option pystr → Config;
  (** [save_layout_config(app_dir, app_name, config)] for the
      [LayoutConfig] made of the layout *)
  save_layout_config : pystr → pystr → Layout → FS → result pystr * FS;
  (** [os.path.dirname(path)] *)
  dirname : pystr → pystr;
  (** [os.path.basename(path)] *)
  basename : pystr → pystr;
}.
Arguments with_data {FS App Cells Layout Config}.
Arguments update_config {FS App Cells Layout Config}.
Arguments layout_file_config {FS App Cells Layout Config}.
Arguments save_layout_config {FS App Cells Layout Config}.
Arguments dirname {FS App Cells Layout Config}.
Arguments basename {FS App Cells Layout Config}.

(** [SaveNotebookRequest] *)
Record SaveNotebookRequest (Cells Layout : Type) := {
  req_cells : Cells;
  req_filename : pystr;
  req_layout : option Layout;
  req_persist : bool;
}.
Arguments req_cells {Cells Layout}.
Arguments req_filename {Cells Layout}.
Arguments req_layout {Cells Layout}.
Arguments req_persist {Cells Layout}.

Section Methods.
Context {FS App IR Cells Layout Config : Type}.
Context (os : FileManager.OS FS App IR) (ops : AppOps FS App Cells Layout Config).

#[local] Existing Instances FileManager.FM_ret FileManager.FM_bind.
Local Abbreviation FM := (@FileManager.FM FS App).

(** [self.app.m(...)] for a method [m] that changes the app in place *)
Definition modify_app (f : App → result () * App) : FM () := λ st,
  let '(r, a) := f (FileManager.app st.1) in
  (r, ({| FileManager.filename := FileManager.filename st.1;
          FileManager.app := a |}, st.2)).

(** An operation on the file system that may raise. *)
Definition fs_op {A} (op : FS → result A * FS) : FM A := λ st,
  let '(r, fs') := op st.2 in (r, (st.1, fs')).

Definition is_notebook_named : FM bool :=
  self_filename ← FileManager.get_filename_;
  mret (negb (bool_decide (self_filename = None))).

Definition save_app_config (config : Config) : FM pystr :=
  _ ← modify_app (λ a, update_config ops a config);
  self_filename ← FileManager.get_filename_;
  match self_filename with
  | Some f =>
      a ← FileManager.get_app;
      FileManager._save_file os f (FileManager.to_ir os a) true None
  | None => mret []
  end.

Definition save (request : SaveNotebookRequest Cells Layout) : FM pystr :=
  let filename_ := FileManager.canonicalize_filename os (req_filename request) in
  _ ← modify_app (λ a, with_data ops a (req_cells request));
  named ← is_notebook_named;
  refused ← (if (named : bool) then
               same ← FileManager._is_same_path os filename_;
               mret (negb same)
             else (mret false : FM bool));
  if (refused : bool) then FileManager.raise (HTTPException FileManager.BAD_REQUEST)
  else
    _ ← match req_layout request return FM () with
        | Some layout =>
            let app_dir := dirname ops filename_ in
            let app_name := basename ops filename_ in
            layout_filename ← fs_op (save_layout_config ops app_dir app_name layout);
            modify_app (λ a, update_config ops a
                               (layout_file_config ops (Some layout_filename)))
        | None =>
            modify_app (λ a, update_config ops a (layout_file_config ops None))
        end;
    a ← FileManager.get_app;
    FileManager._save_file os filename_ (FileManager.to_ir os a)
      (req_persist request) None.

End Methods.

(** ** [read_css_file] and [read_html_head_file], the functions *)

(** A record of [LOGGER]: the level, the format and its arguments. *)
Inductive log_record :=
  | LogError (format : pystr) (args : list pystr)
  | LogWarning (format : pystr) (args : list pystr).

(** What the two functions take from [pathlib]; a path is written as its
    string. *)
Record Paths (FS : Type) := {
  (** [Path(p).is_absolute()] *)
  is_absolute : pystr → bool;
  (** [Path(filename).parent / p] *)
  beside : pystr → pystr → pystr;
  (** [p.exists()]: it answers, or raises the [OSError] of the look-up
      that [pathlib] does not take for an absent file (a name too long, a
      directory that cannot be searched) *)
  exists_ : FS → pystr → result bool;
  (** [p.read_text(encoding="utf-8")] *)
  read_text : FS → pystr → result pystr;
  (** [str(e)] *)
  str_of_exn : exn → pystr;
}.
Arguments is_absolute {FS}.
Arguments beside {FS}.
Arguments exists_ {FS}.
Arguments read_text {FS}.
Arguments str_of_exn {FS}.

Definition read_css_file {FS} (p : Paths FS) (fs : FS)
    (css_file : pystr) (filename : option pystr)
  : result (option pystr) * list log_record :=
  if bool_decide (css_file = []) then (Ok None, [])
  else
    let go filepath :=
      match exists_ p fs filepath with
      | Raise e => (Raise e, [])
      | Ok false =>
          (Ok None, [LogError (py "CSS file %s does not exist") [filepath]])
      | Ok true =>
          match read_text p fs filepath with
          | Ok text => (Ok (Some text), [])
          | Raise e =>
              if is_OSError e
              then (Ok None,
                    [LogWarning (py "Failed to open custom CSS file %s for reading: %s")
                       [filepath; str_of_exn p e]])
              else (Raise e, [])
          end
      end in
    if negb (is_absolute p css_file) then
      match filename with
      | Some f => if bool_decide (f = []) then (Ok None, []) else go (beside p f css_file)
      | None => (Ok None, [])
      end
    else go css_file.

Definition read_html_head_file {FS} (p : Paths FS) (fs : FS)
    (html_head_file : pystr) (filename : option pystr)
  : result (option pystr) * list log_record :=
  match filename with
  | Some f =>
      if bool_decide (html_head_file = []) || bool_decide (f = []) then (Ok None, [])
      else
        let filepath := beside p f html_head_file in
        match exists_ p fs filepath with
        | Raise e => (Raise e, [])
        | Ok false =>
            (Ok None,
             [LogError (py "HTML head file %s does not exist") [html_head_file]])
        | Ok true =>
            match read_text p fs filepath with
            | Ok text => (Ok (Some text), [])
            | Raise e =>
                if is_OSError e
                then (Ok None,
                      [LogWarning (py "Failed to open HTML head file %s for reading: %s")
                         [filepath; str_of_exn p e]])
                else (Raise e, [])
            end
        end
  | None => (Ok None, [])
  end.

End FileManagerMore.

(** ** What the methods keep *)

(** The method [m] leaves the part [part] of the manager as it is,
    whether it returns or raises. *)
Definition preserves {FS App A X : Type} (part : FileManager.AppFileManager App → X)
    (m : AppFileManager_state FS App → result A * AppFileManager_state FS App)
  : Prop :=
  ∀ st, part (m st).2.1 = part st.1.

(** The method [m] leaves the app of the manager as it is. *)
Definition keeps_app {FS App A : Type}
    (m : AppFileManager_state FS App → result A * AppFileManager_state FS App)
  : Prop :=
  preserves FileManager.app m.

(** The method [m] leaves the file name of a named notebook as it is,
    whether it returns or raises. *)
Definition keeps_name {FS App A : Type}
    (m : AppFileManager_state FS App → result A * AppFileManager_state FS App)
  : Prop :=
  ∀ st, FileManager.filename st.1 ≠ None →
        FileManager.filename (m st).2.1 = FileManager.filename st.1.

(** The notebook has, in [mgr], a name for the path [path]. *)
Definition named_for {FS App IR} (os : FileManager.OS FS App IR)
    (mgr : FileManager.AppFileManager App) (fs : FS) (path : pystr) : Prop :=
  ∃ f, FileManager.filename mgr = Some f
       ∧ FileManager.abspath os fs f = FileManager.abspath os fs path.

(** The manager [mgr] under the file name [f]. *)
Definition renamed {App} (mgr : FileManager.AppFileManager App) (f : pystr)
  : FileManager.AppFileManager App :=
  {| FileManager.filename := Some f; FileManager.app := FileManager.app mgr |}.

(** The manager [mgr] with the app [a]. *)
Definition with_app {App} (mgr : FileManager.AppFileManager App) (a : App)
  : FileManager.AppFileManager App :=
  {| FileManager.filename := FileManager.filename mgr; FileManager.app := a |}.

(** The file name of the manager, if any, is another path than [path]. *)
Definition other_path {FS App IR} (os : FileManager.OS FS App IR)
    (mgr : FileManager.AppFileManager App) (fs : FS) (path : pystr) : Prop :=
  ∀ current, FileManager.filename mgr = Some current →
    FileManager.abspath os fs current ≠ FileManager.abspath os fs path.

(** The path [read_css_file] reads for [css_file]: [css_file] itself
    when it is absolute, and else the path beside the notebook, which then
    has a name. *)
Definition resolved {FS} (p : FileManagerMore.Paths FS) (css_file : pystr)
    (filename : option pystr) (filepath : pystr) : Prop :=
  FileManagerMore.is_absolute p css_file = true ∧ filepath = css_file
  ∨ FileManagerMore.is_absolute p css_file = false
    ∧ ∃ f, filename = Some f ∧ f ≠ []
           ∧ filepath = FileManagerMore.beside p f css_file.

(** A result with its value forgotten. *)
Definition forget {A S} (r : result A * S) : result () * S :=
  (match r.1 with Ok _ => Ok () | Raise e => Raise e end, r.2).

(** * A sample notebook server

    The app is the code of the notebook and the name of its layout file;
    files are as in the sample file system. *)
Module DemoNotebook.

Definition App : Type := pystr * option pystr.

Definition os : FileManager.OS (gmap pystr pystr) App pystr :=
  {| FileManager.canonicalize_filename := λ f, f;
     FileManager.abspath := λ _ p,
       if Str.startswith (py "/") p then p else DemoOS.cwd ++ p;
     FileManager.path_exists := λ fs p, bool_decide (is_Some (fs !! p));
     FileManager.mkdir_parents := λ _ fs, fs;
     FileManager.write_text := λ p contents fs, (Ok (), <[p := contents]> fs);
     FileManager.rename_path := λ src dst fs,
       match fs !! src with
       | Some contents => (Ok (), <[dst := contents]> (delete src fs))
       | None => (Raise FileManagerMore.OSError, fs)
       end;
     FileManager.read_text := λ p fs,
       match fs !! p with
       | Some contents => Ok contents
       | None => Raise FileManagerMore.OSError
       end;
     FileManager.log_debug := λ _ fs, fs;
     FileManager.to_ir := λ a, a.1;
     FileManager.export_as_md := λ ir _ _ _, Ok (py "# " ++ ir);
     FileManager.markdown_header := λ _, None;
     FileManager.get_header_comments := λ _ _, None;
     FileManager.to_py := λ ir header, Ok (header ++ ir) |}.

Definition ops : FileManagerMore.AppOps (gmap pystr pystr) App pystr pystr
                   (option pystr) :=
  {| FileManagerMore.with_data := λ a cells, (Ok (), (cells, a.2));
     FileManagerMore.update_config := λ a config, (Ok (), (a.1, config));
     FileManagerMore.layout_file_config := λ value, value;
     FileManagerMore.save_layout_config := λ dir name layout fs,
       (Ok (name ++ py ".grid.json"), <[dir ++ name ++ py ".grid.json" := layout]> fs);
     FileManagerMore.dirname := λ _, py "/work/";
     FileManagerMore.basename := λ p, drop 6 p |}.

Definition files : gmap pystr pystr :=
  {[ py "/work/nb.py" := py "x = 1"; py "/work/other.py" := py "y = 2" ]}.

Definition named : FileManager.AppFileManager App :=
  {| FileManager.filename := Some (py "/work/nb.py");
     FileManager.app := (py "x = 1", None) |}.

Definition unnamed : FileManager.AppFileManager App :=
  {| FileManager.filename := None; FileManager.app := ([], None) |}.

Definition request (filename : pystr) (persist : bool)
  : FileManagerMore.SaveNotebookRequest pystr pystr :=
  {| FileManagerMore.req_cells := py "x = 2";
     FileManagerMore.req_filename := filename;
     FileManagerMore.req_layout := None;
     FileManagerMore.req_persist := persist |}.

(** A style sheet, and one that cannot be decoded.  A path of more than
    32 characters is too long for the sample file system. *)
Definition assets : gmap pystr pystr :=
  {[ py "/work/style.css" := py "body {}"; py "/work/empty.css" := [] ]}.

Definition paths : FileManagerMore.Paths (gmap pystr pystr) :=
  {| FileManagerMore.is_absolute := λ p, Str.startswith (py "/") p;
     FileManagerMore.beside := λ _ p, DemoOS.cwd ++ p;
     FileManagerMore.exists_ := λ fs p,
       if bool_decide (32 < length p)%nat then Raise FileManagerMore.OSError
       else Ok (bool_decide (is_Some (fs !! p)));
     FileManagerMore.read_text := λ fs p,
       match fs !! p with
       | Some contents =>
           if bool_decide (contents = []) then Raise FileManagerMore.UnicodeDecodeError
           else Ok contents
       | None => Raise FileManagerMore.OSError
       end;
     FileManagerMore.str_of_exn := λ _, py "error" |}.

End DemoNotebook.
(** * Properties *)

(** ** Python strings, on samples *)

Example splitlines_samples :
  Str.splitlines (py "a" ++ [newline] ++ py "b") = [py "a"; py "b"]
  ∧ Str.splitlines (py "a" ++ [newline]) = [py "a"]
  ∧ Str.splitlines (py "a" ++ [newline; newline]) = [py "a"; []]
  ∧ Str.splitlines (py "a" ++ [13; 10] ++ py "b" ++ [13])%N = [py "a"; py "b"]
  ∧ Str.splitlines [] = [].
Proof. repeat split. Qed.

Example strip_sample :
  Str.strip ([newline] ++ py "  x = 1;  " ++ [newline; nbsp]) = py "x = 1;".
Proof. reflexivity. Qed.

Example replace_sample :
  Str.replace_char nbsp (py " ") Demo.nbsp_code = Demo.import_code.
Proof. reflexivity. Qed.

Example path_join_samples :
  path_join (py "/tmp") (py "a.py") = py "/tmp/a.py"
  ∧ path_join (py "/tmp/") (py "a.py") = py "/tmp/a.py"
  ∧ path_join [] (py "a.py") = py "a.py"
  ∧ path_join (py "/tmp") (py "/a.py") = py "/a.py".
Proof. repeat split. Qed.

Example cell_id_from_filename_samples :
  cell_id_from_filename (py "/tmp/marimo_1/__marimo__cell_Hbol_.py") = Some (py "Hbol")
  ∧ cell_id_from_filename (py "/tmp/marimo_1/__marimo__cell_Hbol_out.py")
    = Some (py "Hbol")
  ∧ cell_id_from_filename (py "/home/u/nb.py") = None.
Proof. repeat split. Qed.

(** ** Position remapping *)

(** Induction on a tree, with the hypothesis for every child. *)
Lemma node_induction (P : node → Prop) :
  (∀ c l fields, Forall P fields → P (Node c l fields)) → ∀ n, P n.
Proof.
  intros step. fix IH 1. intros [c l fields]. apply step.
  induction fields as [|k ks IHks]; constructor; [apply IH | exact IHks].
Qed.

Lemma fix_child_valid c l sp :
  valid_location c l = true →
  fix_child c l sp = Ok (remapped_location c l (sp_lineno sp) (sp_col_offset sp)).
Proof.
  destruct l as [ln co el ec].
  destruct c; cbn; intros Hv; try reflexivity;
    repeat (apply andb_prop in Hv as [Hv ?]);
    destruct ln, co, el, ec; try discriminate; reflexivity.
Qed.

Lemma mapM_result_Ok {A B} (f : A → result B) (g : A → B) (l : list A) :
  Forall (λ a, f a = Ok (g a)) l → mapM f l = Ok (g <$> l).
Proof.
  induction 1 as [|a l Ha _ IH]; [reflexivity|].
  cbn. rewrite Ha. cbn. rewrite IH. reflexivity.
Qed.

(** C8.  On trees whose positions are as the parser sets them,
    [fix_source_position] does not raise and yields the tree of the same
    shape in which every node has its line and end line moved by the line
    offset and its column and end column moved by the column offset; a
    [TypeIgnore] has its line moved and nothing else; an end line or end
    column that is [None] stays [None]; a node without positions is
    unchanged.  This holds of the two trees [compile_cell] passes, a module
    (every statement and every type-ignore comment is remapped) and an
    expression (the tree under it is remapped), and of a tree under any
    node. *)
Theorem fix_source_position_remaps (m : Module) (e : Expression) (n : node)
    (sp : SourcePosition) :
  valid_module m = true → valid_tree (expr_body e) = true → valid_tree n = true →
  fix_source_position_module m sp
  = Ok (remapped_module (sp_lineno sp) (sp_col_offset sp) m)
  ∧ fix_source_position_expression e sp
    = Ok (remapped_expression (sp_lineno sp) (sp_col_offset sp) e)
  ∧ fix_source_position n sp = Ok (remapped (sp_lineno sp) (sp_col_offset sp) n).
Proof.
  assert (Hnode : ∀ k, valid_tree k = true →
    fix_source_position k sp = Ok (remapped (sp_lineno sp) (sp_col_offset sp) k)).
  { induction k as [c l fields IH] using node_induction. intros Hv.
    cbn in Hv. apply andb_prop in Hv as [Hl Hf].
    cbn. rewrite (fix_child_valid _ _ _ Hl). cbn.
    rewrite (mapM_result_Ok _ (remapped (sp_lineno sp) (sp_col_offset sp))).
    - reflexivity.
    - rewrite forallb_forall in Hf. rewrite Forall_forall in IH |- *.
      intros k Hk. apply IH; [exact Hk|]. apply Hf. apply list_elem_of_In.
      exact Hk. }
  assert (Hnodes : ∀ ks, forallb valid_tree ks = true →
    fix_nodes ks sp = Ok (remapped (sp_lineno sp) (sp_col_offset sp) <$> ks)).
  { intros ks Hks. apply mapM_result_Ok. rewrite forallb_forall in Hks.
    apply Forall_forall. intros k Hk. apply Hnode, Hks, list_elem_of_In, Hk. }
  intros Hm He Hn. apply andb_prop in Hm as [Hb Ht]. split; [|split].
  - unfold fix_source_position_module. rewrite (Hnodes _ Hb). cbn.
    rewrite (Hnodes _ Ht). reflexivity.
  - unfold fix_source_position_expression. rewrite (Hnode _ He). reflexivity.
  - apply Hnode, Hn.
Qed.

Lemma fix_source_position_remaps_witness :
  fix_source_position_module Demo.sample_module Demo.anchor
  = Ok {| body :=
            [Node Demo.Assign (Loc (PyInt 11) (PyInt 4) PyNone PyNone)
               [Node Demo.Name (Demo.at_ 11 4 11 5) [Node Demo.Store Demo.nowhere []];
                Node TypeIgnore (Loc (PyInt 11) Unset Unset Unset) []]];
          type_ignores := [Node TypeIgnore (Loc (PyInt 11) Unset Unset Unset) []] |}
  ∧ fix_source_position_expression Demo.sample_expression Demo.anchor
    = Ok {| expr_body :=
              Node Demo.BinOp (Demo.at_ 13 4 13 10)
                [Node Demo.Name (Demo.at_ 13 4 13 5) [Node Demo.Load Demo.nowhere []];
                 Node Demo.Add Demo.nowhere [];
                 Node Demo.Name (Demo.at_ 13 8 13 10) [Node Demo.Load Demo.nowhere []]];
            expr_lineno := PyInt 3;
            expr_col_offset := PyInt 6; expr_end_col_offset := PyInt 6 |}
  ∧ fix_source_position Demo.sample_tree Demo.anchor
    = Ok (Node Demo.Assign (Loc (PyInt 11) (PyInt 4) PyNone PyNone)
            [Node Demo.Name (Demo.at_ 11 4 11 5) [Node Demo.Store Demo.nowhere []];
             Node TypeIgnore (Loc (PyInt 11) Unset Unset Unset) []]).
Proof.
  apply (fix_source_position_remaps Demo.sample_module Demo.sample_expression
           Demo.sample_tree Demo.anchor); reflexivity.
Defined.

(** Outside such trees the loop body does default: a [lineno] that was
    never assigned is read as 0 and then moved. *)
Example fix_child_defaults_missing_lineno :
  fix_child Demo.Assign (Loc Unset (PyInt 0) PyNone PyNone) Demo.anchor
  = Ok (Loc (PyInt 10) (PyInt 4) PyNone PyNone).
Proof. reflexivity. Qed.

(** ** Synthetic file names *)

Lemma strip_prefix_Some p s r : Str.strip_prefix p s = Some r ↔ s = p ++ r.
Proof.
  revert s. induction p as [|a p IH]; intros s; cbn.
  - split; [intros [= ->]; reflexivity | intros ->; reflexivity].
  - destruct s as [|b s]; [split; intros; discriminate|].
    destruct (decide (a = b)) as [->|Hne].
    + rewrite IH. split; [intros ->; reflexivity | intros [= ->]; reflexivity].
    + split; [discriminate | intros [= ? _]; congruence].
Qed.

Lemma startswith_true p s : Str.startswith p s = true ↔ ∃ r, s = p ++ r.
Proof.
  revert s. induction p as [|a p IH]; intros s; cbn.
  - split; eauto.
  - destruct s as [|b s]; [split; [discriminate | intros [? [=]]]|].
    destruct (decide (a = b)) as [->|Hne].
    + rewrite IH. split; intros [r Hr]; exists r; congruence.
    + split; [discriminate | intros [? [= ? _]]; congruence].
Qed.

Lemma strip_prefix_app p r : Str.strip_prefix p (p ++ r) = Some r.
Proof. apply strip_prefix_Some. reflexivity. Qed.

Lemma lazy_group_stops (g rest : pystr) :
  underscore ∉ g → newline ∉ g →
  lazy_group (g ++ underscore :: rest) = Some g.
Proof.
  induction g as [|c g IH]; intros Hu Hn; cbn.
  - rewrite decide_True by reflexivity. reflexivity.
  - rewrite not_elem_of_cons in Hu, Hn. destruct Hu as [Hu1 Hu2], Hn as [Hn1 Hn2].
    rewrite decide_False by congruence. rewrite decide_False by congruence.
    rewrite IH by assumption. reflexivity.
Qed.

(** The leftmost match is not in a directory part [d] that is empty or ends
    in a slash and does not contain the literal part of the pattern. *)
Lemma findall_first_skips (d s : pystr) :
  ¬ marker_in d → (d = [] ∨ ∃ d', d = d' ++ py "/") →
  findall_first (d ++ s) = findall_first s.
Proof.
  intros Hno Hslash. induction d as [|c d IH]; [reflexivity|].
  destruct Hslash as [?|[d' Hd']]; [discriminate|].
  assert (Hstep : findall_first (d ++ s) = findall_first s).
  { apply IH.
    - intros (a & b & ->). apply Hno. exists (c :: a), b. reflexivity.
    - destruct d' as [|c' d'']; [left; injection Hd'; auto|].
      right. exists d''. injection Hd' as _ ->. reflexivity. }
  change (findall_first ((c :: d) ++ s)) with
    (match Str.strip_prefix (py "__marimo__cell_") ((c :: d) ++ s) ≫= lazy_group with
     | Some g => Some g
     | None => findall_first (d ++ s)
     end).
  destruct (Str.strip_prefix _ ((c :: d) ++ s)) as [r|] eqn:Hp; [|exact Hstep].
  exfalso. apply strip_prefix_Some in Hp.
  assert (Hpre1 : py "__marimo__cell_" `prefix_of` (c :: d) ++ s) by (exists r; exact Hp).
  assert (Hpre2 : (c :: d) `prefix_of` (c :: d) ++ s) by (exists s; reflexivity).
  destruct (prefix_weak_total _ _ _ Hpre1 Hpre2) as [[b Hb]|[b Hb]].
  - apply Hno. exists [], b. exact Hb.
  - assert (Hin : 47%N ∈ py "__marimo__cell_").
    { rewrite Hb, Hd'. apply elem_of_app. left. apply elem_of_app. right.
      apply list_elem_of_singleton. reflexivity. }
    apply list_elem_of_fmap in Hin as (x & Hx & Hin).
    apply list_elem_of_In in Hin. cbn in Hin.
    repeat (destruct Hin as [<-|Hin]; [discriminate Hx|]). exact Hin.
Qed.

Lemma findall_first_here (s r g : pystr) :
  Str.strip_prefix (py "__marimo__cell_") s = Some r →
  lazy_group r = Some g →
  findall_first s = Some g.
Proof.
  intros Hp Hg. destruct s as [|c s]; [discriminate Hp|].
  change (findall_first (c :: s)) with
    (match Str.strip_prefix (py "__marimo__cell_") (c :: s) ≫= lazy_group with
     | Some g => Some g
     | None => findall_first s
     end).
  rewrite Hp. cbn. rewrite Hg. reflexivity.
Qed.

Lemma marker_in_slash (d : pystr) : marker_in (d ++ py "/") → marker_in d.
Proof.
  intros (a & b & Hd). destruct b as [|x b _] using rev_ind.
  - exfalso. rewrite app_nil_r in Hd.
    change (py "__marimo__cell_") with (py "__marimo__cell" ++ [underscore]) in Hd.
    rewrite app_assoc in Hd. apply app_inj_tail in Hd as [_ Hd].
    vm_compute in Hd. discriminate Hd.
  - rewrite !app_assoc in Hd. apply app_inj_tail in Hd as [Hd _].
    exists a, b. rewrite Hd, app_assoc. reflexivity.
Qed.

(** The file name of a cell, taken apart. *)
Lemma get_filename_parts (h : Host) (id suffix : pystr) :
  ∃ d, get_filename h id suffix
       = d ++ py "__marimo__cell_" ++ id ++ underscore :: suffix ++ py ".py"
     ∧ (marker_in d → marker_in (get_tmpdir h))
     ∧ (d = [] ∨ ∃ d', d = d' ++ py "/").
Proof.
  unfold get_filename, path_join.
  change (Str.startswith (py "/") _) with false at 1. cbv iota.
  destruct (bool_decide _ || _) eqn:Hd.
  - exists (get_tmpdir h). split; [|split; [auto|]].
    + rewrite <- !app_assoc. reflexivity.
    + apply orb_prop in Hd as [Hd|Hd].
      * left. apply bool_decide_eq_true in Hd. exact Hd.
      * right. apply startswith_true in Hd as [r Hr].
        exists (reverse r). apply (inj reverse). rewrite Hr, reverse_app.
        rewrite reverse_involutive. reflexivity.
  - exists (get_tmpdir h ++ py "/"). split; [|split].
    + rewrite <- !app_assoc. reflexivity.
    + apply marker_in_slash.
    + right. eauto.
Qed.

Lemma marker_in_contains (s : pystr) :
  marker_in s → Str.contains (py "__marimo__cell_") s = true.
Proof.
  intros (a & b & ->). induction a as [|c a IH].
  - destruct b; cbn [Str.contains app]; apply orb_true_iff; left;
      apply startswith_true; eauto.
  - cbn [Str.contains app]. rewrite IH. apply orb_true_r.
Qed.

(** C9, amended.  For a cell id without underscore and without line feed,
    any suffix, and a temporary directory whose path does not contain
    [__marimo__cell_], the parser of file names gives back the cell id the
    file name was made from. *)
Theorem cell_id_from_filename_get_filename (h : Host) (cell_id suffix : pystr) :
  underscore ∉ cell_id → newline ∉ cell_id →
  Str.contains (py "__marimo__cell_") (get_tmpdir h) = false →
  cell_id_from_filename (get_filename h cell_id suffix) = Some cell_id.
Proof.
  intros Hu Hn Hc.
  assert (Hd : ¬ marker_in (get_tmpdir h)).
  { intros Hm. apply marker_in_contains in Hm. congruence. }
  destruct (get_filename_parts h cell_id suffix) as (d & -> & Hm & Hs).
  unfold cell_id_from_filename.
  rewrite findall_first_skips by (auto || tauto).
  eapply findall_first_here; [apply strip_prefix_app|].
  apply lazy_group_stops; assumption.
Qed.

Lemma cell_id_from_filename_get_filename_witness :
  (underscore ∉ Demo.cell_id) ∧ (newline ∉ Demo.cell_id)
  ∧ Str.contains (py "__marimo__cell_") (get_tmpdir Demo.host) = false
  ∧ cell_id_from_filename (get_filename Demo.host Demo.cell_id (py "_x_1"))
    = Some Demo.cell_id.
Proof.
  assert (Hu : underscore ∉ Demo.cell_id)
    by (apply (bool_decide_unpack _); vm_compute; exact I).
  assert (Hn : newline ∉ Demo.cell_id)
    by (apply (bool_decide_unpack _); vm_compute; exact I).
  split; [exact Hu|]. split; [exact Hn|]. split; [reflexivity|].
  apply (cell_id_from_filename_get_filename Demo.host Demo.cell_id (py "_x_1"));
    [exact Hu | exact Hn | reflexivity].
Defined.

(** C9 as stated fails on a cell id with an underscore in it: the parser
    stops at the first underscore. *)
Lemma cell_id_with_underscore_not_recovered :
  get_filename Demo.host (py "a_b") [] = py "/tmp/marimo_1/__marimo__cell_a_b_.py"
  ∧ cell_id_from_filename (get_filename Demo.host (py "a_b") []) = Some (py "a")
  ∧ cell_id_from_filename (get_filename Demo.host (py "a_b") []) ≠ Some (py "a_b").
Proof. split; [reflexivity|]. split; [reflexivity|]. vm_compute. discriminate. Qed.

(** ** [compile_cell], step by step *)

(** One step of a run in [M]: the first bind, opened. *)
Ltac run_step := unfold mbind at 1, M_bind at 1; try unfold lift at 1.

(** The inert cell of an empty body. *)
Lemma compile_cell_empty h code cid sp ci tr w m :
  parse h (normalized code) = Ok m → body m = [] →
  compile_cell h code cid sp ci tr w
  = (Ok {| Cell.key := hash h (py ""); Cell.code := normalized code;
           Cell.mod_ := m; Cell.defs := ∅; Cell.refs := ∅;
           Cell.temporaries := ∅; Cell.variable_data := ∅;
           Cell.import_workspace := None; Cell.deleted_refs := ∅;
           Cell.language := py "python"; Cell.body := None;
           Cell.last_expr := None; Cell.cell_id := cid; Cell._test := None |}, w).
Proof.
  intros Hm Hb. unfold compile_cell. fold (normalized code).
  run_step. rewrite Hm. rewrite bool_decide_eq_true_2 by exact Hb. reflexivity.
Qed.

(** A run of [compile_cell] whose steps up to the choice of the file name
    are known. *)
Lemma compile_cell_steps h code cid sp ci tr w m v m1 e1 m2 e2 fn w1 :
  parse h (normalized code) = Ok m → body m ≠ [] →
  scoped_visit h (py "cell_" ++ cid) m = Ok v →
  split_last_expr h (normalized code) (v_module v) = Ok (m1, e1) →
  anchor_position h cid (normalized code) sp m1 e1 w = (Ok (m2, e2, fn), w1) →
  compile_cell h code cid sp ci tr w
  = match (if contains_only_tests h m || tr
           then try_rewrite_asserts h m2 (normalized code) fn
           else mret m2) w1 with
    | (Ok m3, w2) =>
        match compile_ast h (ExecTree m3) fn with
        | Ok bo =>
            match compile_ast h (EvalTree e2) fn with
            | Ok le => (Ok (assembled_cell h (normalized code) cid ci m v bo le), w2)
            | Raise e => (Raise e, w2)
            end
        | Raise e => (Raise e, w2)
        end
    | (Raise e, w2) => (Raise e, w2)
    end.
Proof.
  intros Hm Hb Hv Hs Ha.
  unfold compile_cell. fold (normalized code).
  run_step. rewrite Hm. rewrite bool_decide_eq_false_2 by exact Hb.
  run_step. rewrite Hv. run_step. rewrite Hs. run_step. rewrite Ha. run_step.
  destruct ((if contains_only_tests h m || tr
             then try_rewrite_asserts h m2 (normalized code) fn
             else mret m2) w1) as [[m3|e] w2]; [|reflexivity].
  run_step. destruct (compile_ast h (ExecTree m3) fn) as [bo|e]; [|reflexivity].
  run_step. destruct (compile_ast h (EvalTree e2) fn) as [le|e]; reflexivity.
Qed.

(** A run of [compile_cell] that returns a cell went through the parser,
    and then either left at once with the inert cell or went through every
    later step. *)
Lemma compile_cell_inv h code cid sp ci tr w c w' :
  compile_cell h code cid sp ci tr w = (Ok c, w') →
  ∃ m, parse h (normalized code) = Ok m ∧
    ((body m = [] ∧ w' = w
      ∧ Cell.key c = hash h (py "") ∧ Cell.defs c = ∅ ∧ Cell.refs c = ∅
      ∧ Cell.temporaries c = ∅ ∧ Cell.variable_data c = ∅
      ∧ Cell.import_workspace c = None
      ∧ Cell.body c = None ∧ Cell.last_expr c = None)
     ∨ (body m ≠ [] ∧ ∃ v m1 e1 m2 e2 fn w1 m3 bo le,
         scoped_visit h (py "cell_" ++ cid) m = Ok v
         ∧ split_last_expr h (normalized code) (v_module v) = Ok (m1, e1)
         ∧ anchor_position h cid (normalized code) sp m1 e1 w = (Ok (m2, e2, fn), w1)
         ∧ (if contains_only_tests h m || tr
            then try_rewrite_asserts h m2 (normalized code) fn
            else mret m2) w1 = (Ok m3, w')
         ∧ compile_ast h (ExecTree m3) fn = Ok bo
         ∧ compile_ast h (EvalTree e2) fn = Ok le
         ∧ c = assembled_cell h (normalized code) cid ci m v bo le)).
Proof.
  intros H.
  destruct (parse h (normalized code)) as [m|e] eqn:Hm.
  2: { unfold compile_cell in H. fold (normalized code) in H.
       revert H. run_step. rewrite Hm. discriminate. }
  exists m. split; [reflexivity|].
  destruct (decide (body m = [])) as [Hb|Hb].
  { left. rewrite (compile_cell_empty _ _ _ _ _ _ _ _ Hm Hb) in H.
    injection H as <- <-. repeat split; assumption. }
  right. split; [exact Hb|].
  destruct (scoped_visit h (py "cell_" ++ cid) m) as [v|e] eqn:Hv.
  2: { unfold compile_cell in H. fold (normalized code) in H.
       revert H. run_step. rewrite Hm, bool_decide_eq_false_2 by exact Hb.
       run_step. rewrite Hv. discriminate. }
  destruct (split_last_expr h (normalized code) (v_module v)) as [[m1 e1]|e] eqn:Hs.
  2: { unfold compile_cell in H. fold (normalized code) in H.
       revert H. run_step. rewrite Hm, bool_decide_eq_false_2 by exact Hb.
       run_step. rewrite Hv. run_step. rewrite Hs. discriminate. }
  destruct (anchor_position h cid (normalized code) sp m1 e1 w)
    as [[[[m2 e2] fn]|e] w1] eqn:Ha.
  2: { unfold compile_cell in H. fold (normalized code) in H.
       revert H. run_step. rewrite Hm, bool_decide_eq_false_2 by exact Hb.
       run_step. rewrite Hv. run_step. rewrite Hs. run_step. rewrite Ha.
       discriminate. }
  rewrite (compile_cell_steps _ _ _ _ _ _ _ _ _ _ _ _ _ _ _ Hm Hb Hv Hs Ha) in H.
  destruct ((if contains_only_tests h m || tr
             then try_rewrite_asserts h m2 (normalized code) fn
             else mret m2) w1) as [[m3|e] w2] eqn:Hr; [|discriminate].
  destruct (compile_ast h (ExecTree m3) fn) as [bo|e] eqn:Hbo; [|discriminate].
  destruct (compile_ast h (EvalTree e2) fn) as [le|e] eqn:Hle; [|discriminate].
  injection H as <- <-.
  exists v, m1, e1, m2, e2, fn, w1, m3, bo, le.
  repeat split; assumption || reflexivity.
Qed.

(** ** The key *)

Lemma normalized_without_nbsp (code : pystr) :
  nbsp ∉ code → normalized code = code.
Proof.
  unfold normalized, Str.replace_char. induction code as [|c code IH]; intros Hn.
  - reflexivity.
  - apply not_elem_of_cons in Hn as [Hc Hn]. cbn.
    rewrite decide_False by congruence. cbn. f_equal. apply IH, Hn.
Qed.

(** C1, amended.  For a user text without non-breaking space whose parsed
    body is not empty, the key of the returned cell is the hash of the text
    as passed in; when the parsed body is empty, the key is the hash of the
    empty text; and two calls on the same user text give the same key,
    whatever their other arguments. *)
Theorem compile_cell_key h code cid sp ci tr w c w' :
  compile_cell h code cid sp ci tr w = (Ok c, w') →
  ∃ m, parse h (normalized code) = Ok m
    ∧ (body m = [] → Cell.key c = hash h (py ""))
    ∧ (body m ≠ [] → nbsp ∉ code → Cell.key c = hash h code)
    ∧ (∀ cid2 sp2 ci2 tr2 w2 c2 w2',
         compile_cell h code cid2 sp2 ci2 tr2 w2 = (Ok c2, w2') →
         Cell.key c2 = Cell.key c).
Proof.
  intros H.
  assert (Hkey : ∀ cid sp ci tr w c w',
    compile_cell h code cid sp ci tr w = (Ok c, w') →
    ∃ m, parse h (normalized code) = Ok m
         ∧ Cell.key c = if bool_decide (body m = []) then hash h (py "")
                        else hash h (normalized code)).
  { clear. intros cid sp ci tr w c w' H.
    apply compile_cell_inv in H as (m & Hm & [He|Hne]); exists m; (split; [exact Hm|]).
    - destruct He as (He & _ & -> & _). rewrite bool_decide_eq_true_2; done.
    - destruct Hne as (Hne & v & m1 & e1 & m2 & e2 & fn & w1 & m3 & bo & le & Hrest).
      rewrite bool_decide_eq_false_2 by done.
      destruct Hrest as (_ & _ & _ & _ & _ & _ & ->). reflexivity. }
  destruct (Hkey _ _ _ _ _ _ _ H) as (m & Hm & Hk). exists m.
  split; [exact Hm|]. split; [|split].
  - intros Hb. rewrite Hk, bool_decide_eq_true_2 by exact Hb. reflexivity.
  - intros Hb Hn. rewrite Hk, bool_decide_eq_false_2 by exact Hb.
    rewrite normalized_without_nbsp by exact Hn. reflexivity.
  - intros cid2 sp2 ci2 tr2 w2 c2 w2' H2.
    apply Hkey in H2 as (m' & Hm' & ->). rewrite Hk.
    rewrite Hm in Hm'. injection Hm' as <-. reflexivity.
Qed.

Lemma compile_cell_key_witness :
  ∃ c w',
    compile_cell Demo.host Demo.sum_code Demo.cell_id None None false empty_world
    = (Ok c, w')
    ∧ (nbsp ∉ Demo.sum_code)
    ∧ Cell.key c = hash Demo.host Demo.sum_code.
Proof.
  eexists _, _. split; [vm_compute; reflexivity|].
  assert (Hn : nbsp ∉ Demo.sum_code)
    by (apply (bool_decide_unpack _); vm_compute; exact I).
  split; [exact Hn|].
  destruct (compile_cell_key Demo.host Demo.sum_code Demo.cell_id None None false
              empty_world _ _ ltac:(vm_compute; reflexivity))
    as (m & Hm & _ & Hk & _).
  apply Hk; [|exact Hn].
  vm_compute in Hm. injection Hm as <-. discriminate.
Defined.

(** C1 as stated fails on a comment: the key is the hash of the empty
    text, not of the comment. *)
Lemma key_of_comment_is_hash_of_empty_text :
  ∃ c,
    compile_cell Demo.host Demo.comment_code Demo.cell_id None None false empty_world
    = (Ok c, empty_world)
    ∧ Cell.key c = hash Demo.host (py "")
    ∧ Cell.key c ≠ hash Demo.host Demo.comment_code.
Proof. eexists. split; [reflexivity|]. split; [reflexivity|]. vm_compute. discriminate. Qed.

(** On a text with a non-breaking space the key is the hash of the text
    with a space in its place. *)
Example key_of_text_with_nbsp :
  ∃ c w',
    compile_cell Demo.host Demo.nbsp_code Demo.cell_id None None false empty_world
    = (Ok c, w')
    ∧ Cell.key c = hash Demo.host (py "import os")
    ∧ Cell.key c ≠ hash Demo.host Demo.nbsp_code.
Proof.
  eexists _, _. split; [vm_compute; reflexivity|].
  split; [reflexivity|]. vm_compute. discriminate.
Qed.

(** ** Defined names *)

(** C3.  In every cell [compile_cell] returns, no name is both in [defs]
    and in [temporaries], and every key of [variable_data] is in [defs]. *)
Theorem defs_temporaries_variable_data h code cid sp ci tr w c w' :
  compile_cell h code cid sp ci tr w = (Ok c, w') →
  Cell.defs c ## Cell.temporaries c
  ∧ dom (Cell.variable_data c) ⊆ Cell.defs c.
Proof.
  intros H. apply compile_cell_inv in H as (m & Hm & [He|Hne]).
  - destruct He as (_ & _ & _ & -> & _ & -> & -> & _). set_solver.
  - destruct Hne as (_ & v & m1 & e1 & m2 & e2 & fn & w1 & m3 & bo & le & Hrest).
    destruct Hrest as (_ & _ & _ & _ & _ & _ & ->). cbn.
    split.
    { intros x Hx1 Hx2. apply elem_of_difference in Hx2 as [_ Hx2].
      exact (Hx2 Hx1). }
    intros x Hx.
    apply elem_of_dom in Hx as [data Hx].
    apply elem_of_list_to_map_2 in Hx.
    apply list_elem_of_omap in Hx as (name & Hname & Hx).
    destruct (v_variable_data v !! name); [|discriminate Hx].
    injection Hx as <- _. apply elem_of_elements in Hname. exact Hname.
Qed.

Lemma defs_temporaries_variable_data_witness :
  ∃ c w',
    compile_cell Demo.host Demo.sum_code Demo.cell_id None None false empty_world
    = (Ok c, w')
    ∧ Cell.defs c = {[ py "x" ]} ∧ Cell.temporaries c = {[ py "_y" ]}
    ∧ Cell.defs c ## Cell.temporaries c
    ∧ dom (Cell.variable_data c) ⊆ Cell.defs c.
Proof.
  eexists _, _. split; [vm_compute; reflexivity|].
  split; [vm_compute; reflexivity|]. split; [vm_compute; reflexivity|].
  exact (defs_temporaries_variable_data Demo.host Demo.sum_code Demo.cell_id
           None None false empty_world _ _ eq_refl).
Defined.

(** ** The inert cell *)

(** C4.  When the parsed body is empty, [compile_cell] returns, without
    touching the world, a cell with no defs, refs or temporaries, no body
    artifact, no trailing-expression artifact, and the hash of the empty
    text as its key. *)
Theorem empty_body_gives_inert_cell h code cid sp ci tr w m :
  parse h (normalized code) = Ok m → body m = [] →
  ∃ c, compile_cell h code cid sp ci tr w = (Ok c, w)
       ∧ Cell.defs c = ∅ ∧ Cell.refs c = ∅ ∧ Cell.temporaries c = ∅
       ∧ Cell.body c = None ∧ Cell.last_expr c = None
       ∧ Cell.key c = hash h (py "").
Proof.
  intros Hm Hb. eexists. split; [apply compile_cell_empty; eassumption|].
  repeat split.
Qed.

Lemma empty_body_gives_inert_cell_witness :
  ∃ c, compile_cell Demo.host Demo.comment_code Demo.cell_id (Some Demo.anchor)
         None true empty_world = (Ok c, empty_world)
       ∧ Cell.defs c = ∅ ∧ Cell.refs c = ∅ ∧ Cell.temporaries c = ∅
       ∧ Cell.body c = None ∧ Cell.last_expr c = None
       ∧ Cell.key c = hash Demo.host (py "").
Proof.
  apply (empty_body_gives_inert_cell Demo.host Demo.comment_code Demo.cell_id
           (Some Demo.anchor) None true empty_world Demo.comment_module);
    reflexivity.
Defined.

(** ** Classification *)

Lemma contains_only_tests_loop_true h scope rest :
  contains_only_tests_loop h scope rest = true ↔
  ∃ tests others,
    rest = tests ++ others
    ∧ Forall (λ stmt, is_test_definition h stmt = true) tests
    ∧ ((others = [] ∧ scope ≠ [])
       ∨ ∃ r others', others = r :: others' ∧ is_return r = true).
Proof.
  induction rest as [|n rest IH].
  - cbn. rewrite bool_decide_eq_true. split.
    + intros Hs. exists [], []. split; [reflexivity|]. split; [constructor|]. left. done.
    + intros (tests & others & Heq & _ & [[_ Hs]|(r & o & -> & _)]); [exact Hs|].
      symmetry in Heq. apply app_eq_nil in Heq as [_ [=]].
  - cbn [contains_only_tests_loop].
    assert (Hret : is_return n = true →
      ∃ tests others, n :: rest = tests ++ others
        ∧ Forall (λ stmt, is_test_definition h stmt = true) tests
        ∧ ((others = [] ∧ scope ≠ [])
           ∨ ∃ r others', others = r :: others' ∧ is_return r = true)).
    { intros Hr. exists [], (n :: rest). split; [reflexivity|].
      split; [constructor|]. right. eauto. }
    assert (Hback : ∀ tests others,
      n :: rest = tests ++ others →
      Forall (λ stmt, is_test_definition h stmt = true) tests →
      ((others = [] ∧ scope ≠ [])
       ∨ ∃ r others', others = r :: others' ∧ is_return r = true) →
      is_return n = true
      ∨ (is_test_definition h n = true
         ∧ contains_only_tests_loop h scope rest = true)).
    { intros tests others Heq Ht Ho. destruct tests as [|t tests].
      - destruct Ho as [[-> _]|(r & o & -> & Hr)]; [discriminate Heq|].
        injection Heq as -> _. left. exact Hr.
      - injection Heq as <- ->. apply Forall_cons in Ht as [Hn Ht]. right.
        split; [exact Hn|]. apply IH. exists tests, others. auto. }
    unfold is_return, is_test_definition in *.
    destruct (node_cls n) eqn:Hc;
      try (split; [discriminate|];
           intros (tests & others & Heq & Ht & Ho);
           destruct (Hback tests others Heq Ht Ho) as [?|[? _]]; discriminate).
    1-3: destruct (Str.startswith (py "test") (lower h name)) eqn:Hn;
      [ rewrite IH; split;
        [ intros (tests & others & -> & Ht & Ho); exists (n :: tests), others;
          split; [reflexivity|]; split; [|exact Ho];
          constructor; [rewrite Hc; exact Hn | exact Ht]
        | intros (tests & others & Heq & Ht & Ho);
          destruct (Hback tests others Heq Ht Ho) as [?|[_ Hl]]; [discriminate|];
          apply IH; exact Hl ]
      | split; [discriminate|];
        intros (tests & others & Heq & Ht & Ho);
        destruct (Hback tests others Heq Ht Ho) as [?|[? _]]; discriminate ].
    split; [intros _; apply Hret; reflexivity | reflexivity].
Qed.

Lemma contains_only_tests_in_order h m :
  body m ≠ [] →
  contains_only_tests h m = true ↔ test_only_in_order h (body m).
Proof.
  intros Hb. unfold contains_only_tests, test_only_in_order.
  rewrite contains_only_tests_loop_true.
  split; intros (tests & others & Heq & Hts & Ho); exists tests, others;
    (split; [exact Heq|]); (split; [exact Hts|]).
  - destruct Ho as [[-> _]|Ho]; auto.
  - destruct Ho as [->|Ho]; auto.
Qed.

Lemma anchor_position_warnings h cid code sp m e w r w1 :
  anchor_position h cid code sp m e w = (r, w1) → warnings w1 = warnings w.
Proof.
  unfold anchor_position. destruct sp as [p|].
  - unfold mbind, M_bind, lift.
    destruct (fix_source_position_module m p); [|intros [= _ <-]; reflexivity].
    destruct (fix_source_position_expression e p); intros [= _ <-]; reflexivity.
  - cbn. intros [= _ <-]. reflexivity.
Qed.

(** C5, amended.  For a non-empty parsed module, the cell is classified
    test-only exactly when the top-level statements, read in order, are
    function or class definitions with a name that starts with [test] once
    lowered, up to the end of the body or up to a return statement, and
    import-only exactly when every top-level statement is an import
    statement.  The returned cell is marked so; and whether or not a cell
    is returned, the classification shows in the step that rewrites
    assertions, taken for a test-only cell: in a run that gets to that
    step with no rewriting requested, on an interpreter without pytest,
    the warning of the step is logged exactly when the cell is
    test-only. *)
Theorem classification h code cid sp ci tr w r w' m :
  compile_cell h code cid sp ci tr w = (r, w') →
  parse h (normalized code) = Ok m → body m ≠ [] →
  (∀ c, r = Ok c →
     ∃ is_test iw,
       Cell._test c = Some is_test ∧ Cell.import_workspace c = Some iw
       ∧ (is_test = true ↔ test_only_in_order h (body m))
       ∧ (is_import_block iw = true
          ↔ Forall (λ stmt, is_import stmt = true) (body m)))
  ∧ (rewrite_asserts h = None → tr = false →
     reaches_rewriting h code cid sp w m →
     (warnings w' = rewrite_warning :: warnings w
      ↔ test_only_in_order h (body m))).
Proof.
  intros H Hm Hb. split.
  - intros c ->. apply compile_cell_inv in H as (m' & Hm' & H).
    rewrite Hm in Hm'. injection Hm' as <-.
    destruct H as [[He _]|(_ & v & m1 & e1 & m2 & e2 & fn & w1 & m3 & bo & le & H)];
      [contradiction|].
    destruct H as (_ & _ & _ & _ & _ & _ & ->).
    eexists _, _. split; [reflexivity|]. split; [reflexivity|]. split.
    + apply contains_only_tests_in_order, Hb.
    + cbn. rewrite forallb_forall, Forall_forall. split; intros Hall x Hx;
        apply Hall; apply list_elem_of_In; exact Hx.
  - intros Hhook -> (v & m1 & e1 & [[m2 e2] fn] & w1 & Hv & Hs & Ha).
    rewrite (compile_cell_steps _ _ _ _ _ _ _ _ _ _ _ _ _ _ _ Hm Hb Hv Hs Ha) in H.
    rewrite orb_false_r in H.
    rewrite <- (contains_only_tests_in_order h m Hb).
    apply anchor_position_warnings in Ha.
    destruct (contains_only_tests h m).
    + unfold try_rewrite_asserts in H. rewrite Hhook in H.
      unfold mbind, M_bind, LOGGER_warning, mret, M_ret in H.
      assert (Hw : warnings w' = rewrite_warning :: warnings w1).
      { destruct (compile_ast h (ExecTree m2) fn);
          [destruct (compile_ast h (EvalTree e2) fn)|];
          injection H as _ <-; reflexivity. }
      rewrite Hw, Ha. split; reflexivity.
    + unfold mret, M_ret in H.
      assert (Hw : w' = w1).
      { destruct (compile_ast h (ExecTree m2) fn);
          [destruct (compile_ast h (EvalTree e2) fn)|];
          injection H as _ <-; reflexivity. }
      rewrite Hw, Ha. split; [|discriminate].
      intros Heq. apply (f_equal length) in Heq. cbn in Heq. lia.
Qed.

Lemma classification_witness :
  (∃ r w',
     compile_cell Demo.host Demo.test_return_code Demo.cell_id None None false
       empty_world = (r, w')
     ∧ r = Raise SyntaxError ∧ warnings w' = [rewrite_warning]
     ∧ (warnings w' = rewrite_warning :: warnings empty_world
        ↔ test_only_in_order Demo.host (body Demo.test_return_module)))
  ∧ (∃ c w',
       compile_cell Demo.host Demo.test_code Demo.cell_id None None false
         empty_world = (Ok c, w')
       ∧ ∃ is_test iw,
           Cell._test c = Some is_test ∧ Cell.import_workspace c = Some iw
           ∧ (is_test = true ↔ test_only_in_order Demo.host (body Demo.test_module))
           ∧ (is_import_block iw = true
              ↔ Forall (λ stmt, is_import stmt = true) (body Demo.test_module))).
Proof.
  split.
  - eexists _, _. split; [vm_compute; reflexivity|].
    split; [reflexivity|]. split; [reflexivity|].
    refine (proj2 (classification Demo.host Demo.test_return_code Demo.cell_id
                     None None false empty_world _ _ Demo.test_return_module
                     _ eq_refl _) eq_refl eq_refl _).
    + vm_compute. reflexivity.
    + discriminate.
    + eexists _, _, _, _, _. split; [reflexivity|].
      split; vm_compute; reflexivity.
  - eexists _, _. split; [vm_compute; reflexivity|].
    refine (proj1 (classification Demo.host Demo.test_code Demo.cell_id
                     None None false empty_world _ _ Demo.test_module
                     _ eq_refl _) _ eq_refl).
    + vm_compute. reflexivity.
    + discriminate.
Defined.

(** C5 as stated fails on a body with a return statement after another
    statement.  On an interpreter without pytest, where the run on a
    test-only cell logs the warning of the rewriting step, the run on
    [x = 1] followed by [return] gets to that step and logs nothing: the
    body has a return statement and the cell is not classified
    test-only.  (The run then raises, as every run on a body with a return
    statement at top level does on this interpreter.) *)
Lemma return_after_statement_is_not_test_only :
  parse Demo.host Demo.return_code = Ok Demo.return_module
  ∧ existsb is_return (body Demo.return_module) = true
  ∧ rewrite_asserts Demo.host = None
  ∧ reaches_rewriting Demo.host Demo.return_code Demo.cell_id None empty_world
      Demo.return_module
  ∧ ∃ w', compile_cell Demo.host Demo.return_code Demo.cell_id None None false
            empty_world = (Raise SyntaxError, w')
          ∧ warnings w' = []
          ∧ ¬ test_only_in_order Demo.host (body Demo.return_module).
Proof.
  split; [reflexivity|]. split; [reflexivity|]. split; [reflexivity|]. split.
  { eexists _, _, _, _, _. split; [reflexivity|]. split; vm_compute; reflexivity. }
  eexists. split; [vm_compute; reflexivity|]. split; [reflexivity|].
  intros (tests & others & Heq & Hts & Ho).
  destruct tests as [|t tests].
  - destruct Ho as [->|(r & others' & -> & Hr)]; [discriminate|].
    injection Heq as <- _. discriminate.
  - injection Heq as <- _. apply Forall_cons in Hts as [Ht _]. discriminate.
Qed.

(** ** Carried imports *)

Lemma carried_defs_spec (variable_data : gmap pystr (list VariableData))
    (carried : list ImportData) (x : pystr) :
  x ∈ carried_defs variable_data carried ↔
  ∃ name data datum i,
    variable_data !! name = Some data ∧ datum ∈ data
    ∧ import_data datum = Some i ∧ i ∈ carried ∧ definition i = x.
Proof.
  unfold carried_defs.
  assert (H3 : ∀ i (acc : gset pystr),
    x ∈ foldr (λ previous acc,
                 if decide (previous = i) then {[ definition i ]} ∪ acc else acc)
              acc carried
    ↔ x ∈ acc ∨ (i ∈ carried ∧ definition i = x)).
  { intros i acc. induction carried as [|p ps IH]; cbn.
    - rewrite elem_of_nil. tauto.
    - rewrite elem_of_cons. destruct (decide (p = i)) as [->|Hne].
      + rewrite elem_of_union, elem_of_singleton, IH. intuition congruence.
      + rewrite IH. intuition congruence. }
  assert (H2 : ∀ data (acc : gset pystr),
    x ∈ foldr (λ datum acc,
                 match import_data datum with
                 | None => acc
                 | Some i =>
                     foldr (λ previous acc,
                              if decide (previous = i)
                              then {[ definition i ]} ∪ acc else acc)
                           acc carried
                 end) acc data
    ↔ x ∈ acc ∨ ∃ datum i, datum ∈ data ∧ import_data datum = Some i
                           ∧ i ∈ carried ∧ definition i = x).
  { intros data acc. induction data as [|d ds IH]; cbn.
    - split; [auto|]. intros [?|(? & ? & Hin & _)]; [done|]. by apply elem_of_nil in Hin.
    - destruct (import_data d) as [i|] eqn:Hd.
      + rewrite H3, IH. split.
        * intros [[?|(datum & j & ? & ?)]|?]; [auto| |].
          -- right. exists datum, j. rewrite elem_of_cons. tauto.
          -- right. exists d, i. rewrite elem_of_cons. tauto.
        * intros [?|(datum & j & Hin & Hj & ?)]; [auto|].
          apply elem_of_cons in Hin as [->|Hin].
          -- rewrite Hd in Hj. injection Hj as ->. tauto.
          -- left. right. eauto.
      + rewrite IH. split.
        * intros [?|(datum & j & ? & ?)]; [auto|].
          right. exists datum, j. rewrite elem_of_cons. tauto.
        * intros [?|(datum & j & Hin & Hj & ?)]; [auto|].
          apply elem_of_cons in Hin as [->|Hin]; [congruence|]. right. eauto. }
  assert (H1 : ∀ datas : list (list VariableData),
    x ∈ foldr (λ data acc,
                 foldr (λ datum acc,
                          match import_data datum with
                          | None => acc
                          | Some i =>
                              foldr (λ previous acc,
                                       if decide (previous = i)
                                       then {[ definition i ]} ∪ acc else acc)
                                    acc carried
                          end) acc data) (∅ : gset pystr) datas
    ↔ ∃ data datum i, data ∈ datas ∧ datum ∈ data ∧ import_data datum = Some i
                      ∧ i ∈ carried ∧ definition i = x).
  { induction datas as [|d ds IH]; cbn.
    - split; [intros Hx; by apply not_elem_of_empty in Hx|].
      intros (? & ? & ? & Hin & _). by apply elem_of_nil in Hin.
    - rewrite H2, IH. split.
      + intros [(data & datum & i & ? & ?)|(datum & i & ?)].
        * exists data, datum, i. rewrite elem_of_cons. tauto.
        * exists d, datum, i. rewrite elem_of_cons. tauto.
      + intros (data & datum & i & Hin & ?).
        apply elem_of_cons in Hin as [->|Hin]; [right|left]; eauto 10. }
  rewrite H1. split.
  - intros (data & datum & i & Hin & ?).
    apply list_elem_of_fmap in Hin as ([name data'] & -> & Hin).
    apply elem_of_map_to_list in Hin. exists name, data', datum, i. auto.
  - intros (name & data & datum & i & Hl & ?). exists data, datum, i.
    split; [|assumption]. apply list_elem_of_fmap. exists (name, data).
    split; [reflexivity|]. apply elem_of_map_to_list. exact Hl.
Qed.

(** C6.  The import workspace of a returned cell is left to its default
    when the parsed body is empty.  Otherwise its [imported_defs] has an
    element only when the cell is import-only and carried imports were
    given, and then its elements are exactly the names defined by the
    import descriptors of the cell's [variable_data] that are equal, field
    by field, to a carried descriptor; with every descriptor filed under
    the name it defines, these are the defined names of the cell that have
    such a descriptor. *)
Theorem imported_defs_are_carried h code cid sp ci tr w c w' :
  compile_cell h code cid sp ci tr w = (Ok c, w') →
  match Cell.import_workspace c with
  | None => ∃ m, parse h (normalized code) = Ok m ∧ body m = []
  | Some iw =>
      (∀ x, x ∈ imported_defs iw → is_import_block iw = true ∧ is_Some ci)
      ∧ (∀ carried, ci = Some carried → is_import_block iw = true →
         ∀ x, x ∈ imported_defs iw ↔
              ∃ name data datum i,
                Cell.variable_data c !! name = Some data ∧ datum ∈ data
                ∧ import_data datum = Some i ∧ i ∈ carried ∧ definition i = x)
      ∧ (∀ carried, ci = Some carried → is_import_block iw = true →
         filed_by_definition (Cell.variable_data c) →
         ∀ x, x ∈ imported_defs iw ↔
              x ∈ Cell.defs c
              ∧ ∃ data datum i,
                  Cell.variable_data c !! x = Some data ∧ datum ∈ data
                  ∧ import_data datum = Some i ∧ i ∈ carried)
  end.
Proof.
  intros H. apply compile_cell_inv in H as (m & Hm & [He|Hne]).
  - destruct He as (He & _ & _ & _ & _ & _ & _ & -> & _). eauto.
  - destruct Hne as (_ & v & m1 & e1 & m2 & e2 & fn & w1 & m3 & bo & le & H).
    destruct H as (_ & _ & _ & _ & _ & _ & ->).
    cbn. split.
    + intros x Hx. destruct ci as [carried|]; [|by apply not_elem_of_empty in Hx].
      destruct (forallb is_import (body m)); [eauto|by apply not_elem_of_empty in Hx].
    + split; [intros carried -> -> x; apply carried_defs_spec|].
      intros carried -> -> Hfiled x. rewrite carried_defs_spec. split.
      * intros (name & data & datum & i & Hl & Hd & Hi & Hc & <-).
        rewrite (Hfiled _ _ _ _ Hl Hd Hi). split; [|exists data, datum, i; auto].
        apply elem_of_list_to_map_2, list_elem_of_omap in Hl as (n & Hn & Hl).
        destruct (v_variable_data v !! n); [|discriminate Hl].
        injection Hl as <- _. apply elem_of_elements in Hn. exact Hn.
      * intros (_ & data & datum & i & Hl & Hd & Hi & Hc).
        exists x, data, datum, i. rewrite (Hfiled _ _ _ _ Hl Hd Hi). auto.
Qed.

Lemma imported_defs_are_carried_witness :
  ∃ c w' iw,
    compile_cell Demo.host Demo.import_code Demo.cell_id None
      (Some [Demo.os_import]) false empty_world = (Ok c, w')
    ∧ Cell.import_workspace c = Some iw
    ∧ imported_defs iw = {[ py "os" ]}
    ∧ (∀ x, x ∈ imported_defs iw →
            is_import_block iw = true ∧ is_Some (Some [Demo.os_import]))
    ∧ (∀ carried, Some [Demo.os_import] = Some carried →
         is_import_block iw = true →
         ∀ x, x ∈ imported_defs iw ↔
              ∃ name data datum i,
                Cell.variable_data c !! name = Some data ∧ datum ∈ data
                ∧ import_data datum = Some i ∧ i ∈ carried ∧ definition i = x)
    ∧ (∀ carried, Some [Demo.os_import] = Some carried →
         is_import_block iw = true →
         filed_by_definition (Cell.variable_data c) →
         ∀ x, x ∈ imported_defs iw ↔
              x ∈ Cell.defs c
              ∧ ∃ data datum i,
                  Cell.variable_data c !! x = Some data ∧ datum ∈ data
                  ∧ import_data datum = Some i ∧ i ∈ carried).
Proof.
  eexists _, _, _. split; [vm_compute; reflexivity|].
  split; [reflexivity|]. split; [vm_compute; reflexivity|].
  exact (imported_defs_are_carried Demo.host Demo.import_code Demo.cell_id None
           (Some [Demo.os_import]) false empty_world _ _
           ltac:(vm_compute; reflexivity)).
Defined.

(** ** The trailing expression *)

Lemma skipped_role (t : token_type) : skipped t = false ↔ role t = Meaningful.
Proof. destruct t; cbn; split; congruence. Qed.

Lemma last_token_is_semicolon_spec (tokens : list token) :
  last_token_is_semicolon (reverse tokens) = true ↔ last_token_is_a_semicolon tokens.
Proof.
  unfold last_token_is_a_semicolon, last_meaningful_token.
  rewrite <- head_reverse, <- filter_reverse.
  induction (reverse tokens) as [|t ts IH]; cbn [last_token_is_semicolon].
  - split; discriminate.
  - rewrite filter_cons. destruct (skipped (tok_type t)) eqn:Hs.
    + rewrite decide_False by (rewrite <- skipped_role; congruence). exact IH.
    + rewrite decide_True by (apply skipped_role, Hs). cbn.
      rewrite bool_decide_eq_true.
      split; [intros ->; reflexivity | intros [= ->]; reflexivity].
Qed.

(** The two ways out of the split of the trailing value. *)
Lemma split_last_expr_cases h code module m1 e1 :
  split_last_expr h code module = Ok (m1, e1) →
  ∃ final, last (body module) = Some final
    ∧ ((is_Expr final = true ∧ no_final_semicolon h code
        ∧ head (node_fields final) = Some (expr_body e1)
        ∧ expr_lineno e1 = lineno (node_loc final)
        ∧ ∃ stmts, body module = stmts ++ [final]
            ∧ m1 = {| body := stmts; type_ignores := type_ignores module |})
       ∨ ((is_Expr final = false ∨ final_semicolon h code)
          ∧ (∃ ec, ec ≠ Unset
               ∧ expr_body e1
                 = none_constant (Z.of_nat (length (Str.splitlines code)) + 1) ec)
          ∧ expr_lineno e1 = PyInt (Z.of_nat (length (Str.splitlines code)) + 1)
          ∧ m1 = module)).
Proof.
  unfold split_last_expr, final_statement.
  destruct (last (body module)) as [final|] eqn:Hlast; [|discriminate].
  cbn [mbind result_bind]. intros H. exists final. split; [reflexivity|].
  assert (Hsyn :
    (ec ← read (end_col_offset (node_loc final));
     mret (module,
           {| expr_body := none_constant (Z.of_nat (length (Str.splitlines code)) + 1) ec;
              expr_lineno := PyInt (Z.of_nat (length (Str.splitlines code)) + 1);
              expr_col_offset := ec; expr_end_col_offset := ec |}))
    = Ok (m1, e1) →
    (∃ ec, ec ≠ Unset
       ∧ expr_body e1
         = none_constant (Z.of_nat (length (Str.splitlines code)) + 1) ec)
    ∧ expr_lineno e1 = PyInt (Z.of_nat (length (Str.splitlines code)) + 1)
    ∧ m1 = module).
  { clear H. unfold read.
    destruct (end_col_offset (node_loc final)) as [| |z] eqn:Hec; [discriminate| |];
      intros [= <- <-]; (split; [eexists; split; [|reflexivity]; discriminate|]);
      split; reflexivity. }
  destruct (is_Expr final) eqn:HE.
  - unfold ends_with_semicolon in H.
    destruct (tokenize h (Str.strip code)) as [tokens|] eqn:Htok; [|discriminate].
    cbn [mbind result_bind mret result_ret] in H.
    destruct (last_token_is_semicolon (reverse tokens)) eqn:Hsemi.
    + right. split; [|apply Hsyn, H]. right. exists tokens.
      split; [exact Htok|]. apply last_token_is_semicolon_spec, Hsemi.
    + left. split; [reflexivity|]. split.
      { exists tokens. split; [exact Htok|].
        rewrite <- last_token_is_semicolon_spec. congruence. }
      cbn [andb negb] in H. unfold value in H.
      destruct (node_fields final) as [|val rest] eqn:Hfields; [discriminate|].
      cbn [mbind result_bind] in H. unfold read in H.
      apply last_Some in Hlast as [stmts Hstmts].
      destruct (lineno (node_loc final)) eqn:Hl; [discriminate| |];
        destruct (end_col_offset (node_loc final)); try discriminate;
        injection H as <- <-; (split; [reflexivity|]); (split; [reflexivity|]);
        exists stmts; (split; [exact Hstmts|]);
        rewrite Hstmts, removelast_last; reflexivity.
  - cbn [mbind result_bind mret result_ret andb] in H.
    right. split; [left; reflexivity | apply Hsyn, H].
Qed.

Lemma anchor_position_spec h cid code sp m1 e1 w m2 e2 fn w1 :
  anchor_position h cid code sp m1 e1 w = (Ok (m2, e2, fn), w1) →
  positioned sp (expr_body e1) (expr_body e2)
  ∧ expr_lineno e2 = expr_lineno e1
  ∧ fn = match sp with
         | Some p => sp_filename p
         | None => get_filename h cid []
         end.
Proof.
  unfold anchor_position, positioned. destruct sp as [p|].
  - unfold mbind, M_bind, lift.
    destruct (fix_source_position_module m1 p); [|discriminate].
    unfold fix_source_position_expression.
    destruct (fix_source_position (expr_body e1) p); [|discriminate].
    cbn. intros [= <- <- <- <-]. repeat split.
  - cbn. intros [= <- <- <- <-]. repeat split.
Qed.

Lemma anchor_position_module h cid code sp m1 e1 w m2 e2 fn w1 :
  anchor_position h cid code sp m1 e1 w = (Ok (m2, e2, fn), w1) →
  positioned_module sp m1 m2.
Proof.
  unfold anchor_position, positioned_module. destruct sp as [p|].
  - unfold mbind, M_bind, lift.
    destruct (fix_source_position_module m1 p) as [m'|]; [|discriminate].
    destruct (fix_source_position_expression e1 p); [|discriminate].
    cbn. intros [= <- _ _ _]. reflexivity.
  - cbn. intros [= <- _ _ _]. reflexivity.
Qed.

(** The tree the rewriting step goes on with. *)
Lemma try_rewrite_asserts_tree h module code filename w :
  (try_rewrite_asserts h module code filename w).1
  = Ok (rewrite_leaves h module code filename).
Proof.
  unfold try_rewrite_asserts, rewrite_leaves.
  destruct (rewrite_asserts h) as [rewrite|]; [|reflexivity].
  destruct (rw_raised (rewrite module code filename)); reflexivity.
Qed.

(** The made-up constant, once positioned. *)
Lemma positioned_none_constant sp line ec n :
  ec ≠ Unset →
  positioned sp (none_constant line ec) n →
  node_cls n = Constant CNone ∧ node_fields n = []
  ∧ lineno (node_loc n) = PyInt (line + line_offset_of sp).
Proof.
  intros Hec. unfold positioned, line_offset_of. destruct sp as [p|].
  - destruct ec as [| |z]; [contradiction| |]; cbn.
    + intros [= <-]. repeat split.
    + destruct (decide (z = 0)); cbn; intros [= <-]; repeat split.
  - intros ->. cbn. rewrite Z.add_0_r. repeat split.
Qed.



(** The three cases on the sample cells: a trailing expression, a trailing
    expression closed by a semicolon, a trailing statement.  The body
    artifact has two statements, one and one. *)
Example trailing_expression_of_sum :
  ∃ c w' tree e fn,
    compile_cell Demo.host Demo.sum_code Demo.cell_id None None false empty_world
    = (Ok c, w')
    ∧ Cell.body c = Some {| co_tree := ExecTree tree; co_filename := fn |}
    ∧ Cell.last_expr c = Some {| co_tree := EvalTree e; co_filename := fn |}
    ∧ body tree = take 2 (body Demo.sum_module)
    ∧ expr_body e = Demo.sum_expr ∧ expr_lineno e = PyInt 3.
Proof. eexists _, _, _, _, _. split; [vm_compute; reflexivity|]. repeat split. Qed.

Example trailing_expression_after_semicolon :
  ∃ c w' tree e fn,
    compile_cell Demo.host Demo.semicolon_code Demo.cell_id None None false
      empty_world = (Ok c, w')
    ∧ Cell.body c = Some {| co_tree := ExecTree tree; co_filename := fn |}
    ∧ Cell.last_expr c = Some {| co_tree := EvalTree e; co_filename := fn |}
    ∧ tree = Demo.semicolon_module
    ∧ expr_body e = Node (Constant CNone) (Loc (PyInt 2) (PyInt 1) PyNone (PyInt 1)) []
    ∧ expr_lineno e = PyInt 2.
Proof. eexists _, _, _, _, _. split; [vm_compute; reflexivity|]. repeat split. Qed.

Example trailing_expression_after_import :
  ∃ c w' tree e fn,
    compile_cell Demo.host Demo.import_code Demo.cell_id (Some Demo.anchor) None
      false empty_world = (Ok c, w')
    ∧ Cell.body c = Some {| co_tree := ExecTree tree; co_filename := fn |}
    ∧ Cell.last_expr c = Some {| co_tree := EvalTree e; co_filename := fn |}
    ∧ length (body tree) = 1%nat
    ∧ expr_body e
      = Node (Constant CNone) (Loc (PyInt 12) (PyInt 13) PyNone (PyInt 13)) []
    ∧ expr_lineno e = PyInt 2.
Proof. eexists _, _, _, _, _. split; [vm_compute; reflexivity|]. repeat split. Qed.

(** ** Assertion rewriting *)

Lemma contains_only_tests_silent h m :
  contains_only_tests (with_silent_hook h) m = contains_only_tests h m.
Proof.
  unfold contains_only_tests. generalize (body m) at 1 3.
  induction (body m) as [|n rest IH]; intros scope; [reflexivity|].
  cbn [contains_only_tests_loop]. rewrite IH. reflexivity.
Qed.

Lemma try_rewrite_asserts_fails h module code filename w :
  rewrite_fails h module code filename →
  try_rewrite_asserts h module code filename w
  = (Ok (rewrite_leaves h module code filename), add_warning rewrite_warning w).
Proof.
  unfold rewrite_fails, try_rewrite_asserts, rewrite_leaves.
  destruct (rewrite_asserts h) as [rewrite|]; [|reflexivity].
  destruct (rw_raised (rewrite module code filename)); [reflexivity | congruence].
Qed.

Lemma try_rewrite_asserts_silent h module code filename w :
  try_rewrite_asserts (with_silent_hook h) module code filename w
  = (Ok (rewrite_leaves h module code filename), w).
Proof. reflexivity. Qed.

Lemma assembled_cell_silent h code cid ci m v bo le :
  assembled_cell (with_silent_hook h) code cid ci m v bo le
  = assembled_cell h code cid ci m v bo le.
Proof. unfold assembled_cell. rewrite contains_only_tests_silent. reflexivity. Qed.

(** C7, amended.  In a run that reaches the rewriting step, for a cell
    classified test-only or with rewriting requested, a failure of the
    step, the hook missing or raising, is caught and logged as one warning,
    and the run goes on with the tree as the hook left it, which is the
    unmodified tree when the hook is missing: [compile_cell] returns or
    raises as it does when the hook leaves that tree without raising, and
    it returns a cell as soon as the two trees compile. *)
Theorem rewrite_failure_is_caught h code cid sp ci tr w m v m1 e1 m2 e2 fn w1 :
  parse h (normalized code) = Ok m → body m ≠ [] →
  scoped_visit h (py "cell_" ++ cid) m = Ok v →
  split_last_expr h (normalized code) (v_module v) = Ok (m1, e1) →
  anchor_position h cid (normalized code) sp m1 e1 w = (Ok (m2, e2, fn), w1) →
  contains_only_tests h m || tr = true →
  rewrite_fails h m2 (normalized code) fn →
  let left := rewrite_leaves h m2 (normalized code) fn in
  compile_cell h code cid sp ci tr w
  = ((compile_cell (with_silent_hook h) code cid sp ci tr w).1,
     add_warning rewrite_warning
       (compile_cell (with_silent_hook h) code cid sp ci tr w).2)
  ∧ (compile_error h (ExecTree left) fn = None →
     compile_error h (EvalTree e2) fn = None →
     ∃ c, compile_cell h code cid sp ci tr w = (Ok c, add_warning rewrite_warning w1)
          ∧ Cell.body c = Some {| co_tree := ExecTree left; co_filename := fn |})
  ∧ (rewrite_asserts h = None → left = m2).
Proof.
  intros Hm Hb Hv Hs Ha Ht Hf left.
  rewrite (compile_cell_steps (with_silent_hook h) code cid sp ci tr w m v m1 e1 m2 e2 fn w1)
    by (assumption || apply Hs || apply Ha).
  rewrite (compile_cell_steps h code cid sp ci tr w m v m1 e1 m2 e2 fn w1)
    by assumption.
  rewrite contains_only_tests_silent, Ht.
  rewrite try_rewrite_asserts_silent, (try_rewrite_asserts_fails h _ _ _ _ Hf).
  fold left.
  change (compile_ast (with_silent_hook h)) with (compile_ast h).
  unfold compile_ast. split; [|split].
  - destruct (compile_error h (ExecTree left) fn); [reflexivity|].
    destruct (compile_error h (EvalTree e2) fn); [reflexivity|].
    cbn [fst snd]. rewrite assembled_cell_silent. reflexivity.
  - intros -> ->. eexists. split; reflexivity.
  - intros Hn. unfold left, rewrite_leaves. rewrite Hn. reflexivity.
Qed.

Lemma rewrite_failure_is_caught_witness :
  compile_cell Demo.host Demo.test_code Demo.cell_id None None false empty_world
  = ((compile_cell (with_silent_hook Demo.host) Demo.test_code Demo.cell_id None None
        false empty_world).1,
     add_warning rewrite_warning
       (compile_cell (with_silent_hook Demo.host) Demo.test_code Demo.cell_id None
          None false empty_world).2).
Proof.
  eapply proj1.
  eapply (rewrite_failure_is_caught Demo.host Demo.test_code Demo.cell_id None None
            false empty_world Demo.test_module).
  - reflexivity.
  - discriminate.
  - vm_compute. reflexivity.
  - vm_compute. reflexivity.
  - vm_compute. reflexivity.
  - reflexivity.
  - vm_compute. exact I.
Defined.

(** C7 as stated fails for a hook that raises after it has changed the
    module it was given: the body artifact is compiled from the changed
    module. *)
Lemma failed_rewrite_leaves_changed_tree :
  ∃ c w' fn,
    compile_cell Demo.host_with_failing_hook Demo.test_code Demo.cell_id None None
      false empty_world = (Ok c, w')
    ∧ rewrite_fails Demo.host_with_failing_hook Demo.test_module
        (normalized Demo.test_code) fn
    ∧ Cell.body c
      = Some {| co_tree :=
                  ExecTree (rw_module (Demo.failing_hook Demo.test_module
                                         (normalized Demo.test_code) fn));
                co_filename := fn |}
    ∧ Cell.body c
      ≠ Some {| co_tree := ExecTree Demo.test_module; co_filename := fn |}.
Proof.
  eexists _, _, _. split; [vm_compute; reflexivity|].
  split; [discriminate|]. split; [vm_compute; reflexivity|].
  vm_compute. discriminate.
Qed.

(** ** Renaming a notebook to its own path *)

Lemma _is_same_path_true {FS App IR} (os : FileManager.OS FS App IR)
    (mgr : FileManager.AppFileManager App) (fs : FS) (path current : pystr) :
  FileManager.filename mgr = Some current →
  FileManager.abspath os fs current = FileManager.abspath os fs path →
  FileManager._is_same_path os path (mgr, fs) = (Ok true, (mgr, fs)).
Proof.
  intros Hf Hp. unfold FileManager._is_same_path.
  unfold mbind, FileManager.FM_bind, FileManager.get_filename_, FileManager.get_fs,
    mret, FileManager.FM_ret.
  cbn [fst snd]. rewrite Hf. cbn [fst snd]. rewrite Hp.
  rewrite bool_decide_eq_true_2 by reflexivity. reflexivity.
Qed.

(** C10.  When the manager has a file name and that name and the
    canonicalized new name have the same absolute path, [rename] returns at
    once: the manager and the file system are as they were.  This holds at
    every depth of nesting of [rename] and [_save_file]. *)
Theorem rename_same_path_is_noop {FS App IR} (os : FileManager.OS FS App IR)
    (depth : nat) (mgr : FileManager.AppFileManager App) (fs : FS)
    (new_filename current : pystr) :
  FileManager.filename mgr = Some current →
  FileManager.abspath os fs current
  = FileManager.abspath os fs (FileManager.canonicalize_filename os new_filename) →
  FileManager.rename_at os depth new_filename (mgr, fs) = (Ok (), (mgr, fs)).
Proof.
  intros Hf Hp. destruct depth; cbn [FileManager.rename_at];
    unfold FileManager.rename_with; unfold mbind at 1, FileManager.FM_bind at 1;
    rewrite (_is_same_path_true os mgr fs _ current Hf Hp); reflexivity.
Qed.

Lemma rename_same_path_is_noop_witness :
  FileManager.rename DemoOS.os (py "/work/nb.py") (DemoOS.manager, DemoOS.files)
  = (Ok (), (DemoOS.manager, DemoOS.files)).
Proof.
  apply (rename_same_path_is_noop DemoOS.os 2 DemoOS.manager DemoOS.files
           (py "/work/nb.py") (py "nb.py")); reflexivity.
Defined.

(** To another path the file is moved and the manager renamed. *)
Example rename_to_other_path :
  FileManager.rename DemoOS.os (py "/work/nb2.py") (DemoOS.manager, DemoOS.files)
  = (Ok (), ({| FileManager.filename := Some (py "/work/nb2.py");
                FileManager.app := () |},
             {[ py "/work/nb2.py" := py "import marimo" ]})).
Proof. vm_compute. reflexivity. Qed.

(** ** The nesting of [rename] and [_save_file] *)

Section Depth.
Context {FS App IR : Type} (os : FileManager.OS FS App IR).

#[local] Existing Instances FileManager.FM_ret FileManager.FM_bind.
Local Abbreviation FM := (@FileManager.FM FS App).
Local Abbreviation keeps := (@keeps_manager FS App).

Lemma FM_bind_ext {A B} (m : FM A) (k1 k2 : A → FM B) st :
  (∀ a st', (m st).2 = st' → k1 a st' = k2 a st') →
  (m ≫= k1) st = (m ≫= k2) st.
Proof.
  intros Hk. unfold mbind, FileManager.FM_bind.
  destruct (m st) as [[a|e] st']; [apply Hk|]; reflexivity.
Qed.

Lemma FM_bind_Ok {A B} (m : FM A) (k : A → FM B) st a st' :
  m st = (Ok a, st') → (m ≫= k) st = k a st'.
Proof. intros Hm. unfold mbind, FileManager.FM_bind. rewrite Hm. reflexivity. Qed.

Lemma keeps_manager_bind {A B} (m : FM A) (k : A → FM B) :
  keeps m → (∀ a, keeps (k a)) → keeps (m ≫= k).
Proof.
  intros Hm Hk st. unfold mbind, FileManager.FM_bind.
  specialize (Hm st). destruct (m st) as [[a|e] st']; cbn in *; [|exact Hm].
  rewrite Hk. exact Hm.
Qed.

Lemma keeps_manager_ret {A} (a : A) : keeps (mret a : FM A).
Proof. intros st. reflexivity. Qed.

Lemma keeps_manager_or_server_error (op : FS → result () * FS) :
  keeps (FileManager.or_server_error op).
Proof.
  intros st. unfold FileManager.or_server_error.
  destruct (op st.2) as [[?|?] ?]; reflexivity.
Qed.

Lemma keeps_manager_create_file f contents :
  keeps (FileManager._create_file os f contents).
Proof.
  apply keeps_manager_bind; [intros st; reflexivity|].
  intros _. apply keeps_manager_or_server_error.
Qed.

Lemma keeps_manager_when b (m : FM ()) :
  keeps m → keeps (FileManager.when_ b m).
Proof. destruct b; [auto|]. intros _. apply keeps_manager_ret. Qed.

(** On a named notebook [_save_file] does not call [rename]. *)
Lemma _save_file_with_named rename1 rename2 f notebook persist previous st :
  FileManager.filename st.1 ≠ None →
  FileManager._save_file_with os rename1 f notebook persist previous st
  = FileManager._save_file_with os rename2 f notebook persist previous st.
Proof.
  intros Hnamed. unfold FileManager._save_file_with.
  assert (Hlog : keeps (FileManager.on_fs (FileManager.log_debug os f)))
    by (intros ?; reflexivity).
  apply FM_bind_ext. intros _ st1 H1.
  assert (Hst1 : st1.1 = st.1) by (rewrite <- H1; apply Hlog).
  match goal with |- (?m ≫= _) _ = _ => assert (Hc : keeps m) end.
  { destruct (_ || _).
    - apply keeps_manager_bind; [intros ?; reflexivity|]. intros a.
      apply keeps_manager_bind; [intros ?; reflexivity|]. intros sf.
      apply keeps_manager_bind; [intros ?; reflexivity|]. intros fs.
      intros ?; reflexivity.
    - apply keeps_manager_bind; [|intros ? ?; reflexivity].
      destruct (match previous with Some _ => _ | None => _ end).
      + apply keeps_manager_bind; [intros ?; reflexivity|]. intros fs.
        apply keeps_manager_bind; [intros ?; reflexivity|]. intros md.
        apply keeps_manager_ret.
      + apply keeps_manager_bind; [intros ?; reflexivity|]. intros fs.
        apply keeps_manager_ret. }
  apply FM_bind_ext. intros contents st2 H2.
  assert (Hst2 : st2.1 = st.1) by (rewrite <- H2, Hc; exact Hst1).
  apply FM_bind_ext. intros _ st3 H3.
  assert (Hst3 : st3.1 = st.1).
  { rewrite <- H3, (keeps_manager_when _ _ (keeps_manager_create_file _ _)).
    exact Hst2. }
  assert (Hu : FileManager._is_unnamed st3 = (Ok false, st3)).
  { unfold FileManager._is_unnamed, FileManager.get_filename_, mbind,
      FileManager.FM_bind, mret, FileManager.FM_ret.
    rewrite Hst3, bool_decide_eq_false_2 by exact Hnamed. reflexivity. }
  rewrite !(FM_bind_Ok _ _ _ _ _ Hu). reflexivity.
Qed.

(** [rename] gives the same result with any two ways of saving that agree
    on named notebooks. *)
Lemma rename_with_ext save1 save2 new_filename st :
  (∀ f notebook persist previous st',
     FileManager.filename st'.1 ≠ None →
     save1 f notebook persist previous st' = save2 f notebook persist previous st') →
  FileManager.rename_with os save1 new_filename st
  = FileManager.rename_with os save2 new_filename st.
Proof.
  intros Hsave. unfold FileManager.rename_with.
  apply FM_bind_ext. intros same st1 _. destruct same; [reflexivity|].
  apply FM_bind_ext. intros _ st2 _.
  apply FM_bind_ext. intros self_filename st3 _.
  apply FM_bind_ext. intros needs_save st4 _.
  unfold mbind at 1 4, FileManager.FM_bind at 1 4, FileManager.set_filename.
  destruct needs_save; [|reflexivity]. unfold FileManager.when_.
  unfold mbind at 1 3, FileManager.FM_bind at 1 3, FileManager.get_app. cbn [fst snd].
  unfold mbind, FileManager.FM_bind. rewrite Hsave by discriminate. reflexivity.
Qed.

(** The bound on the nesting is never met: [rename] is the same at every
    depth, and so is [_save_file] from depth 1 on. *)
Lemma rename_at_any_depth depth new_filename st :
  FileManager.rename_at os depth new_filename st
  = FileManager.rename os new_filename st.
Proof.
  unfold FileManager.rename.
  destruct depth; cbn [FileManager.rename_at]; apply rename_with_ext;
    intros; apply _save_file_with_named; assumption.
Qed.

Lemma _save_file_at_any_depth depth f notebook persist previous st :
  FileManager._save_file_at os (S depth) f notebook persist previous st
  = FileManager._save_file os f notebook persist previous st.
Proof.
  unfold FileManager._save_file, FileManager._save_file_at, FileManager._save_file_with.
  do 4 (apply FM_bind_ext; intros ? ? _).
  match goal with |- (FileManager.when_ ?b _ ≫= _) _ = _ => destruct b end;
    [|reflexivity].
  unfold FileManager.when_, mbind, FileManager.FM_bind.
  rewrite (rename_at_any_depth (S depth)). reflexivity.
Qed.

End Depth.

(** * More properties *)

(** ** Position remapping, again *)

Lemma mapM_result_inv {A B} (f : A → result B) (l : list A) (k : list B) :
  mapM f l = Ok k → Forall2 (λ a b, f a = Ok b) l k.
Proof.
  revert k. induction l as [|a l IH]; intros k; cbn.
  - intros [= <-]. constructor.
  - destruct (f a) as [b|e] eqn:Hb; [|discriminate]. cbn.
    destruct (mapM f l) as [k'|e]; [|discriminate]. cbn.
    intros [= <-]. constructor; [exact Hb | apply IH; reflexivity].
Qed.

Lemma mapM_result_Raise {A B} (f : A → result B) (l : list A) (e : exn) :
  mapM f l = Raise e → Exists (λ a, f a = Raise e) l.
Proof.
  induction l as [|a l IH]; cbn; [discriminate|].
  destruct (f a) as [b|e'] eqn:Hb; cbn.
  - destruct (mapM f l) as [k'|e'']; cbn; [discriminate|].
    intros [= ->]. right. apply IH. reflexivity.
  - intros [= ->]. left. exact Hb.
Qed.

Lemma valid_location_remapped c l dl dc :
  valid_location c l = true →
  valid_location c (remapped_location c l dl dc) = true.
Proof.
  destruct l as [ln co el ec].
  destruct c; cbn; intros Hv; try done;
    repeat (apply andb_prop in Hv as [Hv ?]);
    destruct ln, co, el, ec; try discriminate; reflexivity.
Qed.

Lemma valid_tree_remapped dl dc n :
  valid_tree n = true → valid_tree (remapped dl dc n) = true.
Proof.
  induction n as [c l fields IH] using node_induction. cbn.
  intros Hv. apply andb_prop in Hv as [Hl Hf].
  rewrite (valid_location_remapped _ _ _ _ Hl). cbn.
  rewrite forallb_forall in Hf |- *. intros k Hk.
  apply in_map_iff in Hk as (k0 & <- & Hk0).
  rewrite Forall_forall in IH. apply IH; [apply list_elem_of_In, Hk0|].
  apply Hf, Hk0.
Qed.

Lemma remapped_location_twice c l dl1 dc1 dl2 dc2 :
  remapped_location c (remapped_location c l dl1 dc1) dl2 dc2
  = remapped_location c l (dl1 + dl2) (dc1 + dc2).
Proof.
  destruct l as [ln co el ec].
  destruct c; cbn; try reflexivity;
    destruct ln, co, el, ec; cbn; rewrite <- ?Z.add_assoc; reflexivity.
Qed.

Lemma remapped_twice dl1 dc1 dl2 dc2 n :
  remapped dl2 dc2 (remapped dl1 dc1 n) = remapped (dl1 + dl2) (dc1 + dc2) n.
Proof.
  induction n as [c l fields IH] using node_induction. cbn.
  rewrite remapped_location_twice. f_equal.
  rewrite <- list_fmap_compose. apply Forall_fmap_ext_1.
  eapply Forall_impl; [exact IH|]. intros k Hk. exact Hk.
Qed.

Lemma remapped_location_zero c l :
  valid_location c l = true → remapped_location c l 0 0 = l.
Proof.
  destruct l as [ln co el ec].
  destruct c; cbn; intros Hv; try reflexivity;
    repeat (apply andb_prop in Hv as [Hv ?]);
    destruct ln, co, el, ec; try discriminate; cbn; rewrite ?Z.add_0_r;
    reflexivity.
Qed.

Lemma remapped_zero n : valid_tree n = true → remapped 0 0 n = n.
Proof.
  induction n as [c l fields IH] using node_induction. cbn.
  intros Hv. apply andb_prop in Hv as [Hl Hf].
  rewrite (remapped_location_zero _ _ Hl). f_equal.
  rewrite forallb_forall in Hf. rewrite Forall_forall in IH.
  induction fields as [|k ks IHks]; [reflexivity|]. cbn. f_equal.
  - apply IH; [left|apply Hf; left; reflexivity].
  - apply IHks; intros; [apply IH; [right|]|apply Hf; right]; assumption.
Qed.

(** What [fix_source_position] returns on a tree with positions as the
    parser sets them. *)
Lemma fix_source_position_on_valid (n : node) (sp : SourcePosition) :
  valid_tree n = true →
  fix_source_position n sp = Ok (remapped (sp_lineno sp) (sp_col_offset sp) n).
Proof.
  induction n as [c l fields IH] using node_induction. intros Hv.
  cbn in Hv. apply andb_prop in Hv as [Hl Hf].
  cbn. rewrite (fix_child_valid _ _ _ Hl). cbn.
  rewrite (mapM_result_Ok _ (remapped (sp_lineno sp) (sp_col_offset sp))).
  - reflexivity.
  - rewrite forallb_forall in Hf. rewrite Forall_forall in IH |- *.
    intros k Hk. apply IH; [exact Hk|]. apply Hf. apply list_elem_of_In. exact Hk.
Qed.

(** X1.  On a tree with positions as the parser sets them, moving by one
    source position and then by another is moving once by the sum of the
    two offsets. *)
Theorem fix_source_position_twice (n : node) (sp1 sp2 : SourcePosition) :
  valid_tree n = true →
  (fix_source_position n sp1 ≫= λ n', fix_source_position n' sp2)
  = fix_source_position n (sp_add sp1 sp2).
Proof.
  intros Hv. rewrite (fix_source_position_on_valid n sp1 Hv). cbn [mbind result_bind].
  rewrite (fix_source_position_on_valid _ sp2 (valid_tree_remapped _ _ _ Hv)).
  rewrite (fix_source_position_on_valid n (sp_add sp1 sp2) Hv).
  rewrite remapped_twice. reflexivity.
Qed.

Lemma fix_source_position_twice_witness :
  valid_tree Demo.sample_tree = true
  ∧ (fix_source_position Demo.sample_tree Demo.anchor
       ≫= λ n', fix_source_position n' Demo.anchor)
    = fix_source_position Demo.sample_tree (sp_add Demo.anchor Demo.anchor).
Proof.
  split; [reflexivity|].
  apply (fix_source_position_twice Demo.sample_tree Demo.anchor Demo.anchor).
  reflexivity.
Defined.

(** X2.  On such a tree, moving by a source position and then by the
    opposite offsets gives the tree back. *)
Theorem fix_source_position_back (n : node) (sp : SourcePosition) :
  valid_tree n = true →
  (fix_source_position n sp ≫= λ n', fix_source_position n' (sp_opp sp)) = Ok n.
Proof.
  intros Hv. rewrite (fix_source_position_on_valid n sp Hv). cbn [mbind result_bind].
  rewrite (fix_source_position_on_valid _ _ (valid_tree_remapped _ _ _ Hv)).
  rewrite remapped_twice. cbn [sp_opp sp_lineno sp_col_offset].
  rewrite !Z.add_opp_diag_r. rewrite remapped_zero by exact Hv. reflexivity.
Qed.

Lemma fix_source_position_back_witness :
  valid_tree Demo.sample_tree = true
  ∧ (fix_source_position Demo.sample_tree Demo.anchor
       ≫= λ n', fix_source_position n' (sp_opp Demo.anchor))
    = Ok Demo.sample_tree.
Proof.
  split; [reflexivity|].
  apply (fix_source_position_back Demo.sample_tree Demo.anchor). reflexivity.
Defined.

Lemma fix_child_Raise c l sp e : fix_child c l sp = Raise e → e = TypeError.
Proof.
  destruct l as [ln co el ec]. unfold fix_child, add_offset, getattr.
  destruct c; destruct ln, co, el, ec; intros H; vm_compute in H; congruence.
Qed.

(** X3.  On any tree, [fix_source_position] either raises [TypeError] (a
    position that is [None] where an integer is added to it) or returns a
    tree with the same nodes, of the same classes, in the same places. *)
Theorem fix_source_position_outcome (n : node) (sp : SourcePosition) :
  match fix_source_position n sp with
  | Ok n' => skeleton n' = skeleton n
  | Raise e => e = TypeError
  end.
Proof.
  induction n as [c l fields IH] using node_induction. cbn.
  destruct (fix_child c l sp) as [l'|e] eqn:Hl; cbn;
    [|eapply fix_child_Raise, Hl].
  destruct (mapM (λ k, fix_source_position k sp) fields) as [fs|e] eqn:Hf; cbn.
  - f_equal. apply mapM_result_inv in Hf.
    induction Hf as [|k k' ks ks' Hk _ IHf]; [reflexivity|].
    apply Forall_cons in IH as [IHk IHks]. cbn. f_equal; [|apply IHf, IHks].
    rewrite Hk in IHk. exact IHk.
  - apply mapM_result_Raise in Hf. rewrite Exists_exists in Hf.
    destruct Hf as (k & Hk & Hr). rewrite Forall_forall in IH.
    specialize (IH k Hk). rewrite Hr in IH. exact IH.
Qed.

(** A [lineno] that is [None] makes it raise. *)
Example fix_source_position_None_lineno :
  fix_source_position
    (Node Demo.Assign (Loc (PyInt 1) (PyInt 0) (PyInt 1) (PyInt 5))
       [Node Demo.Name (Loc PyNone (PyInt 0) PyNone PyNone) []])
    Demo.anchor
  = Raise TypeError.
Proof. reflexivity. Qed.

(** ** Synthetic file names, again *)

Lemma lazy_group_Some (s g : pystr) :
  lazy_group s = Some g →
  (underscore ∉ g) ∧ (newline ∉ g) ∧ ∃ b, s = g ++ underscore :: b.
Proof.
  revert g. induction s as [|c s IH]; intros g; cbn; [discriminate|].
  destruct (decide (c = underscore)) as [->|Hu].
  - intros [= <-]. split; [apply not_elem_of_nil|].
    split; [apply not_elem_of_nil|]. exists s. reflexivity.
  - destruct (decide (c = newline)) as [->|Hn]; [discriminate|].
    destruct (lazy_group s) as [g'|]; [|discriminate]. cbn. intros [= <-].
    destruct (IH g' eq_refl) as (Hu' & Hn' & b & ->).
    split; [apply not_elem_of_cons; auto|].
    split; [apply not_elem_of_cons; auto|]. exists b. reflexivity.
Qed.

(** A match of the pattern is where the marker is, up to the first
    underscore after it. *)
Lemma findall_first_Some (filename g : pystr) :
  findall_first filename = Some g →
  (underscore ∉ g) ∧ (newline ∉ g)
  ∧ ∃ a b, filename = a ++ py "__marimo__cell_" ++ g ++ underscore :: b.
Proof.
  induction filename as [|c s IH]; [discriminate|].
  change (findall_first (c :: s)) with
    (match Str.strip_prefix (py "__marimo__cell_") (c :: s) ≫= lazy_group with
     | Some g => Some g
     | None => findall_first s
     end).
  destruct (Str.strip_prefix (py "__marimo__cell_") (c :: s)) as [r|] eqn:Hp;
    cbn [mbind option_bind].
  - destruct (lazy_group r) as [g'|] eqn:Hg.
    + intros [= ->]. apply lazy_group_Some in Hg as (Hu & Hn & b & ->).
      apply strip_prefix_Some in Hp. split; [exact Hu|]. split; [exact Hn|].
      exists [], b. exact Hp.
    + intros H. destruct (IH H) as (Hu & Hn & a & b & ->).
      split; [exact Hu|]. split; [exact Hn|]. exists (c :: a), b. reflexivity.
  - intros H. destruct (IH H) as (Hu & Hn & a & b & ->).
    split; [exact Hu|]. split; [exact Hn|]. exists (c :: a), b. reflexivity.
Qed.

(** X4.  Whatever the file name, a cell id that [cell_id_from_filename]
    returns has no underscore and no line feed in it, and the file name
    holds it between [__marimo__cell_] and an underscore. *)
Theorem cell_id_from_filename_sound (filename g : pystr) :
  cell_id_from_filename filename = Some g →
  (underscore ∉ g) ∧ (newline ∉ g)
  ∧ ∃ a b, filename = a ++ py "__marimo__cell_" ++ g ++ underscore :: b.
Proof.
  unfold cell_id_from_filename. intros Hg.
  destruct (findall_first_Some filename g Hg) as (Hu & Hn & a & b & Hf).
  split; [exact Hu|]. split; [exact Hn|]. exists a, b. exact Hf.
Qed.

Lemma cell_id_from_filename_sound_witness :
  cell_id_from_filename (py "/tmp/__marimo__cell_Hbol_x_1.py") = Some (py "Hbol")
  ∧ (underscore ∉ py "Hbol") ∧ (newline ∉ py "Hbol")
  ∧ ∃ a b, py "/tmp/__marimo__cell_Hbol_x_1.py"
           = a ++ py "__marimo__cell_" ++ py "Hbol" ++ underscore :: b.
Proof.
  split; [reflexivity|].
  apply (cell_id_from_filename_sound (py "/tmp/__marimo__cell_Hbol_x_1.py")
           (py "Hbol")).
  reflexivity.
Defined.

(** X5.  A file name without [__marimo__cell_] in it has no cell id. *)
Theorem cell_id_from_filename_no_marker (filename : pystr) :
  Str.contains (py "__marimo__cell_") filename = false →
  cell_id_from_filename filename = None.
Proof.
  intros Hc. destruct (cell_id_from_filename filename) as [g|] eqn:Hg;
    [|reflexivity].
  apply findall_first_Some in Hg as (_ & _ & a & b & ->).
  rewrite marker_in_contains in Hc; [discriminate|].
  exists a, (g ++ underscore :: b). reflexivity.
Qed.

Lemma cell_id_from_filename_no_marker_witness :
  cell_id_from_filename (py "/home/u/__marimo__/cell_1_.py") = None.
Proof.
  apply (cell_id_from_filename_no_marker (py "/home/u/__marimo__/cell_1_.py")).
  reflexivity.
Defined.

Lemma get_filename_eq (h : Host) (id suffix : pystr) :
  get_filename h id suffix
  = directory_part h ++ py "__marimo__cell_" ++ id ++ underscore :: suffix ++ py ".py".
Proof.
  unfold get_filename, path_join, directory_part.
  change (Str.startswith (py "/") _) with false at 1. cbv iota.
  destruct (bool_decide _ || _); rewrite <- !app_assoc; reflexivity.
Qed.

(** X6.  With one temporary directory and one suffix, two cell ids with
    the same file name are the same cell id. *)
Theorem get_filename_inj (h : Host) (suffix id1 id2 : pystr) :
  get_filename h id1 suffix = get_filename h id2 suffix → id1 = id2.
Proof.
  rewrite !get_filename_eq. intros H.
  apply app_inv_head, app_inv_head in H.
  change (id1 ++ [underscore] ++ suffix ++ py ".py"
          = id2 ++ [underscore] ++ suffix ++ py ".py") in H.
  apply app_inv_tail in H. exact H.
Qed.

Lemma get_filename_inj_witness : Demo.cell_id = Demo.cell_id.
Proof.
  exact (get_filename_inj Demo.host (py "ab12") Demo.cell_id Demo.cell_id eq_refl).
Defined.

(** ** The last token, again *)

(** X7.  Tokens that are end markers, line ends, comments, indentation or
    the encoding, at the end of the token list, do not change what
    [ends_with_semicolon] finds; with no other token it finds no
    semicolon. *)
Theorem trailing_tokens_are_skipped (tokens trailing : list token) :
  Forall (λ t, skipped (tok_type t) = true) trailing →
  last_token_is_semicolon (reverse (tokens ++ trailing))
  = last_token_is_semicolon (reverse tokens)
  ∧ last_token_is_semicolon (reverse trailing) = false.
Proof.
  intros Ht. assert (Hgen : ∀ tokens,
    last_token_is_semicolon (reverse (tokens ++ trailing))
    = last_token_is_semicolon (reverse tokens)).
  { clear tokens. intros tokens. rewrite reverse_app.
    apply Forall_reverse in Ht.
    induction Ht as [|t ts Hs _ IH]; [reflexivity|].
    cbn. rewrite Hs. exact IH. }
  split; [apply Hgen|]. apply (Hgen []).
Qed.

Lemma trailing_tokens_are_skipped_witness :
  last_token_is_semicolon
    (reverse (take 3 Demo.semicolon_tokens ++ drop 3 Demo.semicolon_tokens))
  = last_token_is_semicolon (reverse (take 3 Demo.semicolon_tokens))
  ∧ last_token_is_semicolon (reverse (drop 3 Demo.semicolon_tokens)) = false.
Proof.
  apply (trailing_tokens_are_skipped (take 3 Demo.semicolon_tokens)
           (drop 3 Demo.semicolon_tokens)).
  repeat constructor.
Defined.

(** ** The world after [compile_cell] *)

Lemma anchor_position_world h cid code sp m e w r w1 :
  anchor_position h cid code sp m e w = (r, w1) →
  match sp with
  | Some _ => w1 = w
  | None => w1 = registered h cid code w ∧ ∃ x, r = Ok x
  end.
Proof.
  unfold anchor_position. destruct sp as [p|].
  - unfold mbind, M_bind, lift.
    destruct (fix_source_position_module m p); [|intros [= _ <-]; reflexivity].
    destruct (fix_source_position_expression e p); intros [= _ <-]; reflexivity.
  - cbn. intros [= <- <-]. eauto.
Qed.

Lemma try_rewrite_asserts_world h m code fn w1 r w2 :
  try_rewrite_asserts h m code fn w1 = (r, w2) →
  (w2 = w1 ∧ ¬ rewrite_fails h m code fn)
  ∨ (w2 = add_warning rewrite_warning w1 ∧ rewrite_fails h m code fn).
Proof.
  unfold try_rewrite_asserts, rewrite_fails.
  destruct (rewrite_asserts h) as [rw|].
  - destruct (rw_raised (rw m code fn)) eqn:Hr; cbn; intros [= _ <-].
    + right. split; [reflexivity | discriminate].
    + left. split; [reflexivity | intros H; apply H; reflexivity].
  - cbn. intros [= _ <-]. right. split; [reflexivity | exact I].
Qed.

(** Where a run of [compile_cell], returning or raising, leaves the world:
    it writes the line cache at most once, under the synthetic file name
    and only without a source position, and it logs at most the one
    warning, and only for a failed rewriting that was called for. *)
Lemma compile_cell_world h code cid sp ci tr w r w' :
  compile_cell h code cid sp ci tr w = (r, w') →
  ∃ w1,
    (w1 = w ∨ (sp = None ∧ w1 = registered h cid (normalized code) w))
    ∧ (w' = w1
       ∨ (w' = add_warning rewrite_warning w1
          ∧ parses_to_tests h code || tr = true
          ∧ ∃ m2 fn, rewrite_fails h m2 (normalized code) fn))
    ∧ (∀ c, r = Ok c → Cell.body c ≠ None → sp = None →
         w1 = registered h cid (normalized code) w).
Proof.
  intros H.
  unfold compile_cell in H. fold (normalized code) in H. revert H. run_step.
  destruct (parse h (normalized code)) as [m|e] eqn:Hm.
  2: { intros [= <- <-]. exists w. split; [auto|]. split; [auto|]. intros c [=]. }
  case_bool_decide as Hb.
  { intros [= <- <-]. exists w. split; [auto|]. split; [auto|].
    intros c [= <-] Hn. destruct (Hn eq_refl). }
  run_step. destruct (scoped_visit h _ m) as [v|e].
  2: { intros [= <- <-]. exists w. split; [auto|]. split; [auto|]. intros c [=]. }
  run_step. destruct (split_last_expr h _ (v_module v)) as [[m1 e1]|e].
  2: { intros [= <- <-]. exists w. split; [auto|]. split; [auto|]. intros c [=]. }
  run_step.
  destruct (anchor_position h cid _ sp m1 e1 w) as [ra w1] eqn:Ha.
  apply anchor_position_world in Ha.
  assert (Hw1 : w1 = w ∨ (sp = None ∧ w1 = registered h cid (normalized code) w)).
  { destruct sp; [left; exact Ha | right; split; [reflexivity | apply Ha]]. }
  assert (Hreg : sp = None → w1 = registered h cid (normalized code) w).
  { intros ->. apply Ha. }
  destruct ra as [[[m2 e2] fn]|e].
  2: { intros [= <- <-]. exists w1. split; [exact Hw1|]. split; [auto|].
       intros c [=]. }
  run_step.
  destruct ((if contains_only_tests h m || tr
             then try_rewrite_asserts h m2 (normalized code) fn
             else mret m2) w1) as [rr w2] eqn:Hr.
  assert (Hw2 : w2 = w1
    ∨ (w2 = add_warning rewrite_warning w1
       ∧ parses_to_tests h code || tr = true
       ∧ ∃ m2 fn, rewrite_fails h m2 (normalized code) fn)).
  { unfold parses_to_tests. rewrite Hm.
    destruct (contains_only_tests h m || tr) eqn:Ht.
    - apply try_rewrite_asserts_world in Hr as [[-> _]|[-> Hf]]; [auto|].
      right. split; [reflexivity|]. split; [reflexivity|]. exists m2, fn. exact Hf.
    - injection Hr as _ <-. auto. }
  destruct rr as [m3|e].
  2: { intros [= <- <-]. exists w1. split; [exact Hw1|]. split; [exact Hw2|].
       intros c [=]. }
  run_step. destruct (compile_ast h (ExecTree m3) fn).
  2: { intros [= <- <-]. exists w1. split; [exact Hw1|]. split; [exact Hw2|].
       intros c [=]. }
  run_step. destruct (compile_ast h (EvalTree e2) fn); intros [= <- <-];
    exists w1; (split; [exact Hw1|]); (split; [exact Hw2|]); auto.
Qed.

(** X8.  Whether it returns or raises, [compile_cell] leaves the line
    cache as it was when it is given a source position; without one it
    changes at most the entry of the cell's synthetic file name, which then
    holds the lines of the text, each with a line feed; and when it returns
    a cell with a body artifact that entry is there. *)
Theorem compile_cell_linecache h code cid sp ci tr w r w' :
  compile_cell h code cid sp ci tr w = (r, w') →
  let filename := get_filename h cid [] in
  let entry := cache_entry filename (normalized code) in
  (linecache w' = linecache w ∨ linecache w' = <[filename := entry]> (linecache w))
  ∧ (sp ≠ None → linecache w' = linecache w)
  ∧ (∀ c, r = Ok c → Cell.body c ≠ None → sp = None →
       linecache w' !! filename = Some entry
       ∧ ∀ other, other ≠ filename → linecache w' !! other = linecache w !! other).
Proof.
  intros H filename entry.
  apply compile_cell_world in H as (w1 & Hw1 & Hw' & Hreg).
  assert (Hl : linecache w' = linecache w1)
    by (destruct Hw' as [->|[-> _]]; reflexivity).
  rewrite Hl. split; [|split].
  - destruct Hw1 as [->|[_ ->]]; [left|right]; reflexivity.
  - intros Hsp. destruct Hw1 as [->|[Hn _]]; [reflexivity | contradiction].
  - intros c Hc Hb Hsp. rewrite (Hreg c Hc Hb Hsp). cbn. split.
    + apply lookup_insert_eq.
    + intros other Ho. apply lookup_insert_ne. intros Heq. apply Ho.
      symmetry. exact Heq.
Qed.

Lemma compile_cell_linecache_witness :
  match compile_cell Demo.host Demo.sum_code Demo.cell_id None None false
          empty_world with
  | (r, w') =>
      ∀ c, r = Ok c → Cell.body c ≠ None → (None : option SourcePosition) = None →
        linecache w' !! get_filename Demo.host Demo.cell_id []
        = Some (cache_entry (get_filename Demo.host Demo.cell_id [])
                  (normalized Demo.sum_code))
        ∧ ∀ other, other ≠ get_filename Demo.host Demo.cell_id [] →
            linecache w' !! other = linecache empty_world !! other
  end.
Proof.
  destruct (compile_cell Demo.host Demo.sum_code Demo.cell_id None None false
              empty_world) as [r w'] eqn:H.
  apply (compile_cell_linecache Demo.host Demo.sum_code Demo.cell_id None None
           false empty_world r w' H).
Defined.

(** X9.  Whether it returns or raises, [compile_cell] logs nothing or the
    one warning of the rewriting step; it logs nothing when rewriting is
    not requested and the cell is not test-only, and nothing when the hook
    is there and does not raise. *)
Theorem compile_cell_warnings h code cid sp ci tr w r w' :
  compile_cell h code cid sp ci tr w = (r, w') →
  (warnings w' = warnings w ∨ warnings w' = rewrite_warning :: warnings w)
  ∧ (tr = false → parses_to_tests h code = false → warnings w' = warnings w)
  ∧ (∀ rewrite, rewrite_asserts h = Some rewrite →
     (∀ m c f, rw_raised (rewrite m c f) = None) →
     warnings w' = warnings w).
Proof.
  intros H. apply compile_cell_world in H as (w1 & Hw1 & Hw' & _).
  assert (Hl : warnings w1 = warnings w)
    by (destruct Hw1 as [->|[_ ->]]; reflexivity).
  split; [|split].
  - destruct Hw' as [->|[-> _]]; [left|right]; cbn; congruence.
  - intros -> Hnt. destruct Hw' as [->|[_ [Ht _]]]; [exact Hl|].
    rewrite Hnt in Ht. discriminate Ht.
  - intros rewrite Hrw Hok.
    destruct Hw' as [->|[_ (_ & m2 & fn & Hf)]]; [exact Hl|].
    unfold rewrite_fails in Hf. rewrite Hrw in Hf. destruct (Hf (Hok _ _ _)).
Qed.

Lemma compile_cell_warnings_witness :
  match compile_cell Demo.host Demo.test_code Demo.cell_id None None false
          empty_world with
  | (_, w') =>
      warnings w' = warnings empty_world
      ∨ warnings w' = rewrite_warning :: warnings empty_world
  end.
Proof.
  destruct (compile_cell Demo.host Demo.test_code Demo.cell_id None None false
              empty_world) as [r w'] eqn:H.
  apply (compile_cell_warnings Demo.host Demo.test_code Demo.cell_id None None
           false empty_world r w' H).
Defined.

(** ** The names of a cell *)

Lemma NoDup_omap_keys {V} (f : pystr → option V) (l : list pystr) :
  NoDup l → NoDup (omap (λ k, (k,.) <$> f k) l).*1.
Proof.
  induction 1 as [|n ns Hn _ IH]; [constructor|]. cbn.
  destruct (f n); cbn; [|exact IH].
  constructor; [|exact IH]. intros Hx.
  apply list_elem_of_fmap in Hx as ([k x] & -> & Hx).
  apply list_elem_of_omap in Hx as (n' & Hn' & Hx).
  destruct (f n'); [|discriminate].
  injection Hx as <- _. exact (Hn Hn').
Qed.

(** X10.  For a non-empty body, [defs] and [temporaries] together are the
    names the visitor found defined, [defs] holding those that are not
    local and [temporaries] those that are; and [variable_data] is the
    visitor's, cut down to [defs]. *)
Theorem defs_partition h code cid sp ci tr w c w' m v :
  compile_cell h code cid sp ci tr w = (Ok c, w') →
  parse h (normalized code) = Ok m → body m ≠ [] →
  scoped_visit h (py "cell_" ++ cid) m = Ok v →
  Cell.defs c ∪ Cell.temporaries c = v_defs v
  ∧ (∀ name, name ∈ Cell.defs c ↔ name ∈ v_defs v ∧ is_local h name = false)
  ∧ (∀ name, name ∈ Cell.temporaries c ↔ name ∈ v_defs v ∧ is_local h name = true)
  ∧ (∀ name, Cell.variable_data c !! name
             = if decide (name ∈ Cell.defs c) then v_variable_data v !! name
               else None).
Proof.
  intros H Hm Hb Hv. apply compile_cell_inv in H as (m' & Hm' & H).
  rewrite Hm in Hm'. injection Hm' as <-.
  destruct H as [[He _]|(_ & v' & m1 & e1 & m2 & e2 & fn & w1 & m3 & bo & le & H)];
    [contradiction|].
  destruct H as (Hv' & _ & _ & _ & _ & _ & ->).
  rewrite Hv in Hv'. injection Hv' as <-. cbn.
  assert (Hd : ∀ name, name ∈ filter (λ name, is_local h name = false) (v_defs v)
                       ↔ name ∈ v_defs v ∧ is_local h name = false).
  { intros name. rewrite elem_of_filter. tauto. }
  split; [|split; [exact Hd|split]].
  - apply set_eq. intros name. rewrite elem_of_union, elem_of_difference, Hd.
    destruct (is_local h name); intuition congruence.
  - intros name. rewrite elem_of_difference, Hd.
    destruct (is_local h name); intuition congruence.
  - intros name.
    set (l := omap (λ name, (name,.) <$> v_variable_data v !! name)
                   (elements (filter (λ name, is_local h name = false) (v_defs v)))).
    assert (Hin : ∀ k x, (k, x) ∈ l ↔
              k ∈ filter (λ name, is_local h name = false) (v_defs v)
              ∧ v_variable_data v !! k = Some x).
    { intros k x. unfold l. rewrite list_elem_of_omap. split.
      - intros (n & Hn & Hx). destruct (v_variable_data v !! n) eqn:Hl;
          [|discriminate]. injection Hx as <- <-.
        split; [apply elem_of_elements, Hn | exact Hl].
      - intros [Hk Hx]. exists k. split; [apply elem_of_elements, Hk|].
        rewrite Hx. reflexivity. }
    assert (Hnd : NoDup l.*1) by (apply NoDup_omap_keys, NoDup_elements).
    destruct (decide (name ∈ _)) as [Hyes|Hno].
    + destruct (v_variable_data v !! name) as [x|] eqn:Hx.
      * apply elem_of_list_to_map; [exact Hnd|]. apply Hin. auto.
      * apply not_elem_of_list_to_map. intros Hk.
        apply list_elem_of_fmap in Hk as ([k y] & -> & Hk).
        apply Hin in Hk as [_ Hk]. cbn in Hx. congruence.
    + apply not_elem_of_list_to_map. intros Hk.
      apply list_elem_of_fmap in Hk as ([k y] & -> & Hk).
      apply Hin in Hk as [Hk _]. exact (Hno Hk).
Qed.

Lemma defs_partition_witness :
  match compile_cell Demo.host Demo.sum_code Demo.cell_id None None false
          empty_world,
        scoped_visit Demo.host (py "cell_" ++ Demo.cell_id) Demo.sum_module with
  | (Ok c, _), Ok v => Cell.defs c ∪ Cell.temporaries c = v_defs v
  | _, _ => False
  end.
Proof.
  destruct (compile_cell Demo.host Demo.sum_code Demo.cell_id None None false
              empty_world) as [[c|e] w'] eqn:H;
    [|vm_compute in H; discriminate H].
  destruct (scoped_visit Demo.host (py "cell_" ++ Demo.cell_id) Demo.sum_module)
    as [v|e] eqn:Hv; [|discriminate Hv].
  apply (defs_partition Demo.host Demo.sum_code Demo.cell_id None None false
           empty_world c w' Demo.sum_module v H); [reflexivity | discriminate | exact Hv].
Defined.

(** ** The artifacts of a cell *)

(** X11.  For a non-empty body, the two artifacts are compiled under one
    file name, the file of the source position when there is one and the
    synthetic file name of the cell id otherwise, and the tree the cell
    keeps is the whole tree as the visitor left it, the last statement
    included. *)
Theorem artifacts_share_filename h code cid sp ci tr w c w' m v :
  compile_cell h code cid sp ci tr w = (Ok c, w') →
  parse h (normalized code) = Ok m → body m ≠ [] →
  scoped_visit h (py "cell_" ++ cid) m = Ok v →
  let filename := match sp with
                  | Some p => sp_filename p
                  | None => get_filename h cid []
                  end in
  (co_filename <$> Cell.body c) = Some filename
  ∧ (co_filename <$> Cell.last_expr c) = Some filename
  ∧ Cell.mod_ c = v_module v.
Proof.
  intros H Hm Hb Hv. apply compile_cell_inv in H as (m' & Hm' & H).
  rewrite Hm in Hm'. injection Hm' as <-.
  destruct H as [[He _]|(_ & v' & m1 & e1 & m2 & e2 & fn & w1 & m3 & bo & le & H)];
    [contradiction|].
  destruct H as (Hv' & _ & Ha & _ & Hbo & Hle & ->).
  rewrite Hv in Hv'. injection Hv' as <-.
  apply anchor_position_spec in Ha as (_ & _ & ->).
  unfold compile_ast in Hbo, Hle.
  destruct (compile_error h (ExecTree m3) _); [discriminate|].
  destruct (compile_error h (EvalTree e2) _); [discriminate|].
  injection Hbo as <-. injection Hle as <-. repeat split.
Qed.

Lemma artifacts_share_filename_witness :
  match compile_cell Demo.host Demo.sum_code Demo.cell_id (Some Demo.anchor) None
          false empty_world,
        scoped_visit Demo.host (py "cell_" ++ Demo.cell_id) Demo.sum_module with
  | (Ok c, _), Ok v =>
      (co_filename <$> Cell.body c) = Some (py "/home/u/nb.py")
      ∧ (co_filename <$> Cell.last_expr c) = Some (py "/home/u/nb.py")
      ∧ Cell.mod_ c = v_module v
  | _, _ => False
  end.
Proof.
  destruct (compile_cell Demo.host Demo.sum_code Demo.cell_id (Some Demo.anchor)
              None false empty_world) as [[c|e] w'] eqn:H;
    [|vm_compute in H; discriminate H].
  destruct (scoped_visit Demo.host (py "cell_" ++ Demo.cell_id) Demo.sum_module)
    as [v|e] eqn:Hv; [|discriminate Hv].
  apply (artifacts_share_filename Demo.host Demo.sum_code Demo.cell_id
           (Some Demo.anchor) None false empty_world c w' Demo.sum_module v H);
    [reflexivity | discriminate | exact Hv].
Defined.

(** ** The cached lines *)

Lemma with_final_newline_cons_newline (pre s : pystr) :
  with_final_newline (pre ++ newline :: s)
  = pre ++ newline :: with_final_newline s.
Proof.
  unfold with_final_newline. rewrite last_app. cbn [last].
  destruct s as [|c s].
  - cbn. rewrite decide_True by reflexivity. reflexivity.
  - rewrite last_cons. destruct (last (c :: s)) as [d|] eqn:Hd.
    + destruct (decide (d = newline)); [reflexivity|].
      rewrite <- app_assoc. reflexivity.
    + destruct (last_None (c :: s)) as [Hn _]. discriminate (Hn Hd).
Qed.

Lemma splitlines_from_line_feeds (cur s : pystr) :
  only_line_feeds s → newline ∉ cur →
  concat ((λ line, line ++ [newline]) <$> Str.splitlines_from cur s)
  = with_final_newline (reverse cur ++ s).
Proof.
  intros Hs. revert cur. induction Hs as [|c s Hc _ IH]; intros cur Hcur.
  - rewrite app_nil_r. destruct cur as [|d cur]; [reflexivity|].
    cbn [Str.splitlines_from]. rewrite fmap_cons, fmap_nil. cbn [concat].
    rewrite app_nil_r. unfold with_final_newline.
    rewrite reverse_cons, last_snoc.
    apply not_elem_of_cons in Hcur as [Hd _].
    rewrite decide_False by congruence. reflexivity.
  - cbn [Str.splitlines_from]. destruct Hc as [->|[Hlb Hcr]].
    + rewrite decide_False by discriminate.
      change (Str.is_linebreak newline) with true. cbv iota.
      rewrite fmap_cons. cbn [concat]. rewrite (IH []) by apply not_elem_of_nil.
      rewrite with_final_newline_cons_newline, <- app_assoc. reflexivity.
    + rewrite decide_False by exact Hcr. rewrite Hlb.
      rewrite IH.
      * rewrite reverse_cons, <- app_assoc. reflexivity.
      * apply not_elem_of_cons. split; [|exact Hcur].
        intros <-. discriminate Hlb.
Qed.

(** X12.  For a text whose only line boundaries are line feeds, the lines
    [cache] stores, put end to end, are the text, with a line feed added
    at the end when the text is not empty and does not end in one; the
    stored size is the length of the text. *)
Theorem cached_lines_are_the_text (filename code : pystr) (w : World) :
  only_line_feeds code →
  ∃ entry, (cache filename code w).2 = {| linecache := <[filename := entry]> (linecache w);
                                           warnings := warnings w |}
    ∧ concat (lc_lines entry) = with_final_newline code
    ∧ lc_size entry = length code ∧ lc_fullname entry = filename.
Proof.
  intros Hc. eexists. split; [reflexivity|]. cbn.
  split; [|split; reflexivity].
  apply (splitlines_from_line_feeds [] code Hc). apply not_elem_of_nil.
Qed.

Lemma cached_lines_are_the_text_witness :
  only_line_feeds Demo.sum_code
  ∧ ∃ entry,
      (cache (py "f.py") Demo.sum_code empty_world).2
      = {| linecache := <[py "f.py" := entry]> (linecache empty_world);
           warnings := warnings empty_world |}
      ∧ concat (lc_lines entry) = with_final_newline Demo.sum_code
      ∧ lc_size entry = length Demo.sum_code ∧ lc_fullname entry = py "f.py".
Proof.
  assert (H : only_line_feeds Demo.sum_code).
  { unfold only_line_feeds. apply Forall_forall. intros c Hc.
    apply list_elem_of_In in Hc. vm_compute in Hc.
    repeat (destruct Hc as [<-|Hc];
            [first [left; reflexivity | right; split; [reflexivity|discriminate]]|]).
    destruct Hc. }
  split; [exact H|].
  apply (cached_lines_are_the_text (py "f.py") Demo.sum_code empty_world H).
Defined.

(** With a carriage return in it the text does not come back. *)
Example cached_lines_with_carriage_return :
  concat (lc_lines (cache_entry (py "f.py") (py "a" ++ [13; 10] ++ py "b")%N))
  = py "a" ++ [newline] ++ py "b" ++ [newline].
Proof. reflexivity. Qed.

(** ** [get_source_position] *)

Lemma get_source_position_unwrapped f lineno_ col_offset_ :
  get_source_position f lineno_ col_offset_
  = get_source_position (unwrapped f) lineno_ col_offset_.
Proof. induction f; cbn; auto. Qed.

(** X13.  For a class, or an object whose globals hold a [__name__],
    behind any chain of wrappers, whose module [inspect] finds: whether
    the [__module__] or that [__name__] is [__main__] plays no part.  The
    result is [None] exactly when the module has a spec named
    [marimo_app]; otherwise the file of the object is asked for, and the
    result is the position made of that file and the line and column that
    were passed, or the exception that asking for the file raises. *)
Theorem get_source_position_by_spec (f : pyobject) (r : Reflection)
    (spec : option pystr) (lineno_ col_offset_ : Z) :
  reflects (unwrapped f) r →
  module_spec r = Some spec →
  get_source_position f lineno_ col_offset_
  = if bool_decide (spec = Some (py "marimo_app")) then Ok None
    else match source_file r with
         | Ok file => Ok (Some {| sp_filename := file; sp_lineno := lineno_;
                                  sp_col_offset := col_offset_ |})
         | Raise e => Raise e
         end.
Proof.
  intros Hr Hs.
  assert (H : ∀ b, script_position b r lineno_ col_offset_
    = if bool_decide (spec = Some (py "marimo_app")) then Ok None
      else match source_file r with
           | Ok file => Ok (Some {| sp_filename := file; sp_lineno := lineno_;
                                    sp_col_offset := col_offset_ |})
           | Raise e => Raise e
           end).
  { intros b. unfold script_position. rewrite Hs.
    destruct spec as [name|].
    - destruct (decide (name = py "marimo_app")) as [->|Hne].
      + rewrite !bool_decide_eq_true_2 by reflexivity. reflexivity.
      + rewrite !bool_decide_eq_false_2 by congruence. cbn.
        destruct (source_file r); reflexivity.
    - rewrite bool_decide_eq_false_2 by discriminate. cbn.
      destruct (source_file r); reflexivity. }
  rewrite get_source_position_unwrapped.
  destruct Hr as [[n ->]|[n ->]]; cbn; apply H.
Qed.

Lemma get_source_position_by_spec_witness :
  get_source_position DemoObjects.cached_function 7 4
  = Ok (Some {| sp_filename := py "/home/u/nb.py"; sp_lineno := 7;
                sp_col_offset := 4 |})
  ∧ get_source_position (AClass (py "builtins") DemoObjects.builtin) 7 4
    = Raise TypeError.
Proof.
  split.
  - apply (get_source_position_by_spec DemoObjects.cached_function
             DemoObjects.in_script None 7 4).
    + right. exists (py "__main__"). reflexivity.
    + reflexivity.
  - apply (get_source_position_by_spec (AClass (py "builtins") DemoObjects.builtin)
             DemoObjects.builtin (Some (py "builtins")) 7 4).
    + left. exists (py "builtins"). reflexivity.
    + reflexivity.
Defined.

(** X14.  A source position that [get_source_position] returns has the
    line and the column that were passed and the file of the object at the
    end of the wrappers; that object is a class or has globals, and it is
    [__main__] by name or its module is found with no spec or with a spec
    not named [marimo_app]. *)
Theorem get_source_position_sound (f : pyobject) (lineno_ col_offset_ : Z)
    (sp : SourcePosition) :
  get_source_position f lineno_ col_offset_ = Ok (Some sp) →
  sp_lineno sp = lineno_ ∧ sp_col_offset sp = col_offset_
  ∧ ∃ r, reflects (unwrapped f) r ∧ source_file r = Ok (sp_filename sp)
      ∧ (unwrapped f = AClass (py "__main__") r
         ∨ unwrapped f = AFunction (Some (py "__main__")) r
         ∨ ∃ spec, module_spec r = Some spec ∧ spec ≠ Some (py "marimo_app")).
Proof.
  assert (H : ∀ b r, script_position b r lineno_ col_offset_ = Ok (Some sp) →
    sp_lineno sp = lineno_ ∧ sp_col_offset sp = col_offset_
    ∧ source_file r = Ok (sp_filename sp)
    ∧ ((module_spec r = None ∧ b = true)
       ∨ ∃ spec, module_spec r = Some spec ∧ spec ≠ Some (py "marimo_app"))).
  { intros b r. unfold script_position.
    destruct (module_spec r) as [spec|].
    - destruct spec as [name|].
      + case_bool_decide as Hn; cbn; [discriminate|].
        destruct (source_file r); [|discriminate]. cbn. intros [= <-].
        repeat split. right. eexists. split; [reflexivity|].
        intros [= Heq]. apply Hn. exact Heq.
      + cbn. destruct (source_file r); [|discriminate]. cbn. intros [= <-].
        repeat split. right. eexists. split; [reflexivity|]. discriminate.
    - destruct b; cbn; [|discriminate].
      destruct (source_file r); [|discriminate]. cbn. intros [= <-].
      repeat split. left. auto. }
  rewrite get_source_position_unwrapped.
  destruct (unwrapped f) as [n r|gn r|g|] eqn:Hu; cbn.
  - intros Hp. apply H in Hp as (Hl & Hc & Hf & Hs).
    split; [exact Hl|]. split; [exact Hc|]. exists r.
    split; [left; eauto|]. split; [exact Hf|].
    destruct Hs as [[_ Hb]|Hs]; [|auto].
    apply bool_decide_eq_true in Hb. subst n. auto.
  - destruct gn as [n|]; [|discriminate].
    intros Hp. apply H in Hp as (Hl & Hc & Hf & Hs).
    split; [exact Hl|]. split; [exact Hc|]. exists r.
    split; [right; eauto|]. split; [exact Hf|].
    destruct Hs as [[_ Hb]|Hs]; [|auto].
    apply bool_decide_eq_true in Hb. subst n. auto.
  - exfalso. clear -Hu. induction f; cbn in Hu; try discriminate; auto.
  - discriminate.
Qed.

Lemma get_source_position_sound_witness :
  sp_lineno {| sp_filename := py "/home/u/nb.py"; sp_lineno := 7; sp_col_offset := 4 |}
  = 7
  ∧ sp_col_offset {| sp_filename := py "/home/u/nb.py"; sp_lineno := 7;
                     sp_col_offset := 4 |} = 4
  ∧ ∃ r, reflects (unwrapped DemoObjects.cached_function) r
      ∧ source_file r = Ok (py "/home/u/nb.py")
      ∧ (unwrapped DemoObjects.cached_function = AClass (py "__main__") r
         ∨ unwrapped DemoObjects.cached_function
           = AFunction (Some (py "__main__")) r
         ∨ ∃ spec, module_spec r = Some spec ∧ spec ≠ Some (py "marimo_app")).
Proof.
  apply (get_source_position_sound DemoObjects.cached_function 7 4
           {| sp_filename := py "/home/u/nb.py"; sp_lineno := 7; sp_col_offset := 4 |}
           eq_refl).
Defined.

(** ** [ir_cell_factory] *)

(** X15.  The handle [ir_cell_factory] returns wraps the cell
    [compile_cell] makes of the code without source position, carried
    imports or requested rewriting; its name is the name of the definition,
    after the top-level prefix for a function or class definition; and when
    the cell has a body artifact, that artifact is filed under the
    synthetic file name of the cell id, under which the line cache then
    holds the lines of the code. *)
Theorem ir_cell_factory_cell h prefix cell_def cid w cell w' :
  ir_cell_factory h prefix cell_def cid w = (Ok cell, w') →
  compile_cell h (cd_code cell_def) cid None None false w
  = (Ok (Handle._cell cell), w')
  ∧ Handle._name cell
    = match cd_class cell_def with
      | PlainCell => cd_name cell_def
      | _ => prefix ++ cd_name cell_def
      end
  ∧ (Cell.body (Handle._cell cell) ≠ None →
     (co_filename <$> Cell.body (Handle._cell cell)) = Some (get_filename h cid [])
     ∧ linecache w' !! get_filename h cid []
       = Some (cache_entry (get_filename h cid []) (normalized (cd_code cell_def)))).
Proof.
  unfold ir_cell_factory. run_step.
  destruct (compile_cell h (cd_code cell_def) cid None None false w)
    as [[c|e] w1] eqn:Hc; [|discriminate].
  intros [= <- <-]. cbn. split; [reflexivity|].
  split; [destruct (cd_class cell_def); reflexivity|].
  intros Hb. split.
  - apply compile_cell_inv in Hc as (m & Hm & [He|Hne]).
    + destruct He as (_ & _ & _ & _ & _ & _ & _ & _ & He & _). contradiction.
    + destruct Hne as (_ & v & m1 & e1 & m2 & e2 & fn & w0 & m3 & bo & le & H).
      destruct H as (_ & _ & Ha & _ & Hbo & _ & ->).
      apply anchor_position_spec in Ha as (_ & _ & ->).
      unfold compile_ast in Hbo.
      destruct (compile_error h (ExecTree m3) _); [discriminate|].
      injection Hbo as <-. reflexivity.
  - apply compile_cell_world in Hc as (w0 & _ & Hw & Hreg).
    rewrite (Hreg c eq_refl Hb eq_refl) in Hw.
    destruct Hw as [->|[-> _]]; cbn; apply lookup_insert_eq.
Qed.

Lemma ir_cell_factory_cell_witness :
  match ir_cell_factory Demo.host (py "*") DemoObjects.function_cell Demo.cell_id
          empty_world with
  | (Ok cell, w') =>
      compile_cell Demo.host Demo.sum_code Demo.cell_id None None false empty_world
      = (Ok (Handle._cell cell), w')
      ∧ Handle._name cell = py "*" ++ py "total"
  | (Raise _, _) => False
  end.
Proof.
  destruct (ir_cell_factory Demo.host (py "*") DemoObjects.function_cell
              Demo.cell_id empty_world) as [[cell|e] w'] eqn:H;
    [|vm_compute in H; discriminate H].
  destruct (ir_cell_factory_cell Demo.host (py "*") DemoObjects.function_cell
              Demo.cell_id empty_world cell w' H) as (H1 & H2 & _).
  split; [exact H1 | exact H2].
Defined.

(** ** [rename], its other ways out *)

Section Rename.
Context {FS App IR : Type} (os : FileManager.OS FS App IR).

#[local] Existing Instances FileManager.FM_ret FileManager.FM_bind.
Local Abbreviation FM := (@FileManager.FM FS App).

Lemma FM_bind_Raise {A B} (m : FM A) (k : A → FM B) st e st' :
  m st = (Raise e, st') → (m ≫= k) st = (Raise e, st').
Proof. intros Hm. unfold mbind, FileManager.FM_bind. rewrite Hm. reflexivity. Qed.

Lemma FM_bind_forget {A} (m : FM A) st :
  (m ≫= λ _, mret ()) st = forget (m st).
Proof.
  unfold mbind, FileManager.FM_bind, forget.
  destruct (m st) as [[a|e] st']; reflexivity.
Qed.

Lemma _is_same_path_eval mgr fs path :
  FileManager._is_same_path os path (mgr, fs)
  = (Ok match FileManager.filename mgr with
        | Some current =>
            bool_decide (FileManager.abspath os fs current
                         = FileManager.abspath os fs path)
        | None => false
        end, (mgr, fs)).
Proof.
  unfold FileManager._is_same_path.
  rewrite (FM_bind_Ok FileManager.get_filename_ _ (mgr, fs)
             (FileManager.filename mgr) (mgr, fs) eq_refl).
  destruct (FileManager.filename mgr); reflexivity.
Qed.

Lemma _assert_path_does_not_exist_eval mgr fs path :
  FileManager._assert_path_does_not_exist os path (mgr, fs)
  = if FileManager.path_exists os fs path
    then (Raise (HTTPException FileManager.BAD_REQUEST), (mgr, fs))
    else (Ok (), (mgr, fs)).
Proof.
  unfold FileManager._assert_path_does_not_exist, mbind, FileManager.FM_bind,
    FileManager.get_fs. cbn [snd]. destruct (FileManager.path_exists os fs path);
    reflexivity.
Qed.

Lemma _create_file_eval mgr fs path contents :
  FileManager._create_file os path contents (mgr, fs)
  = match FileManager.write_text os path contents
            (FileManager.mkdir_parents os path fs) with
    | (Ok _, fs') => (Ok (), (mgr, fs'))
    | (Raise _, fs') => (Raise (HTTPException FileManager.SERVER_ERROR), (mgr, fs'))
    end.
Proof. reflexivity. Qed.

Lemma _rename_file_eval mgr fs path current :
  FileManager.filename mgr = Some current →
  FileManager._rename_file os path (mgr, fs)
  = match FileManager.rename_path os current path
            (FileManager.mkdir_parents os path fs) with
    | (Ok _, fs') => (Ok (), (mgr, fs'))
    | (Raise _, fs') => (Raise (HTTPException FileManager.SERVER_ERROR), (mgr, fs'))
    end.
Proof.
  intros Hf. unfold FileManager._rename_file.
  rewrite (FM_bind_Ok FileManager.get_filename_ _ (mgr, fs)
             (FileManager.filename mgr) (mgr, fs) eq_refl).
  rewrite Hf. reflexivity.
Qed.

(** [rename], path by path. *)
Lemma rename_paths depth mgr fs new_filename :
  let target := FileManager.canonicalize_filename os new_filename in
  FileManager.rename_at os depth new_filename (mgr, fs)
  = match FileManager.filename mgr with
    | Some current =>
        if bool_decide (FileManager.abspath os fs current
                        = FileManager.abspath os fs target)
        then (Ok (), (mgr, fs))
        else if FileManager.path_exists os fs target
        then (Raise (HTTPException FileManager.BAD_REQUEST), (mgr, fs))
        else
          match FileManager.rename_path os current target
                  (FileManager.mkdir_parents os target fs) with
          | (Ok _, fs') =>
              if bool_decide (FileManager.last_chars 3 current
                              = FileManager.last_chars 3 target)
              then (Ok (), (renamed mgr target, fs'))
              else forget (FileManager._save_file os target
                             (FileManager.to_ir os (FileManager.app mgr)) true
                             (Some current) (renamed mgr target, fs'))
          | (Raise _, fs') =>
              (Raise (HTTPException FileManager.SERVER_ERROR), (mgr, fs'))
          end
    | None =>
        if FileManager.path_exists os fs target
        then (Raise (HTTPException FileManager.BAD_REQUEST), (mgr, fs))
        else
          match FileManager.write_text os target []
                  (FileManager.mkdir_parents os target fs) with
          | (Ok _, fs') => (Ok (), (renamed mgr target, fs'))
          | (Raise _, fs') =>
              (Raise (HTTPException FileManager.SERVER_ERROR), (mgr, fs'))
          end
    end.
Proof.
  intros target.
  rewrite rename_at_any_depth. unfold FileManager.rename.
  cbn [FileManager.rename_at]. unfold FileManager.rename_with. fold target.
  rewrite (FM_bind_Ok _ _ _ _ _ (_is_same_path_eval mgr fs target)).
  destruct (FileManager.filename mgr) as [current|] eqn:Hf.
  - case_bool_decide as Hsame; [reflexivity|].
    destruct (FileManager.path_exists os fs target) eqn:He.
    { apply FM_bind_Raise. rewrite _assert_path_does_not_exist_eval, He.
      reflexivity. }
    rewrite (FM_bind_Ok _ _ (mgr, fs) () (mgr, fs))
      by (rewrite _assert_path_does_not_exist_eval, He; reflexivity).
    rewrite (FM_bind_Ok FileManager.get_filename_ _ (mgr, fs)
               (FileManager.filename mgr) (mgr, fs) eq_refl).
    rewrite Hf.
    destruct (FileManager.rename_path os current target
                (FileManager.mkdir_parents os target fs)) as [[u|e] fs'] eqn:Hr.
    + rewrite (FM_bind_Ok _ _ (mgr, fs)
                 (negb (bool_decide (FileManager.last_chars 3 current
                                     = FileManager.last_chars 3 target)))
                 (mgr, fs')).
      2: { rewrite (FM_bind_Ok _ _ (mgr, fs) () (mgr, fs')); [reflexivity|].
           rewrite (_rename_file_eval _ _ _ _ Hf), Hr. reflexivity. }
      rewrite (FM_bind_Ok (FileManager.set_filename (Some target)) _ (mgr, fs')
                 () (renamed mgr target, fs') eq_refl).
      case_bool_decide; cbn [negb FileManager.when_]; [reflexivity|].
      rewrite (FM_bind_Ok FileManager.get_app _ (renamed mgr target, fs')
                 (FileManager.app mgr) (renamed mgr target, fs') eq_refl).
      rewrite FM_bind_forget, <- (_save_file_at_any_depth os 0). reflexivity.
    + apply FM_bind_Raise. apply FM_bind_Raise.
      rewrite (_rename_file_eval _ _ _ _ Hf), Hr. reflexivity.
  - destruct (FileManager.path_exists os fs target) eqn:He.
    { apply FM_bind_Raise. rewrite _assert_path_does_not_exist_eval, He.
      reflexivity. }
    rewrite (FM_bind_Ok _ _ (mgr, fs) () (mgr, fs))
      by (rewrite _assert_path_does_not_exist_eval, He; reflexivity).
    rewrite (FM_bind_Ok FileManager.get_filename_ _ (mgr, fs)
               (FileManager.filename mgr) (mgr, fs) eq_refl).
    rewrite Hf.
    destruct (FileManager.write_text os target []
                (FileManager.mkdir_parents os target fs)) as [[u|e] fs'] eqn:Hw.
    + rewrite (FM_bind_Ok _ _ (mgr, fs) false (mgr, fs')); [reflexivity|].
      rewrite (FM_bind_Ok _ _ (mgr, fs) () (mgr, fs')); [reflexivity|].
      rewrite _create_file_eval, Hw. reflexivity.
    + apply FM_bind_Raise. apply FM_bind_Raise.
      rewrite _create_file_eval, Hw. reflexivity.
Qed.

(** *** What is kept *)

Lemma preserves_bind {A B X} (part : FileManager.AppFileManager App → X)
    (m : FM A) (k : A → FM B) :
  preserves part m → (∀ a, preserves part (k a)) → preserves part (m ≫= k).
Proof.
  intros Hm Hk st. unfold mbind, FileManager.FM_bind.
  specialize (Hm st). destruct (m st) as [[a|e] st']; cbn in *; [|exact Hm].
  rewrite Hk. exact Hm.
Qed.

Lemma keeps_manager_preserves {A X} (part : FileManager.AppFileManager App → X)
    (m : FM A) :
  keeps_manager m → preserves part m.
Proof. intros Hm st. rewrite Hm. reflexivity. Qed.

Lemma preserves_when {X} (part : FileManager.AppFileManager App → X) b (m : FM ()) :
  preserves part m → preserves part (FileManager.when_ b m).
Proof. destruct b; [auto|]. intros _ st. reflexivity. Qed.

(** [_save_file] changes of the manager at most what the [rename] it
    calls changes. *)
Lemma preserves_save_file_with {X} (part : FileManager.AppFileManager App → X)
    (rename : pystr → FM ()) f notebook persist previous :
  (∀ g, preserves part (rename g)) →
  preserves part (FileManager._save_file_with os rename f notebook persist previous).
Proof.
  intros Hrename. unfold FileManager._save_file_with.
  apply preserves_bind; [intros ?; reflexivity|]. intros _.
  apply preserves_bind.
  { destruct (_ || _).
    - apply preserves_bind; [intros ?; reflexivity|]. intros a.
      apply preserves_bind; [intros ?; reflexivity|]. intros sf.
      apply preserves_bind; [intros ?; reflexivity|]. intros fs.
      intros ?; reflexivity.
    - apply preserves_bind; [|intros ? ?; reflexivity].
      destruct (match previous with Some _ => _ | None => _ end).
      + apply preserves_bind; [intros ?; reflexivity|]. intros fs.
        apply preserves_bind; [intros ?; reflexivity|]. intros md.
        intros ?; reflexivity.
      + apply preserves_bind; [intros ?; reflexivity|]. intros fs.
        intros ?; reflexivity. }
  intros contents.
  apply preserves_bind.
  { apply preserves_when, keeps_manager_preserves, keeps_manager_create_file. }
  intros _. apply preserves_bind; [intros ?; reflexivity|]. intros unnamed.
  apply preserves_bind; [apply preserves_when, Hrename|].
  intros _ ?; reflexivity.
Qed.

Lemma keeps_app_rename_with
    (save_file : pystr → IR → bool → option pystr → FM pystr) new_filename :
  (∀ f notebook persist previous,
     keeps_app (save_file f notebook persist previous)) →
  keeps_app (FileManager.rename_with os save_file new_filename).
Proof.
  intros Hsave. unfold keeps_app, FileManager.rename_with.
  apply preserves_bind.
  { intros [mgr fs]. rewrite _is_same_path_eval. reflexivity. }
  intros [|]; [intros ?; reflexivity|].
  apply preserves_bind.
  { intros [mgr fs]. rewrite _assert_path_does_not_exist_eval.
    destruct (FileManager.path_exists os fs _); reflexivity. }
  intros _. apply preserves_bind; [intros ?; reflexivity|].
  intros [current|].
  - apply preserves_bind.
    { apply preserves_bind; [|intros ? ?; reflexivity].
      unfold FileManager._rename_file.
      apply preserves_bind; [intros ?; reflexivity|].
      intros [c|]; [|intros ?; reflexivity].
      apply preserves_bind; [intros ?; reflexivity|]. intros _.
      apply keeps_manager_preserves, keeps_manager_or_server_error. }
    intros needs_save.
    apply preserves_bind; [intros ?; reflexivity|]. intros _.
    apply preserves_when.
    apply preserves_bind; [intros ?; reflexivity|]. intros a.
    apply preserves_bind; [apply Hsave|]. intros ? ?; reflexivity.
  - apply preserves_bind.
    { apply preserves_bind; [|intros ? ?; reflexivity].
      apply keeps_manager_preserves, keeps_manager_create_file. }
    intros needs_save.
    apply preserves_bind; [intros ?; reflexivity|]. intros _.
    apply preserves_when.
    apply preserves_bind; [intros ?; reflexivity|]. intros a.
    apply preserves_bind; [apply Hsave|]. intros ? ?; reflexivity.
Qed.

Lemma keeps_app_rename_at depth new_filename :
  keeps_app (FileManager.rename_at os depth new_filename).
Proof.
  revert new_filename. induction depth as [|depth IH]; intros new_filename;
    cbn [FileManager.rename_at]; apply keeps_app_rename_with; intros;
    apply preserves_save_file_with; [intros g st; reflexivity|exact IH].
Qed.

(** On a named notebook [_save_file] changes at most the file system. *)
Lemma _save_file_named_keeps f notebook persist previous st :
  FileManager.filename st.1 ≠ None →
  (FileManager._save_file os f notebook persist previous st).2.1 = st.1.
Proof.
  intros Hnamed. unfold FileManager._save_file, FileManager._save_file_at.
  rewrite (_save_file_with_named os _ (λ _, mret ()) _ _ _ _ _ Hnamed).
  apply (preserves_save_file_with id). intros g ?; reflexivity.
Qed.

(** X16.  [rename] to a path that is not the notebook's own and that
    exists raises [HTTPException] with status 400 and leaves the manager
    and the file system as they were. *)
Theorem rename_refuses_existing_path (depth : nat)
    (mgr : FileManager.AppFileManager App) (fs : FS) (new_filename : pystr) :
  let target := FileManager.canonicalize_filename os new_filename in
  other_path os mgr fs target →
  FileManager.path_exists os fs target = true →
  FileManager.rename_at os depth new_filename (mgr, fs)
  = (Raise (HTTPException FileManager.BAD_REQUEST), (mgr, fs)).
Proof.
  intros target Ho He. rewrite rename_paths. fold target. rewrite He.
  destruct (FileManager.filename mgr) as [current|] eqn:Hf; [|reflexivity].
  rewrite bool_decide_eq_false_2; [reflexivity|]. apply Ho. exact Hf.
Qed.

(** X17.  [rename] of an unnamed notebook to a path that does not exist
    makes the directories of the path and an empty file there, and gives
    the notebook the canonical name; when the file cannot be written it
    raises [HTTPException] with status 500 and the notebook stays
    unnamed. *)
Theorem rename_unnamed (depth : nat) (mgr : FileManager.AppFileManager App)
    (fs : FS) (new_filename : pystr) :
  let target := FileManager.canonicalize_filename os new_filename in
  FileManager.filename mgr = None →
  FileManager.path_exists os fs target = false →
  FileManager.rename_at os depth new_filename (mgr, fs)
  = match FileManager.write_text os target []
            (FileManager.mkdir_parents os target fs) with
    | (Ok _, fs') => (Ok (), (renamed mgr target, fs'))
    | (Raise _, fs') => (Raise (HTTPException FileManager.SERVER_ERROR), (mgr, fs'))
    end.
Proof.
  intros target Hf He. rewrite rename_paths. fold target.
  rewrite Hf, He. reflexivity.
Qed.

(** X18.  [rename] of a named notebook to another path that does not
    exist moves the file, after making the directories of the new path.
    When the move fails, [HTTPException] with status 500 is raised and the
    manager keeps its file name.  When it succeeds the manager has the
    canonical new name, and the notebook is then saved to it, with the old
    name as the previous one, exactly when the last three characters of
    the two names differ. *)
Theorem rename_named (depth : nat) (mgr : FileManager.AppFileManager App)
    (fs : FS) (new_filename current : pystr) :
  let target := FileManager.canonicalize_filename os new_filename in
  FileManager.filename mgr = Some current →
  FileManager.abspath os fs current ≠ FileManager.abspath os fs target →
  FileManager.path_exists os fs target = false →
  FileManager.rename_at os depth new_filename (mgr, fs)
  = match FileManager.rename_path os current target
            (FileManager.mkdir_parents os target fs) with
    | (Ok _, fs') =>
        if bool_decide (FileManager.last_chars 3 current
                        = FileManager.last_chars 3 target)
        then (Ok (), (renamed mgr target, fs'))
        else forget (FileManager._save_file os target
                       (FileManager.to_ir os (FileManager.app mgr)) true
                       (Some current) (renamed mgr target, fs'))
    | (Raise _, fs') => (Raise (HTTPException FileManager.SERVER_ERROR), (mgr, fs'))
    end.
Proof.
  intros target Hf Hne He. rewrite rename_paths. fold target.
  rewrite Hf, He, bool_decide_eq_false_2 by exact Hne. reflexivity.
Qed.

(** X19.  Neither [rename] nor [_save_file] changes the app of the
    manager, whether they return or raise. *)
Theorem rename_and_save_file_keep_app (depth : nat) (new_filename f : pystr)
    (notebook : IR) (persist : bool) (previous : option pystr) :
  keeps_app (FileManager.rename_at os depth new_filename)
  ∧ keeps_app (FileManager._save_file_at os depth f notebook persist previous).
Proof.
  split; [apply keeps_app_rename_at|].
  apply preserves_save_file_with. intros g. apply keeps_app_rename_at.
Qed.

(** X20.  When [rename] returns, the notebook has a name for the path
    asked for, as the paths were resolved when it was called. *)
Theorem rename_names_the_notebook (depth : nat)
    (mgr mgr' : FileManager.AppFileManager App) (fs fs' : FS)
    (new_filename : pystr) :
  FileManager.rename_at os depth new_filename (mgr, fs) = (Ok (), (mgr', fs')) →
  named_for os mgr' fs (FileManager.canonicalize_filename os new_filename).
Proof.
  rewrite rename_paths.
  set (target := FileManager.canonicalize_filename os new_filename).
  assert (Hnew : named_for os (renamed mgr target) fs target)
    by (exists target; split; reflexivity).
  destruct (FileManager.filename mgr) as [current|] eqn:Hf.
  - case_bool_decide as Hsame.
    { intros [= <- <-]. exists current. split; assumption. }
    destruct (FileManager.path_exists os fs target); [discriminate|].
    destruct (FileManager.rename_path os current target _) as [[u|e] fs1];
      [|discriminate].
    case_bool_decide as Hsuffix; [intros [= <- <-]; exact Hnew|].
    pose proof (_save_file_named_keeps target
                  (FileManager.to_ir os (FileManager.app mgr)) true (Some current)
                  (renamed mgr target, fs1)) as Hkeeps.
    unfold forget. intros [= _ Hst]. rewrite Hst in Hkeeps.
    cbn [fst snd] in Hkeeps. rewrite Hkeeps by discriminate. exact Hnew.
  - destruct (FileManager.path_exists os fs target); [discriminate|].
    destruct (FileManager.write_text os target [] _) as [[u|e] fs1];
      [|discriminate].
    intros [= <- <-]. exact Hnew.
Qed.

End Rename.

Lemma rename_refuses_existing_path_witness :
  FileManager.rename DemoNotebook.os (py "/work/other.py")
    (DemoNotebook.named, DemoNotebook.files)
  = (Raise (HTTPException FileManager.BAD_REQUEST),
     (DemoNotebook.named, DemoNotebook.files)).
Proof.
  apply (rename_refuses_existing_path DemoNotebook.os 2 DemoNotebook.named
           DemoNotebook.files (py "/work/other.py")).
  - intros current [= <-]. vm_compute. discriminate.
  - reflexivity.
Defined.

Lemma rename_unnamed_witness :
  FileManager.rename DemoNotebook.os (py "/work/new.py")
    (DemoNotebook.unnamed, DemoNotebook.files)
  = (Ok (), (renamed DemoNotebook.unnamed (py "/work/new.py"),
             <[py "/work/new.py" := []]> DemoNotebook.files)).
Proof.
  apply (rename_unnamed DemoNotebook.os 2 DemoNotebook.unnamed DemoNotebook.files
           (py "/work/new.py")); reflexivity.
Defined.

Lemma rename_named_witness :
  FileManager.rename DemoNotebook.os (py "/work/nb.md")
    (DemoNotebook.named, DemoNotebook.files)
  = forget (FileManager._save_file DemoNotebook.os (py "/work/nb.md") (py "x = 1")
              true (Some (py "/work/nb.py"))
              (renamed DemoNotebook.named (py "/work/nb.md"),
               <[py "/work/nb.md" := py "x = 1"]>
                 (delete (py "/work/nb.py") DemoNotebook.files))).
Proof.
  apply (rename_named DemoNotebook.os 2 DemoNotebook.named DemoNotebook.files
           (py "/work/nb.md") (py "/work/nb.py")).
  - reflexivity.
  - vm_compute. discriminate.
  - reflexivity.
Defined.

Lemma rename_names_the_notebook_witness :
  named_for DemoNotebook.os
    (FileManager.rename DemoNotebook.os (py "/work/nb.md")
       (DemoNotebook.named, DemoNotebook.files)).2.1
    DemoNotebook.files (py "/work/nb.md").
Proof.
  destruct (FileManager.rename DemoNotebook.os (py "/work/nb.md")
              (DemoNotebook.named, DemoNotebook.files)) as [[[]|e] [mgr' fs']] eqn:H;
    [|vm_compute in H; discriminate H].
  exact (rename_names_the_notebook DemoNotebook.os 2 DemoNotebook.named mgr'
           DemoNotebook.files fs' (py "/work/nb.md") H).
Defined.

(** ** [save] and [save_app_config] *)

Section Save.
Context {FS App IR Cells Layout Config : Type}.
Context (os : FileManager.OS FS App IR).
Context (ops : FileManagerMore.AppOps FS App Cells Layout Config).

#[local] Existing Instances FileManager.FM_ret FileManager.FM_bind.
Local Abbreviation FM := (@FileManager.FM FS App).

Lemma keeps_name_bind {A B} (m : FM A) (k : A → FM B) :
  keeps_name m → (∀ a, keeps_name (k a)) → keeps_name (m ≫= k).
Proof.
  intros Hm Hk st Hnamed. unfold mbind, FileManager.FM_bind.
  specialize (Hm st Hnamed). destruct (m st) as [[a|e] st']; cbn in *; [|exact Hm].
  rewrite Hk; [exact Hm|]. rewrite Hm. exact Hnamed.
Qed.

Lemma keeps_name_modify_app (f : App → result () * App) :
  keeps_name (FileManagerMore.modify_app (FS:=FS) f).
Proof.
  intros st _. unfold FileManagerMore.modify_app.
  destruct (f (FileManager.app st.1)) as [r a]. reflexivity.
Qed.

Lemma keeps_name_save_file f notebook persist previous :
  keeps_name (FileManager._save_file os f notebook persist previous).
Proof. intros st Hnamed. rewrite _save_file_named_keeps by exact Hnamed. reflexivity. Qed.

Lemma modify_app_eval (f : App → result () * App)
    (mgr : FileManager.AppFileManager App) (fs : FS) :
  FileManagerMore.modify_app f (mgr, fs)
  = ((f (FileManager.app mgr)).1, (with_app mgr (f (FileManager.app mgr)).2, fs)).
Proof.
  unfold FileManagerMore.modify_app. cbn [fst snd].
  destruct (f (FileManager.app mgr)) as [r a]. reflexivity.
Qed.

Lemma _is_unnamed_eval (mgr : FileManager.AppFileManager App) (fs : FS) :
  FileManager._is_unnamed (mgr, fs)
  = (Ok (bool_decide (FileManager.filename mgr = None)), (mgr, fs)).
Proof. reflexivity. Qed.

(** [_save_file] of a Python notebook, up to the contents. *)
Lemma _save_file_contents rename f notebook persist mgr fs contents :
  FileManager.endswith (py ".md") f = false →
  FileManager.endswith (py ".qmd") f = false →
  let fs0 := FileManager.log_debug os f fs in
  FileManager.to_py os notebook
    (default [] (FileManager.get_header_comments os f fs0)) = Ok contents →
  FileManager._save_file_with os rename f notebook persist None (mgr, fs)
  = (_ ← FileManager.when_ persist (FileManager._create_file os f contents);
     unnamed ← FileManager._is_unnamed;
     _ ← FileManager.when_ unnamed (rename f);
     mret contents) (mgr, fs0).
Proof.
  intros Hmd Hqmd fs0 Hpy. unfold FileManager._save_file_with.
  rewrite (FM_bind_Ok (FileManager.on_fs (FileManager.log_debug os f)) _
             (mgr, fs) () (mgr, fs0) eq_refl).
  rewrite Hmd, Hqmd. cbn [orb].
  rewrite (FM_bind_Ok _ _ (mgr, fs0) contents (mgr, fs0)); [reflexivity|].
  unfold mbind, FileManager.FM_bind, FileManager.get_fs, mret, FileManager.FM_ret,
    FileManager.of_result. cbn [fst snd]. fold fs0. rewrite Hpy. reflexivity.
Qed.

(** X21.  Neither [save] nor [save_app_config] changes the file name of
    a named notebook, whether they return or raise. *)
Theorem save_never_renames (request : FileManagerMore.SaveNotebookRequest Cells Layout)
    (config : Config) (mgr : FileManager.AppFileManager App) (fs : FS) :
  FileManager.filename mgr ≠ None →
  FileManager.filename (FileManagerMore.save os ops request (mgr, fs)).2.1
  = FileManager.filename mgr
  ∧ FileManager.filename (FileManagerMore.save_app_config os ops config (mgr, fs)).2.1
    = FileManager.filename mgr.
Proof.
  intros Hnamed. split.
  - apply (keeps_name_bind _ _ (keeps_name_modify_app _)); [|exact Hnamed].
    intros _. apply keeps_name_bind; [intros ? ?; reflexivity|]. intros named.
    apply keeps_name_bind.
    { destruct named; [|intros ? ?; reflexivity].
      apply keeps_name_bind; [|intros ? ? ?; reflexivity].
      intros [m f] _. rewrite _is_same_path_eval. reflexivity. }
    intros [|]; [intros ? ?; reflexivity|].
    apply keeps_name_bind.
    { destruct (FileManagerMore.req_layout request) as [layout|];
        [|apply keeps_name_modify_app].
      apply keeps_name_bind; [|intros; apply keeps_name_modify_app].
      intros st _. unfold FileManagerMore.fs_op.
      destruct (FileManagerMore.save_layout_config ops _ _ layout st.2) as [r fs'].
      reflexivity. }
    intros _. apply keeps_name_bind; [intros ? ?; reflexivity|]. intros a.
    apply keeps_name_save_file.
  - apply (keeps_name_bind _ _ (keeps_name_modify_app _)); [|exact Hnamed].
    intros _. apply keeps_name_bind; [intros ? ?; reflexivity|].
    intros [f|]; [|intros ? ?; reflexivity].
    apply keeps_name_bind; [intros ? ?; reflexivity|]. intros a.
    apply keeps_name_save_file.
Qed.

(** X22.  [save] of a named notebook under another path raises
    [HTTPException] with status 400 and writes nothing; the app has by
    then taken the cells of the request. *)
Theorem save_refuses_rename (request : FileManagerMore.SaveNotebookRequest Cells Layout)
    (mgr : FileManager.AppFileManager App) (fs : FS) (current : pystr) (a : App) :
  let target := FileManager.canonicalize_filename os (FileManagerMore.req_filename request) in
  FileManager.filename mgr = Some current →
  FileManager.abspath os fs current ≠ FileManager.abspath os fs target →
  FileManagerMore.with_data ops (FileManager.app mgr) (FileManagerMore.req_cells request)
  = (Ok (), a) →
  FileManagerMore.save os ops request (mgr, fs)
  = (Raise (HTTPException FileManager.BAD_REQUEST), (with_app mgr a, fs)).
Proof.
  intros target Hf Hne Hdata. unfold FileManagerMore.save. fold target.
  rewrite (FM_bind_Ok _ _ (mgr, fs) () (with_app mgr a, fs))
    by (rewrite modify_app_eval, Hdata; reflexivity).
  rewrite (FM_bind_Ok FileManagerMore.is_notebook_named _ (with_app mgr a, fs)
             true (with_app mgr a, fs)).
  2: { unfold FileManagerMore.is_notebook_named, mbind, FileManager.FM_bind,
         FileManager.get_filename_, mret, FileManager.FM_ret. cbn [fst snd with_app
         FileManager.filename]. rewrite Hf. reflexivity. }
  rewrite (FM_bind_Ok _ _ (with_app mgr a, fs) true (with_app mgr a, fs));
    [reflexivity|].
  rewrite (FM_bind_Ok _ _ _ _ _ (_is_same_path_eval os (with_app mgr a) fs target)).
  cbn [with_app FileManager.filename]. rewrite Hf.
  rewrite bool_decide_eq_false_2 by exact Hne. reflexivity.
Qed.

(** X23.  [_save_file] with [persist] of a Python notebook that has no
    name writes the contents to the file and then calls [rename] with that
    file name: when the path exists once written, this raises
    [HTTPException] with status 400, and the notebook stays unnamed
    although its file is written. *)
Theorem save_file_unnamed_persist (mgr : FileManager.AppFileManager App)
    (fs fs' : FS) (f contents : pystr) (notebook : IR) :
  let fs0 := FileManager.log_debug os f fs in
  FileManager.filename mgr = None →
  FileManager.endswith (py ".md") f = false →
  FileManager.endswith (py ".qmd") f = false →
  FileManager.to_py os notebook
    (default [] (FileManager.get_header_comments os f fs0)) = Ok contents →
  FileManager.write_text os f contents (FileManager.mkdir_parents os f fs0)
  = (Ok (), fs') →
  FileManager.path_exists os fs' (FileManager.canonicalize_filename os f) = true →
  FileManager._save_file os f notebook true None (mgr, fs)
  = (Raise (HTTPException FileManager.BAD_REQUEST), (mgr, fs')).
Proof.
  intros fs0 Hf Hmd Hqmd Hpy Hw He.
  unfold FileManager._save_file, FileManager._save_file_at.
  rewrite (_save_file_contents _ _ _ _ _ _ _ Hmd Hqmd Hpy). fold fs0.
  rewrite (FM_bind_Ok _ _ (mgr, fs0) () (mgr, fs'))
    by (cbn [FileManager.when_]; rewrite _create_file_eval, Hw; reflexivity).
  rewrite (FM_bind_Ok _ _ _ _ _ (_is_unnamed_eval mgr fs')).
  rewrite bool_decide_eq_true_2 by exact Hf. cbn [FileManager.when_].
  apply FM_bind_Raise. rewrite rename_paths, Hf, He. reflexivity.
Qed.

(** X24.  [_save_file] without [persist] of a Python notebook that has
    no name, at a path that does not exist, returns the contents without
    writing them: the [rename] it calls makes an empty file at the
    canonical path and gives the notebook that name. *)
Theorem save_file_unnamed_without_persist (mgr : FileManager.AppFileManager App)
    (fs fs' : FS) (f contents : pystr) (notebook : IR) :
  let fs0 := FileManager.log_debug os f fs in
  let target := FileManager.canonicalize_filename os f in
  FileManager.filename mgr = None →
  FileManager.endswith (py ".md") f = false →
  FileManager.endswith (py ".qmd") f = false →
  FileManager.to_py os notebook
    (default [] (FileManager.get_header_comments os f fs0)) = Ok contents →
  FileManager.path_exists os fs0 target = false →
  FileManager.write_text os target [] (FileManager.mkdir_parents os target fs0)
  = (Ok (), fs') →
  FileManager._save_file os f notebook false None (mgr, fs)
  = (Ok contents, (renamed mgr target, fs')).
Proof.
  intros fs0 target Hf Hmd Hqmd Hpy He Hw.
  unfold FileManager._save_file, FileManager._save_file_at.
  rewrite (_save_file_contents _ _ _ _ _ _ _ Hmd Hqmd Hpy). fold fs0.
  rewrite (FM_bind_Ok _ _ (mgr, fs0) () (mgr, fs0) eq_refl).
  rewrite (FM_bind_Ok _ _ _ _ _ (_is_unnamed_eval mgr fs0)).
  rewrite bool_decide_eq_true_2 by exact Hf. cbn [FileManager.when_].
  rewrite (FM_bind_Ok _ _ (mgr, fs0) () (renamed mgr target, fs')); [reflexivity|].
  rewrite rename_paths, Hf. fold target. rewrite He, Hw. reflexivity.
Qed.

End Save.

Lemma save_never_renames_witness :
  FileManager.filename
    (FileManagerMore.save DemoNotebook.os DemoNotebook.ops
       (DemoNotebook.request (py "/work/nb.py") true)
       (DemoNotebook.named, DemoNotebook.files)).2.1
  = Some (py "/work/nb.py").
Proof.
  apply (save_never_renames DemoNotebook.os DemoNotebook.ops
           (DemoNotebook.request (py "/work/nb.py") true) None
           DemoNotebook.named DemoNotebook.files).
  discriminate.
Defined.

Lemma save_refuses_rename_witness :
  FileManagerMore.save DemoNotebook.os DemoNotebook.ops
    (DemoNotebook.request (py "/work/other.py") true)
    (DemoNotebook.named, DemoNotebook.files)
  = (Raise (HTTPException FileManager.BAD_REQUEST),
     (with_app DemoNotebook.named (py "x = 2", None), DemoNotebook.files)).
Proof.
  apply (save_refuses_rename DemoNotebook.os DemoNotebook.ops
           (DemoNotebook.request (py "/work/other.py") true)
           DemoNotebook.named DemoNotebook.files (py "/work/nb.py")).
  - reflexivity.
  - vm_compute. discriminate.
  - reflexivity.
Defined.

Lemma save_file_unnamed_persist_witness :
  FileManager._save_file DemoNotebook.os (py "/work/new.py") (py "x = 2") true None
    (DemoNotebook.unnamed, DemoNotebook.files)
  = (Raise (HTTPException FileManager.BAD_REQUEST),
     (DemoNotebook.unnamed, <[py "/work/new.py" := py "x = 2"]> DemoNotebook.files)).
Proof.
  apply (save_file_unnamed_persist DemoNotebook.os DemoNotebook.unnamed
           DemoNotebook.files _ (py "/work/new.py") (py "x = 2") (py "x = 2"));
    reflexivity.
Defined.

Lemma save_file_unnamed_without_persist_witness :
  FileManager._save_file DemoNotebook.os (py "/work/new.py") (py "x = 2") false None
    (DemoNotebook.unnamed, DemoNotebook.files)
  = (Ok (py "x = 2"),
     (renamed DemoNotebook.unnamed (py "/work/new.py"),
      <[py "/work/new.py" := []]> DemoNotebook.files)).
Proof.
  apply (save_file_unnamed_without_persist DemoNotebook.os DemoNotebook.unnamed
           DemoNotebook.files _ (py "/work/new.py") (py "x = 2") (py "x = 2"));
    reflexivity.
Defined.

(** ** [read_css_file] and [read_html_head_file] *)

Section ReadFiles.
Context {FS : Type} (p : FileManagerMore.Paths FS).

(** X25.  When [read_css_file] returns a text, it is the text of the
    file it resolves [css_file] to: [css_file] itself when it is absolute,
    and else the path beside the notebook, which then has a name; the path
    exists, and nothing is logged. *)
Theorem read_css_file_text (fs : FS) (css_file : pystr) (filename : option pystr)
    (text : pystr) (log : list FileManagerMore.log_record) :
  FileManagerMore.read_css_file p fs css_file filename = (Ok (Some text), log) →
  log = [] ∧ css_file ≠ []
  ∧ ∃ filepath, resolved p css_file filename filepath
                ∧ FileManagerMore.exists_ p fs filepath = Ok true
                ∧ FileManagerMore.read_text p fs filepath = Ok text.
Proof.
  unfold FileManagerMore.read_css_file.
  case_bool_decide as Hcss; [discriminate|].
  assert (Hgo : ∀ filepath,
    match FileManagerMore.exists_ p fs filepath with
    | Raise e => (Raise e, [])
    | Ok false =>
        (Ok None, [FileManagerMore.LogError (py "CSS file %s does not exist")
                     [filepath]])
    | Ok true =>
        match FileManagerMore.read_text p fs filepath with
        | Ok text => (Ok (Some text), [])
        | Raise e =>
            if FileManagerMore.is_OSError e
            then (Ok None,
                  [FileManagerMore.LogWarning
                     (py "Failed to open custom CSS file %s for reading: %s")
                     [filepath; FileManagerMore.str_of_exn p e]])
            else (Raise e, [])
        end
    end = (Ok (Some text), log) →
    log = [] ∧ FileManagerMore.exists_ p fs filepath = Ok true
    ∧ FileManagerMore.read_text p fs filepath = Ok text).
  { intros filepath.
    destruct (FileManagerMore.exists_ p fs filepath) as [[|]|e0]; try discriminate.
    destruct (FileManagerMore.read_text p fs filepath) as [t|e].
    - intros [= -> <-]. auto.
    - destruct (FileManagerMore.is_OSError e); discriminate. }
  destruct (FileManagerMore.is_absolute p css_file) eqn:Habs; cbn [negb].
  - intros H. apply Hgo in H as (-> & He & Hr).
    split; [reflexivity|]. split; [exact Hcss|].
    exists css_file. split; [left; auto|auto].
  - destruct filename as [f|]; [|discriminate].
    case_bool_decide as Hf; [discriminate|].
    intros H. apply Hgo in H as (-> & He & Hr).
    split; [reflexivity|]. split; [exact Hcss|].
    exists (FileManagerMore.beside p f css_file).
    split; [right; split; [exact Habs|]; exists f; auto|]. auto.
Qed.

(** X26.  An exception that gets out of either function comes from the
    look-up whether the file exists, which is outside the [try], or from
    the reading, and is then no [OSError]: an [OSError] of the reading
    never gets out.  Nothing is logged when an exception gets out. *)
Theorem read_files_exception (fs : FS) (file : pystr)
    (filename : option pystr) (e : exn) (log : list FileManagerMore.log_record) :
  FileManagerMore.read_css_file p fs file filename = (Raise e, log)
  ∨ FileManagerMore.read_html_head_file p fs file filename = (Raise e, log) →
  log = []
  ∧ ∃ filepath,
      FileManagerMore.exists_ p fs filepath = Raise e
      ∨ (FileManagerMore.exists_ p fs filepath = Ok true
         ∧ FileManagerMore.read_text p fs filepath = Raise e
         ∧ FileManagerMore.is_OSError e = false).
Proof.
  unfold FileManagerMore.read_css_file, FileManagerMore.read_html_head_file.
  intros [H|H]; revert H.
  - case_bool_decide; [discriminate|].
    assert (Hgo : ∀ filepath,
      match FileManagerMore.exists_ p fs filepath with
      | Raise e => (Raise e, [])
      | Ok false =>
          (Ok None, [FileManagerMore.LogError (py "CSS file %s does not exist")
                       [filepath]])
      | Ok true =>
          match FileManagerMore.read_text p fs filepath with
          | Ok text => (Ok (Some text), [])
          | Raise e =>
              if FileManagerMore.is_OSError e
              then (Ok None,
                    [FileManagerMore.LogWarning
                       (py "Failed to open custom CSS file %s for reading: %s")
                       [filepath; FileManagerMore.str_of_exn p e]])
              else (Raise e, [])
          end
      end = (Raise e, log) →
      log = []
      ∧ ∃ filepath,
          FileManagerMore.exists_ p fs filepath = Raise e
          ∨ (FileManagerMore.exists_ p fs filepath = Ok true
             ∧ FileManagerMore.read_text p fs filepath = Raise e
             ∧ FileManagerMore.is_OSError e = false)).
    { intros filepath.
      destruct (FileManagerMore.exists_ p fs filepath) as [[|]|e0] eqn:He;
        [| discriminate |].
      - destruct (FileManagerMore.read_text p fs filepath) as [t|e'] eqn:Hr;
          [discriminate|].
        destruct (FileManagerMore.is_OSError e') eqn:He'; [discriminate|].
        intros [= <- <-]. split; [reflexivity|]. exists filepath. right. auto.
      - intros [= <- <-]. split; [reflexivity|]. exists filepath. left. exact He. }
    destruct (FileManagerMore.is_absolute p file); cbn [negb]; [apply Hgo|].
    destruct filename as [f|]; [|discriminate].
    case_bool_decide; [discriminate|apply Hgo].
  - destruct filename as [f|]; [|discriminate].
    destruct (_ || _); [discriminate|].
    destruct (FileManagerMore.exists_ p fs _) as [[|]|e0] eqn:He;
      [| discriminate |].
    + destruct (FileManagerMore.read_text p fs _) as [t|e'] eqn:Hr; [discriminate|].
      destruct (FileManagerMore.is_OSError e') eqn:He'; [discriminate|].
      intros [= <- <-]. split; [reflexivity|]. eexists. right. eauto.
    + intros [= <- <-]. split; [reflexivity|]. eexists. left. exact He.
Qed.

(** X27.  An absolute [css_file] is read whatever the file name of the
    notebook, and also when it has none. *)
Theorem read_css_file_absolute (fs : FS) (css_file : pystr)
    (filename filename' : option pystr) :
  FileManagerMore.is_absolute p css_file = true →
  FileManagerMore.read_css_file p fs css_file filename
  = FileManagerMore.read_css_file p fs css_file filename'.
Proof.
  intros Habs. unfold FileManagerMore.read_css_file. rewrite Habs. reflexivity.
Qed.

(** X28.  On a path that is not absolute the two functions return the
    same: they differ in what they log only. *)
Theorem read_files_agree (fs : FS) (file : pystr) (filename : option pystr) :
  FileManagerMore.is_absolute p file = false →
  (FileManagerMore.read_css_file p fs file filename).1
  = (FileManagerMore.read_html_head_file p fs file filename).1.
Proof.
  intros Habs. unfold FileManagerMore.read_css_file,
    FileManagerMore.read_html_head_file. rewrite Habs. cbn [negb].
  destruct filename as [f|]; [|case_bool_decide; reflexivity].
  do 2 case_bool_decide; cbn [orb]; try reflexivity.
  destruct (FileManagerMore.exists_ p fs _) as [[|]|e0]; try reflexivity.
  destruct (FileManagerMore.read_text p fs _) as [t|e]; [reflexivity|].
  destruct (FileManagerMore.is_OSError e); reflexivity.
Qed.

End ReadFiles.

Lemma read_css_file_text_witness :
  ∃ filepath,
    resolved DemoNotebook.paths (py "style.css") (Some (py "/work/nb.py")) filepath
    ∧ FileManagerMore.exists_ DemoNotebook.paths DemoNotebook.assets filepath = Ok true
    ∧ FileManagerMore.read_text DemoNotebook.paths DemoNotebook.assets filepath
      = Ok (py "body {}").
Proof.
  apply (read_css_file_text DemoNotebook.paths DemoNotebook.assets
           (py "style.css") (Some (py "/work/nb.py")) (py "body {}") [] eq_refl).
Defined.

(** A style sheet that cannot be decoded, and a path too long to look
    up. *)
Lemma read_files_exception_witness :
  (∃ filepath,
     FileManagerMore.exists_ DemoNotebook.paths DemoNotebook.assets filepath
     = Raise FileManagerMore.UnicodeDecodeError
     ∨ (FileManagerMore.exists_ DemoNotebook.paths DemoNotebook.assets filepath
        = Ok true
        ∧ FileManagerMore.read_text DemoNotebook.paths DemoNotebook.assets filepath
          = Raise FileManagerMore.UnicodeDecodeError
        ∧ FileManagerMore.is_OSError FileManagerMore.UnicodeDecodeError = false))
  ∧ (∃ filepath,
       FileManagerMore.exists_ DemoNotebook.paths DemoNotebook.assets filepath
       = Raise FileManagerMore.OSError
       ∨ (FileManagerMore.exists_ DemoNotebook.paths DemoNotebook.assets filepath
          = Ok true
          ∧ FileManagerMore.read_text DemoNotebook.paths DemoNotebook.assets filepath
            = Raise FileManagerMore.OSError
          ∧ FileManagerMore.is_OSError FileManagerMore.OSError = false)).
Proof.
  split.
  - apply (read_files_exception DemoNotebook.paths DemoNotebook.assets
             (py "/work/empty.css") None FileManagerMore.UnicodeDecodeError []).
    left. reflexivity.
  - apply (read_files_exception DemoNotebook.paths DemoNotebook.assets
             (py "a-style-sheet-with-a-very-long-name.css") (Some (py "/work/nb.py"))
             FileManagerMore.OSError []).
    right. reflexivity.
Defined.

Lemma read_css_file_absolute_witness :
  FileManagerMore.read_css_file DemoNotebook.paths DemoNotebook.assets
    (py "/work/style.css") None
  = (Ok (Some (py "body {}")), []).
Proof.
  rewrite (read_css_file_absolute DemoNotebook.paths DemoNotebook.assets
             (py "/work/style.css") None (Some (py "/work/nb.py")) eq_refl).
  reflexivity.
Defined.

Lemma read_files_agree_witness :
  (FileManagerMore.read_html_head_file DemoNotebook.paths DemoNotebook.assets
     (py "style.css") (Some (py "/work/nb.py"))).1
  = Ok (Some (py "body {}")).
Proof.
  rewrite <- (read_files_agree DemoNotebook.paths DemoNotebook.assets
                (py "style.css") (Some (py "/work/nb.py")) eq_refl).
  reflexivity.
Defined.
